(** * StockSentinel: indicator engine, recommendation engine, portfolio aggregator

    A shallow embedding of [utils/data_fetcher.py] and [utils/ai_analyzer.py].

    Numbers.  Every number the program handles is a NumPy [float64] (a pandas
    column cell or a scalar taken out of one).  They are modelled as exact
    rationals extended with the three IEEE special values the program can
    produce and observe: [+inf], [-inf] and [NaN].  Rounding is abstracted,
    and so is the sign of zero: a zero divisor counts as [+0.0].  The RSI does
    not depend on that sign (a positive gain over a zero loss of either sign
    gives 100, and [0/0] is [NaN]).  Finite results are kept as reduced
    fractions, so that equal numbers are equal terms.  What is stated on
    these numbers applies the program's operations in the program's order.

    Where the result depends on the rounding itself, the numbers are IEEE 754
    binary64 numbers, the primitive [float]: the percentages of the sector
    distribution ([Portfolio64]) and the digits that [format] prints
    ([Format]).

    Objects.  A pandas [DataFrame] is a mutable object: it lives in a store
    and is passed by reference, as in the source.  Python dictionaries are
    finite maps. *)

From Stdlib Require Import QArith Qreduction Qfield Qabs Lia Lqa Ascii DecimalString Floats.
From stdpp Require Import gmap strings list fin_maps functions.

Open Scope string_scope.

(* ================================================================== *)
(** * float64 values *)
(* ================================================================== *)

Module Float.

Inductive num : Type :=
  | Fin (q : Q)
  | PInf
  | NInf
  | NaN.

(** A finite result, stored as a reduced fraction.  The result is exact: the
    rounding of [float64] is not part of this model of the numbers. *)
Definition fin (q : Q) : num := Fin (Qred q).

Definition zero : num := Fin 0.
Definition of_Z (z : Z) : num := Fin (inject_Z z).

Definition Qpos_b (q : Q) : bool := (0 <? Qnum q)%Z.
Definition Qneg_b (q : Q) : bool := (Qnum q <? 0)%Z.
Definition Qzero_b (q : Q) : bool := (Qnum q =? 0)%Z.
Definition Qlt_b (a b : Q) : bool :=
  match (a ?= b)%Q with Lt => true | _ => false end.

(** [-x] *)
Definition neg (x : num) : num :=
  match x with
  | Fin q => fin (- q)
  | PInf => NInf
  | NInf => PInf
  | NaN => NaN
  end.

(** [x + y] *)
Definition add (x y : num) : num :=
  match x, y with
  | NaN, _ | _, NaN => NaN
  | Fin a, Fin b => fin (a + b)
  | PInf, NInf | NInf, PInf => NaN
  | PInf, _ | _, PInf => PInf
  | NInf, _ | _, NInf => NInf
  end.

(** [x - y] *)
Definition sub (x y : num) : num :=
  match x, y with
  | NaN, _ | _, NaN => NaN
  | Fin a, Fin b => fin (a - b)
  | PInf, PInf | NInf, NInf => NaN
  | PInf, _ | _, NInf => PInf
  | NInf, _ | _, PInf => NInf
  end.

(** The infinity with the sign of [q]; [inf * 0] is [NaN]. *)
Definition inf_signed (positive : bool) (q : Q) : num :=
  if Qzero_b q then NaN
  else if Bool.eqb positive (Qpos_b q) then PInf else NInf.

(** [x * y] *)
Definition mul (x y : num) : num :=
  match x, y with
  | NaN, _ | _, NaN => NaN
  | Fin a, Fin b => fin (a * b)
  | PInf, Fin b => inf_signed true b
  | NInf, Fin b => inf_signed false b
  | Fin a, PInf => inf_signed true a
  | Fin a, NInf => inf_signed false a
  | PInf, PInf | NInf, NInf => PInf
  | PInf, NInf | NInf, PInf => NInf
  end.

(** [x / y], NumPy semantics: no exception, a zero divisor gives an infinity
    of the sign of the dividend, and [0/0] gives [NaN]. *)
Definition div (x y : num) : num :=
  match x, y with
  | NaN, _ | _, NaN => NaN
  | Fin a, Fin b =>
      if Qzero_b b then
        (if Qzero_b a then NaN else if Qpos_b a then PInf else NInf)
      else fin (a / b)
  | Fin _, (PInf | NInf) => Fin 0
  | (PInf | NInf), (PInf | NInf) => NaN
  | PInf, Fin b => if Qneg_b b then NInf else PInf
  | NInf, Fin b => if Qneg_b b then PInf else NInf
  end.

(** [x < y]; any comparison with [NaN] is [False]. *)
Definition lt (x y : num) : bool :=
  match x, y with
  | NaN, _ | _, NaN => false
  | Fin a, Fin b => Qlt_b a b
  | NInf, (Fin _ | PInf) => true
  | Fin _, PInf => true
  | _, _ => false
  end.

(** [x > y] *)
Definition gt (x y : num) : bool := lt y x.

Definition is_finite (x : num) : bool :=
  match x with Fin _ => true | _ => false end.

Definition is_nan (x : num) : bool :=
  match x with NaN => true | _ => false end.

End Float.

Import Float.

Declare Scope num_scope.
Delimit Scope num_scope with num.
Bind Scope num_scope with num.
Infix "+" := add : num_scope.
Infix "-" := sub : num_scope.
Infix "*" := mul : num_scope.
Infix "/" := div : num_scope.
Notation "- x" := (neg x) : num_scope.
Infix ">?" := gt (at level 70) : num_scope.
Infix "<?" := lt (at level 70) : num_scope.

#[global] Arguments lt : simpl never.
#[global] Arguments gt : simpl never.
#[global] Arguments add : simpl never.
#[global] Arguments sub : simpl never.
#[global] Arguments mul : simpl never.
#[global] Arguments div : simpl never.
#[global] Arguments neg : simpl never.

(* ================================================================== *)
(** * Exceptions *)
(* ================================================================== *)

Inductive exn : Type :=
  | KeyError (key : string)
  | IndexError (msg : string)
  | Exception (msg : string).

(** [str(e)]: a [KeyError] prints the [repr] of its key. *)
Definition str (e : exn) : string :=
  match e with
  | KeyError k => "'" ++ k ++ "'"
  | IndexError m => m
  | Exception m => m
  end.

Inductive result (A : Type) : Type :=
  | Ok (a : A)
  | Raise (e : exn).
Arguments Ok {A} a.
Arguments Raise {A} e.

(** Sequencing: the first exception raised ends the computation. *)
#[global] Instance result_ret : MRet result := λ A a, Ok a.
#[global] Instance result_bind : MBind result := λ A B k r,
  match r with
  | Ok a => k a
  | Raise e => Raise e
  end.

(* ================================================================== *)
(** * pandas Series *)
(* ================================================================== *)

Module Series.

(** A float column, in index order. *)
Abbreviation Series := (list num).

Definition out_of_bounds : exn :=
  IndexError "single positional indexer is out-of-bounds".

(** [s.iloc[-k]] for [k >= 1]. *)
Definition iloc_neg (s : Series) (k : nat) : result num :=
  if (length s <? k)%nat then Raise out_of_bounds
  else match s !! (length s - k)%nat with
       | Some x => Ok x
       | None => Raise out_of_bounds
       end.

(** [s.shift(1)] followed by a subtraction: [s.diff()]. *)
Definition diff (s : Series) : Series := zip_with sub s (NaN :: s).

(** [s.where(cond, other)]: keep the cell where [cond] holds. *)
Definition where_ (s : Series) (cond : list bool) (other : num) : Series :=
  zip_with (λ x (c : bool), if c then x else other) s cond.

(** [s > c] and [s < c] against a scalar. *)
Definition gt_scalar (s : Series) (c : num) : list bool := (λ x, x >? c)%num <$> s.
Definition lt_scalar (s : Series) (c : num) : list bool := (λ x, x <? c)%num <$> s.

Definition sum (s : Series) : num := foldl add zero s.

(** The [w] cells ending at index [i]. *)
Definition window (w i : nat) (s : Series) : Series :=
  take w (drop (S i - w) s).

(** One cell of [s.rolling(window=w).mean()]: with the default
    [min_periods = w] the cell has a value only when the window is full and
    holds no [NaN]; pandas turns infinities into [NaN] before it aggregates. *)
Definition rolling_mean_at (w : nat) (s : Series) (i : nat) : num :=
  if (S i <? w)%nat then NaN
  else let win := window w i s in
       if forallb is_finite win then (sum win / of_Z (Z.of_nat w))%num else NaN.

Definition rolling_mean (w : nat) (s : Series) : Series :=
  imap (λ i _, rolling_mean_at w s i) s.

(** Cell-wise division of two aligned columns, and cell-wise negation. *)
Definition div_series (a b : Series) : Series := zip_with div a b.
Definition neg_series (a : Series) : Series := neg <$> a.

End Series.

Import Series.

(* ================================================================== *)
(** * DataFrames in the store *)
(* ================================================================== *)

(** A frame maps a column name to its cells. *)
Abbreviation DataFrame := (gmap string (list num)).

Abbreviation loc := nat.

(** Every reference denotes an object. *)
Abbreviation heap := (loc → DataFrame).

(** Computations that read and write the store and may raise; the store
    survives an exception. *)
Definition M (A : Type) : Type := heap → result A * heap.

#[global] Instance M_ret : MRet M := λ A a h, (Ok a, h).
#[global] Instance M_bind : MBind M := λ A B k m h,
  match m h with
  | (Ok a, h') => k a h'
  | (Raise e, h') => (Raise e, h')
  end.

(** [frame[col]] on the contents of a frame. *)
Definition column (frame : DataFrame) (col : string) : result Series :=
  match frame !! col with
  | Some s => Ok s
  | None => Raise (KeyError col)
  end.

(** [df[col]] *)
Definition getitem (df : loc) (col : string) : M Series :=
  λ h, (column (h df) col, h).

(** [df[col] = s] *)
Definition setitem (df : loc) (col : string) (s : list num) : M unit :=
  λ h, (Ok tt, <[df := <[col := s]> (h df)]> h).

(* ================================================================== *)
(** * data_fetcher.calculate_technical_indicators *)
(* ================================================================== *)

Definition hundred : num := of_Z 100.
Definition one : num := of_Z 1.

(** [100 - (100 / (1 + rs))] *)
Definition rsi_of_rs (rs : num) : num := (hundred - (hundred / (one + rs)))%num.

(** The three column assignments of lines 70-80; the argument is returned. *)
Definition calculate_technical_indicators (df : loc) : M loc :=
  close ← getitem df "Close";
  setitem df "MA20" (rolling_mean 20 close);;
  close ← getitem df "Close";
  setitem df "MA50" (rolling_mean 50 close);;
  close ← getitem df "Close";
  let delta := diff close in
  let gain := rolling_mean 14 (where_ delta (gt_scalar delta zero) zero) in
  let loss := rolling_mean 14 (neg_series (where_ delta (lt_scalar delta zero) zero)) in
  let rs := div_series gain loss in
  setitem df "RSI" (rsi_of_rs <$> rs);;
  mret df.

(* ================================================================== *)
(** * ai_analyzer *)
(* ================================================================== *)

(** Python dictionaries with string keys and string values ([metrics],
    [info]); [d.get(k, default)]. *)
Abbreviation dict := (gmap string string).

Definition dict_get (d : dict) (k default : string) : string :=
  match d !! k with
  | Some v => v
  | None => default
  end.

(** The pieces of an f-string.  The digits of a formatted number are not
    spelled out: a piece records the number and its format. *)
Inductive frag : Type :=
  | Lit (s : string)
  | Fmt2f (x : num)               (* [{x:.2f}] *)
  | FmtThousands (x : num)        (* [{x:,.0f}] *)
  | FmtVolatility (close : Series).
      (* [{volatility:.2%}] with
         [volatility = close.pct_change().std() * (252 ** 0.5)] *)

Abbreviation text := (list frag).

Definition upper_ascii (c : Ascii.ascii) : Ascii.ascii :=
  let n := Ascii.nat_of_ascii c in
  if ((97 <=? n) && (n <=? 122))%nat then Ascii.ascii_of_nat (n - 32) else c.

(** [s.upper()] on ASCII text. *)
Fixpoint upper (s : string) : string :=
  match s with
  | EmptyString => EmptyString
  | String c r => String (upper_ascii c) (upper r)
  end.

(** The dictionary both analysis functions return; only the fallback has an
    ["error"] entry. *)
Record Analysis : Type := {
  error : option string;
  summary : text;
  technical_analysis : text;
  fundamental_analysis : text;
  recommendation : string;
  risk_level : string;
  reasoning : text
}.

Record Signals : Type := {
  price_above_ma50 : bool;
  price_above_ma20 : bool;
  rsi_oversold : bool;
  rsi_overbought : bool;
  volume_high : bool
}.

Definition c1_2 : num := Fin (12 # 10).
Definition c0_8 : num := Fin (8 # 10).
Definition c30 : num := of_Z 30.
Definition c70 : num := of_Z 70.

(** The [if] / [elif] / [else] of lines 35-44. *)
Definition decide_recommendation (signals : Signals) : string * string :=
  if (price_above_ma50 signals && price_above_ma20 signals
        && negb (rsi_overbought signals))
     || (rsi_oversold signals && volume_high signals)
  then ("Buy", "Medium")
  else if rsi_overbought signals
          || (negb (price_above_ma50 signals) && negb (price_above_ma20 signals))
  then ("Sell", "High")
  else ("Hold", "Low").

(** Lines 7-88.  The function only reads its frame, so it takes the
    contents of the frame.  The layout whitespace of the triple-quoted
    f-strings is written as single spaces. *)
Definition calculate_analysis (hist_data : DataFrame) (metrics info : dict)
  : result Analysis :=
  (* Get latest data points *)
  current_price ← column hist_data "Close" ≫= (λ s, iloc_neg s 1);
  prev_price ← column hist_data "Close" ≫= (λ s, iloc_neg s 2);
  ma_20 ← column hist_data "MA20" ≫= (λ s, iloc_neg s 1);
  ma_50 ← column hist_data "MA50" ≫= (λ s, iloc_neg s 1);
  rsi ← column hist_data "RSI" ≫= (λ s, iloc_neg s 1);
  volume ← column hist_data "Volume" ≫= (λ s, iloc_neg s 1);
  avg_volume ← column hist_data "Volume" ≫= (λ s, iloc_neg (rolling_mean 20 s) 1);
  (* Price trend analysis *)
  let price_trend := if (current_price >? ma_50)%num then "bullish" else "bearish" in
  let momentum := if (current_price >? ma_20)%num then "increasing" else "decreasing" in
  let volume_trend :=
    if (volume >? avg_volume * c1_2)%num then "high"
    else if (volume <? avg_volume * c0_8)%num then "low" else "normal" in
  (* Generate recommendation *)
  let signals := {|
    price_above_ma50 := (current_price >? ma_50)%num;
    price_above_ma20 := (current_price >? ma_20)%num;
    rsi_oversold := (rsi <? c30)%num;
    rsi_overbought := (rsi >? c70)%num;
    volume_high := (volume >? avg_volume * c1_2)%num
  |} in
  let '(recommendation, risk_level) := decide_recommendation signals in
  (* Calculate price volatility *)
  close ← column hist_data "Close";
  let volatility := FmtVolatility close in
  mret {|
    error := None;
    summary :=
      [Lit "The stock is currently in a "; Lit price_trend; Lit " trend with ";
       Lit momentum; Lit " momentum. ";
       Lit "Trading volume is "; Lit volume_trend;
       Lit " compared to the 20-day average. ";
       Lit "Annual volatility is "; volatility; Lit "."];
    technical_analysis :=
      [Lit "Price Analysis: - Current price ($"; Fmt2f current_price; Lit ") is ";
       Lit price_trend; Lit " relative to the 50-day moving average ($";
       Fmt2f ma_50; Lit ") - 20-day moving average: $"; Fmt2f ma_20;
       Lit " - RSI at "; Fmt2f rsi; Lit " indicates ";
       Lit (if (rsi <? c30)%num then "oversold"
            else if (rsi >? c70)%num then "overbought" else "neutral");
       Lit " conditions - Volume is "; Lit (upper volume_trend); Lit " at ";
       FmtThousands volume; Lit " shares"];
    fundamental_analysis :=
      [Lit "Market Metrics: - Market Cap: "; Lit (dict_get metrics "Market Cap" "N/A");
       Lit " - P/E Ratio: "; Lit (dict_get metrics "P/E Ratio" "N/A");
       Lit " - Beta: "; Lit (dict_get metrics "Beta" "N/A");
       Lit " Sector: "; Lit (dict_get info "sector" "N/A");
       Lit " Industry: "; Lit (dict_get info "industry" "N/A")];
    recommendation := recommendation;
    risk_level := risk_level;
    reasoning :=
      [Lit "Recommendation based on: - Price trend: "; Lit (upper price_trend);
       Lit " - RSI: "; Fmt2f rsi; Lit " - Volume: "; Lit (upper volume_trend);
       Lit " - Volatility: "; volatility]
  |}.

(** The dictionary of the [except] branch. *)
Definition fallback_analysis (e : exn) : Analysis := {|
  error := Some ("Failed to generate analysis: " ++ str e);
  summary := [Lit "Technical analysis based on price trends and indicators."];
  technical_analysis := [Lit "Analysis temporarily unavailable."];
  fundamental_analysis := [Lit "Analysis temporarily unavailable."];
  recommendation := "Hold";
  risk_level := "Medium";
  reasoning := [Lit "Insufficient data for detailed analysis."]
|}.

(** [try: return calculate_analysis(...) except Exception as e: return {...}] *)
Definition get_stock_analysis (hist_data : DataFrame) (metrics info : dict)
  : Analysis :=
  match calculate_analysis hist_data metrics info with
  | Ok a => a
  | Raise e => fallback_analysis e
  end.

(* ================================================================== *)
(** * The market-data provider *)
(* ================================================================== *)

Module yf.

(** What [analyze_portfolio] uses of a [yfinance.Ticker]: the frame that
    [history(period=p)] returns and the [info] dictionary; either access may
    raise. *)
Record ticker : Type := {
  history : string → result DataFrame;
  info : result dict
}.

End yf.

(* ================================================================== *)
(** * data_fetcher.analyze_portfolio *)
(* ================================================================== *)

Module Portfolio.

(** A row of the uploaded CSV. *)
Record Row : Type := {
  Symbol : string;
  Shares : num
}.

(** An element of [analysis['stocks']]. *)
Module Stock.
Record t : Type := {
  symbol : string;
  shares : num;
  current_price : num;
  total_value : num;
  daily_change : num;
  sector : string
}.
End Stock.

(** The [analysis] dictionary. *)
Record Analysis : Type := {
  total_value : num;
  daily_change : num;
  stocks : list Stock.t;
  sector_distribution : gmap string num;
  risk_level : string
}.

Definition initial : Analysis := {|
  total_value := zero;
  daily_change := zero;
  stocks := [];
  sector_distribution := ∅;
  risk_level := "Medium"
|}.

Section Aggregator.

(** [yf.Ticker], the injected quote lookup. *)
Variable Ticker : string → yf.ticker.

(** [stock.history(period=p)['Close'].iloc[-1]] *)
Definition last_close (stock : yf.ticker) (period : string) : result num :=
  frame ← yf.history stock period;
  close ← column frame "Close";
  iloc_neg close 1.

(** The body of the [for] loop, lines 98-126. *)
Definition process_row (analysis : Analysis) (row : Row) : result Analysis :=
  let symbol := Symbol row in
  let shares := Shares row in
  (* Get current stock data *)
  let stock := Ticker symbol in
  current_price ← last_close stock "1d";
  prev_close ← last_close stock "2d";
  let stock_value := (current_price * shares)%num in
  let daily_change_ := (((current_price - prev_close) / prev_close) * hundred)%num in
  (* Add to total value and daily change *)
  let total := (total_value analysis + stock_value)%num in
  let change := (daily_change analysis + daily_change_ * (stock_value / total))%num in
  (* Get sector information *)
  info ← yf.info stock;
  let sector := dict_get info "sector" "Unknown" in
  let distribution :=
    <[sector := (default zero (sector_distribution analysis !! sector) + stock_value)%num]>
      (sector_distribution analysis) in
  (* Add stock details *)
  mret {|
    total_value := total;
    daily_change := change;
    stocks := stocks analysis ++
      [{| Stock.symbol := symbol;
          Stock.shares := shares;
          Stock.current_price := current_price;
          Stock.total_value := stock_value;
          Stock.daily_change := daily_change_;
          Stock.sector := sector |}];
    sector_distribution := distribution;
    risk_level := risk_level analysis
  |}.

(** [for _, row in portfolio_data.iterrows(): ...] *)
Fixpoint process_rows (analysis : Analysis) (rows : list Row) : result Analysis :=
  match rows with
  | [] => Ok analysis
  | row :: rest => analysis' ← process_row analysis row; process_rows analysis' rest
  end.

(** Lines 128-130: every bucket becomes a percentage of the total. *)
Definition to_percentages (analysis : Analysis) : Analysis := {|
  total_value := total_value analysis;
  daily_change := daily_change analysis;
  stocks := stocks analysis;
  sector_distribution :=
    (λ v, ((v / total_value analysis) * hundred)%num) <$> sector_distribution analysis;
  risk_level := risk_level analysis
|}.

(** Lines 132-136. *)
Definition set_risk_level (analysis : Analysis) : Analysis := {|
  total_value := total_value analysis;
  daily_change := daily_change analysis;
  stocks := stocks analysis;
  sector_distribution := sector_distribution analysis;
  risk_level :=
    if (size (sector_distribution analysis) <? 3)%nat then "High"
    else if (5 <? size (sector_distribution analysis))%nat then "Low"
    else risk_level analysis
|}.

(** The [try] block, lines 97-138. *)
Definition analyze_portfolio_body (portfolio_data : list Row) : result Analysis :=
  analysis ← process_rows initial portfolio_data;
  mret (set_risk_level (to_percentages analysis)).

(** [except Exception as e: raise Exception(f"Error analyzing portfolio: {str(e)}")] *)
Definition analyze_portfolio (portfolio_data : list Row) : result Analysis :=
  match analyze_portfolio_body portfolio_data with
  | Ok analysis => Ok analysis
  | Raise e => Raise (Exception ("Error analyzing portfolio: " ++ str e))
  end.

End Aggregator.

(** ** Vocabulary of the statements about the aggregator *)

(** The quote of one symbol, in the order the loop body reads it: latest
    close of the one-day history, latest close of the two-day history, sector
    of the [info] dictionary (["Unknown"] when it has none). *)
Definition lookup (Ticker : string → yf.ticker) (symbol : string)
  : result (num * num * string) :=
  current_price ← last_close (Ticker symbol) "1d";
  prev_close ← last_close (Ticker symbol) "2d";
  info ← yf.info (Ticker symbol);
  mret (current_price, prev_close, dict_get info "sector" "Unknown").

(** A row enriched with its quote: the entry appended to [stocks]. *)
Definition holding (row : Row) (q : num * num * string) : Stock.t :=
  let '(current_price, prev_close, sector) := q in {|
    Stock.symbol := Symbol row;
    Stock.shares := Shares row;
    Stock.current_price := current_price;
    Stock.total_value := (current_price * Shares row)%num;
    Stock.daily_change := (((current_price - prev_close) / prev_close) * hundred)%num;
    Stock.sector := sector
  |}.

(** The enriched holdings of a portfolio, in input order; the first failing
    lookup ends the enumeration. *)
Fixpoint holdings (Ticker : string → yf.ticker) (rows : list Row)
  : result (list Stock.t) :=
  match rows with
  | [] => Ok []
  | row :: rest =>
      q ← lookup Ticker (Symbol row);
      hs ← holdings Ticker rest;
      mret (holding row q :: hs)
  end.

(** What one enriched holding adds to the running dictionary. *)
Definition add_holding (analysis : Analysis) (s : Stock.t) : Analysis := {|
  total_value := (total_value analysis + Stock.total_value s)%num;
  daily_change :=
    (daily_change analysis
     + Stock.daily_change s
       * (Stock.total_value s / (total_value analysis + Stock.total_value s)))%num;
  stocks := stocks analysis ++ [s];
  sector_distribution :=
    <[Stock.sector s :=
        (default zero (sector_distribution analysis !! Stock.sector s)
         + Stock.total_value s)%num]> (sector_distribution analysis);
  risk_level := risk_level analysis
|}.

(** The running-total weighting as a left fold: the state is the running
    total value and the accumulated change; a holding contributes its daily
    change times its value over the running total that already includes it. *)
Definition weighted_step (st : num * num) (s : Stock.t) : num * num :=
  let running := (st.1 + Stock.total_value s)%num in
  (running, (st.2 + Stock.daily_change s * (Stock.total_value s / running))%num).

Definition running_weighted_change (hs : list Stock.t) : num :=
  (foldl weighted_step (zero, zero) hs).2.

(** The value-weighted average over the final total. *)
Definition value_weighted_change (hs : list Stock.t) : num :=
  let total := Series.sum (Stock.total_value <$> hs) in
  Series.sum ((λ s, Stock.daily_change s * (Stock.total_value s / total))%num <$> hs).

(** The distinct sectors among the holdings. *)
Definition distinct_sectors (hs : list Stock.t) : gset string :=
  list_to_set (Stock.sector <$> hs).

(** The risk label of a number of distinct sectors. *)
Definition risk_of_sector_count (n : nat) : string :=
  if (n <? 3)%nat then "High" else if (5 <? n)%nat then "Low" else "Medium".

End Portfolio.

(** [needle in hay] *)
Fixpoint contains (needle hay : string) : bool :=
  String.prefix needle hay ||
  match hay with
  | EmptyString => false
  | String _ rest => contains needle rest
  end.

(* ================================================================== *)
(** * Vocabulary of the statements *)
(* ================================================================== *)

(** [hist_data[col].iloc[-1]]: the latest cell of a column. *)
Definition latest (hist_data : DataFrame) (col : string) : result num :=
  column hist_data col ≫= (λ s, iloc_neg s 1).

(** A well-formed recommendation has one of the three verdicts and one of
    the three risk labels. *)
Definition well_formed (a : Analysis) : Prop :=
  recommendation a ∈ ["Buy"; "Hold"; "Sell"] ∧
  risk_level a ∈ ["Low"; "Medium"; "High"].

(** A two-row frame with every indicator column: the last close is above
    both averages and the RSI is neutral. *)
Definition rising_frame : DataFrame :=
  {[ "Close" := [of_Z 10; of_Z 12];
     "MA20" := [of_Z 9; of_Z 11];
     "MA50" := [of_Z 8; of_Z 10];
     "RSI" := [of_Z 50; of_Z 55];
     "Volume" := [of_Z 1000; of_Z 1100] ]}.

(** Lines 76-80 as functions of the close column: the 14-period average
    gain, the 14-period average loss, and the RSI column. *)
Definition avg_gain (close : Series) : Series :=
  let delta := diff close in
  rolling_mean 14 (where_ delta (gt_scalar delta zero) zero).

Definition avg_loss (close : Series) : Series :=
  let delta := diff close in
  rolling_mean 14 (neg_series (where_ delta (lt_scalar delta zero) zero)).

Definition rsi14 (close : Series) : Series :=
  rsi_of_rs <$> div_series (avg_gain close) (avg_loss close).

(** The frame after the three column assignments. *)
Definition with_indicators (close : Series) (frame : DataFrame) : DataFrame :=
  <["RSI" := rsi14 close]>
    (<["MA50" := rolling_mean 50 close]>
       (<["MA20" := rolling_mean 20 close]> frame)).

(** Example frames: one row, fifteen equal closes, fifteen rising closes. *)
Definition one_row : DataFrame :=
  {[ "Close" := [of_Z 7]; "Volume" := [of_Z 1000] ]}.

Definition flat15 : DataFrame :=
  {[ "Close" := replicate 15 (of_Z 7) ]}.

Definition rising15 : DataFrame :=
  {[ "Close" := (λ n, of_Z (Z.of_nat n)) <$> seq 1 15 ]}.

(** Example quotes.  A ticker whose one-day history has the latest close
    and whose two-day history has the previous and the latest close. *)
Definition quoted (prev price : Z) (sector : option string) : yf.ticker := {|
  yf.history := λ period,
    if String.eqb period "1d" then Ok {[ "Close" := [of_Z price] ]}
    else Ok {[ "Close" := [of_Z prev; of_Z price] ]};
  yf.info := Ok (match sector with
                 | Some s => {[ "sector" := s ]}
                 | None => ∅
                 end)
|}.

(** A symbol the provider does not know: its histories are empty. *)
Definition unknown_symbol : yf.ticker := {|
  yf.history := λ _, Ok {[ "Close" := [] ]};
  yf.info := Ok ∅
|}.

(** The market of the two-holding example. *)
Definition example_market (symbol : string) : yf.ticker :=
  if String.eqb symbol "AAPL" then quoted 145 150 (Some "Tech")
  else if String.eqb symbol "XOM" then quoted 102 100 (Some "Energy")
  else if String.eqb symbol "BRK" then quoted 400 410 None
  else unknown_symbol.

Definition example_portfolio : list Portfolio.Row :=
  [ {| Portfolio.Symbol := "AAPL"; Portfolio.Shares := of_Z 10 |};
    {| Portfolio.Symbol := "XOM"; Portfolio.Shares := of_Z 5 |} ].

(** A market whose two histories disagree on the latest close, so that the
    daily changes are not zero. *)
Definition stale_quote (prev price : Z) (sector : string) : yf.ticker := {|
  yf.history := λ period,
    if String.eqb period "1d" then Ok {[ "Close" := [of_Z price] ]}
    else Ok {[ "Close" := [of_Z prev] ]};
  yf.info := Ok {[ "sector" := sector ]}
|}.

Definition moving_market (symbol : string) : yf.ticker :=
  if String.eqb symbol "AAPL" then stale_quote 100 110 "Tech"
  else if String.eqb symbol "XOM" then stale_quote 100 90 "Energy"
  else unknown_symbol.

(** The enriched holdings and the summary of the two-holding example. *)
Definition example_holdings : list Portfolio.Stock.t :=
  [ Portfolio.holding {| Portfolio.Symbol := "AAPL"; Portfolio.Shares := of_Z 10 |}
      (of_Z 150, of_Z 150, "Tech");
    Portfolio.holding {| Portfolio.Symbol := "XOM"; Portfolio.Shares := of_Z 5 |}
      (of_Z 100, of_Z 100, "Energy") ].

Definition example_summary : Portfolio.Analysis := {|
  Portfolio.total_value := of_Z 2000;
  Portfolio.daily_change := zero;
  Portfolio.stocks := example_holdings;
  Portfolio.sector_distribution := {[ "Tech" := of_Z 75; "Energy" := of_Z 25 ]};
  Portfolio.risk_level := "High"
|}.

(** The example with a third holding whose [info] has no sector, and with a
    fourth symbol the provider does not know. *)
Definition unclassified_row : Portfolio.Row :=
  {| Portfolio.Symbol := "BRK"; Portfolio.Shares := of_Z 1 |}.

Definition unclassified_portfolio : list Portfolio.Row :=
  (example_portfolio ++ [unclassified_row])%list.

Definition unclassified_summary : Portfolio.Analysis := {|
  Portfolio.total_value := of_Z 2410;
  Portfolio.daily_change := zero;
  Portfolio.stocks :=
    (example_holdings
     ++ [Portfolio.holding unclassified_row (of_Z 410, of_Z 410, "Unknown")])%list;
  Portfolio.sector_distribution :=
    {[ "Tech" := Fin (15000 # 241);
       "Energy" := Fin (5000 # 241);
       "Unknown" := Fin (4100 # 241) ]};
  Portfolio.risk_level := "Medium"
|}.

Definition failing_row : Portfolio.Row :=
  {| Portfolio.Symbol := "ZZZ"; Portfolio.Shares := of_Z 1 |}.

Definition failing_portfolio : list Portfolio.Row :=
  (example_portfolio ++ [failing_row])%list.

(** Sixty rising closes with their volumes: long enough for every window. *)
Definition rising60 : DataFrame :=
  {[ "Close" := (λ n, of_Z (Z.of_nat n)) <$> seq 1 60;
     "Volume" := replicate 60 (of_Z 1000) ]}.

(** A number that is finite and not negative; a cell of the gain or loss
    column is such a number or [+inf]. *)
Definition nonneg (x : num) : Prop := ∃ q, x = Fin q ∧ (0 <= q)%Q.

Definition gain_like (x : num) : Prop := x = PInf ∨ nonneg x.

(* ================================================================== *)
(** * ai_analyzer: the basic analysis and the prompt *)
(* ================================================================== *)

(** Lines 106-129.  [metrics] is not read. *)
Definition calculate_basic_analysis (hist_data : DataFrame) (metrics : dict)
  : result Analysis :=
  current_price ← column hist_data "Close" ≫= (λ s, iloc_neg s 1);
  ma_50 ← column hist_data "MA50" ≫= (λ s, iloc_neg s 1);
  rsi ← column hist_data "RSI" ≫= (λ s, iloc_neg s 1);
  (* Basic technical analysis *)
  let price_trend := if (current_price >? ma_50)%num then "bullish" else "bearish" in
  (* Basic recommendation based on RSI and price trend *)
  let recommendation :=
    if (rsi <? c30)%num && String.eqb price_trend "bullish" then "Buy"
    else if (rsi >? c70)%num && String.eqb price_trend "bearish" then "Sell"
    else "Hold" in
  mret {|
    error := None;
    summary := [Lit "Basic technical analysis based on price trends and RSI indicator."];
    technical_analysis :=
      [Lit "Current price is "; Lit price_trend;
       Lit " relative to 50-day moving average. RSI at "; Fmt2f rsi;
       Lit " indicates ";
       Lit (if (rsi <? c30)%num then "oversold"
            else if (rsi >? c70)%num then "overbought" else "neutral");
       Lit " conditions."];
    fundamental_analysis :=
      [Lit "Fundamental analysis unavailable without AI service."];
    recommendation := recommendation;
    risk_level := "Medium";
    reasoning :=
      [Lit "Based on technical indicators only. For comprehensive analysis, please try again later when AI service is available."]
  |}.

(** Lines 131-170: the prompt, as the pieces of its f-string.  The 50-day
    average is computed from the close column, not read from the MA50 column;
    the RSI column is read while the string is built. *)
Definition prepare_analysis_prompt (hist_data : DataFrame) (metrics info : dict)
  : result text :=
  (* Calculate recent performance metrics *)
  current_price ← column hist_data "Close" ≫= (λ s, iloc_neg s 1);
  prev_price ← column hist_data "Close" ≫= (λ s, iloc_neg s 2);
  let price_change := (((current_price - prev_price) / prev_price) * hundred)%num in
  (* Calculate 50-day moving average *)
  ma_50 ← column hist_data "Close" ≫= (λ s, iloc_neg (rolling_mean 50 s) 1);
  (* Prepare the prompt *)
  rsi ← column hist_data "RSI" ≫= (λ s, iloc_neg s 1);
  mret
    [Lit "Analyze this stock based on the following data and provide a clear buy/hold/sell recommendation: Technical Indicators: - Current Price: $";
     Fmt2f current_price;
     Lit " - 24h Price Change: "; Fmt2f price_change;
     Lit "% - 50-day Moving Average: $"; Fmt2f ma_50;
     Lit " - RSI: "; Fmt2f rsi;
     Lit " Key Metrics: - Market Cap: "; Lit (dict_get metrics "Market Cap" "N/A");
     Lit " - P/E Ratio: "; Lit (dict_get metrics "P/E Ratio" "N/A");
     Lit " - Forward P/E: "; Lit (dict_get metrics "Forward P/E" "N/A");
     Lit " - Beta: "; Lit (dict_get metrics "Beta" "N/A");
     Lit " Company Info: - Sector: "; Lit (dict_get info "sector" "N/A");
     Lit " - Industry: "; Lit (dict_get info "industry" "N/A");
     Lit " Provide a structured analysis with: 1. Summary of current position 2. Technical analysis 3. Fundamental analysis 4. Clear recommendation (Buy/Hold/Sell) 5. Risk assessment (Low/Medium/High) Format the response as JSON with these keys: summary, technical_analysis, fundamental_analysis, recommendation, risk_level, reasoning "].

(** A holding whose daily change is zero and whose value is positive. *)
Definition steady (s : Portfolio.Stock.t) : Prop :=
  Portfolio.Stock.daily_change s = zero ∧
  ∃ v, Portfolio.Stock.total_value s = Fin v ∧ (0 < v)%Q.

(* ================================================================== *)
(** * Formatting numbers *)
(* ================================================================== *)

Module Format.

(** The nearest integer to a rational that is not negative, ties to even:
    the rounding of [format], which works on the exact value of a float. *)
Definition round_half_even (q : Q) : Z :=
  let n := Qnum q in
  let d := Zpos (Qden q) in
  let f := (n / d)%Z in
  let r := (n mod d)%Z in
  match (2 * r ?= d)%Z with
  | Lt => f
  | Gt => (f + 1)%Z
  | Eq => if Z.even f then f else (f + 1)%Z
  end.

(** The decimal digits of an integer that is not negative. *)
Definition digits (n : Z) : string :=
  NilZero.string_of_uint (N.to_uint (Z.to_N n)).

(** One decimal digit. *)
Definition digit (n : Z) : Ascii.ascii :=
  Ascii.ascii_of_nat (48 + Z.to_nat n).

(** A comma before every group of three digits; the digits come reversed. *)
Fixpoint commas (k : nat) (rev_digits : list Ascii.ascii) : list Ascii.ascii :=
  match rev_digits with
  | [] => []
  | c :: rest =>
      if (k =? 3)%nat then ","%char :: c :: commas 1 rest
      else c :: commas (S k) rest
  end.

Definition group_thousands (ds : string) : string :=
  String.string_of_list_ascii (rev (commas 0 (rev (String.list_ascii_of_string ds)))).

(** The sign that [format] prints. *)
Definition minus (negative : bool) : string := if negative then "-" else "".

(** The exact value [m * 2^e] of the magnitude of a finite [float]. *)
Definition magnitude (m : positive) (e : Z) : Q :=
  if (0 <=? e)%Z then inject_Z (Zpos m * 2 ^ e)
  else Zpos m # Pos.pow 2 (Z.to_pos (- e)).

(** The digits of a magnitude without decimals, grouped by thousands, and
    with two decimals: the exact value, rounded to the nearest, ties to
    even. *)
Definition whole (q : Q) : string :=
  group_thousands (digits (round_half_even q)).

Definition fixed2 (q : Q) : string :=
  let m := round_half_even (q * 100) in
  digits (m / 100)
  ++ String "."%char
       (String (digit ((m mod 100) / 10)) (String (digit (m mod 10)) EmptyString)).

(** A fixed-point presentation of a [float]: the sign, then the digits of
    the magnitude, or [inf]; a [NaN] prints without sign. *)
Definition fixed_point (digits_of : Q → string) (x : float) : string :=
  match Prim2SF x with
  | S754_zero s => minus s ++ digits_of 0%Q
  | S754_infinity s => minus s ++ "inf"
  | S754_nan => "nan"
  | S754_finite s m e => minus s ++ digits_of (magnitude m e)
  end.

(** [format(x, ',.0f')] *)
Definition comma_0f (x : float) : string := fixed_point whole x.

(** [format(x, '.2f')] *)
Definition f2 (x : float) : string := fixed_point fixed2 x.

(** [format(x, '.2%')]: the number is multiplied by 100, as a [float], and
    then presented as with ['.2f']. *)
Definition pct2 (x : float) : string := f2 (x * 100)%float ++ "%".

End Format.

(* ================================================================== *)
(** * data_fetcher: metrics, quotes and news *)
(* ================================================================== *)

(** The values found in the provider's dictionaries: a number, a string or
    [None].  A number is held as a binary64 [float]; an [int] is the [float]
    that [format] converts it to. *)
Inductive pyval : Type :=
  | PNum (x : float)
  | PStr (s : string)
  | PNone.

(** [d.get(k, default)] on such a dictionary. *)
Definition pyget (d : gmap string pyval) (k : string) (default : pyval) : pyval :=
  match d !! k with
  | Some v => v
  | None => default
  end.

Module Metrics.

(** The three format specifications of [get_key_metrics]. *)
Inductive spec : Type := Comma0f | Pct2 | F2.

(** [format(value, spec)].  A string has no [f] or [%] presentation and
    [None] accepts no format specification; [Exception m] stands for the
    [ValueError] and the [TypeError] with message [m]. *)
Definition format (sp : spec) (value : pyval) : result string :=
  match value with
  | PNum x =>
      Ok (match sp with
          | Comma0f => Format.comma_0f x
          | Pct2 => Format.pct2 x
          | F2 => Format.f2 x
          end)
  | PStr _ =>
      Raise (Exception
        (match sp with
         | Pct2 => "Unknown format code '%' for object of type 'str'"
         | _ => "Unknown format code 'f' for object of type 'str'"
         end))
  | PNone => Raise (Exception "unsupported format string passed to NoneType.__format__")
  end.

(** The dictionary literal of lines 43-51: label and key of [info], in
    insertion order. *)
Definition labels : list (string * string) :=
  [ ("Market Cap", "marketCap");
    ("P/E Ratio", "trailingPE");
    ("Forward P/E", "forwardPE");
    ("Dividend Yield", "dividendYield");
    ("Beta", "beta");
    ("52 Week High", "fiftyTwoWeekHigh");
    ("52 Week Low", "fiftyTwoWeekLow") ].

(** [value == 'N/A'] *)
Definition is_na (value : pyval) : bool :=
  match value with
  | PStr s => String.eqb s "N/A"
  | _ => false
  end.

(** The body of the loop of lines 54-61 for one item: the string the item
    holds afterwards. *)
Definition format_metric (key : string) (value : pyval) : result string :=
  if negb (is_na value) then
    if String.eqb key "Market Cap" then
      s ← format Comma0f value; mret ("$" ++ s)
    else if String.eqb key "Dividend Yield" then format Pct2 value
    else format F2 value
  else Ok "N/A".

(** The loop over [metrics.items()], in insertion order. *)
Fixpoint format_items (items : list (string * pyval)) : result (list (string * string)) :=
  match items with
  | [] => Ok []
  | (key, value) :: rest =>
      s ← format_metric key value;
      others ← format_items rest;
      mret ((key, s) :: others)
  end.

(** Lines 39-63. *)
Definition get_key_metrics (info : gmap string pyval) : result dict :=
  let metrics := (λ '(label, key), (label, pyget info key (PStr "N/A"))) <$> labels in
  formatted ← format_items metrics;
  mret (list_to_map formatted).

(** An entry of [info] that the loop can handle: absent, a number, or the
    string ['N/A']. *)
Definition presentable (info : gmap string pyval) (key : string) : Prop :=
  match info !! key with
  | None | Some (PNum _) => True
  | Some (PStr s) => s = "N/A"
  | Some PNone => False
  end.

(** The string a number is shown as under a label. *)
Definition shown (label : string) (x : float) : string :=
  if String.eqb label "Market Cap" then "$" ++ Format.comma_0f x
  else if String.eqb label "Dividend Yield" then Format.pct2 x
  else Format.f2 x.

End Metrics.

(** Lines 5-15. *)
Definition get_stock_data (Ticker : string → yf.ticker) (symbol period : string)
  : result (DataFrame * dict) :=
  match (hist ← yf.history (Ticker symbol) period;
         info ← yf.info (Ticker symbol);
         mret (hist, info)) with
  | Ok r => Ok r
  | Raise e => Raise (Exception ("Error fetching data for " ++ symbol ++ ": " ++ str e))
  end.

Module News.

(** An element of [formatted_news]. *)
Record item : Type := {
  title : pyval;
  publisher : pyval;
  link : pyval;
  published : string;
  summary : pyval
}.

(** [news[:limit]] *)
Definition slice_to {A} (limit : Z) (l : list A) : list A :=
  if (0 <=? limit)%Z then take (Z.to_nat limit) l
  else take (length l - Z.to_nat (- limit)) l.

Section Fetch.

(** [yf.Ticker(symbol).news], and
    [datetime.fromtimestamp(v).strftime('%Y-%m-%d %H:%M')], which depends on
    the local time zone and may raise. *)
Variable news_of : string → result (list (gmap string pyval)).
Variable strftime : pyval → result string.

Definition format_item (it : gmap string pyval) : result item :=
  published ← strftime (pyget it "providerPublishTime" (PNum 0));
  mret {|
    title := pyget it "title" (PStr "");
    publisher := pyget it "publisher" (PStr "");
    link := pyget it "link" (PStr "");
    published := published;
    summary := pyget it "summary" (PStr "")
  |}.

Fixpoint format_news (items : list (gmap string pyval)) : result (list item) :=
  match items with
  | [] => Ok []
  | it :: rest =>
      formatted ← format_item it;
      others ← format_news rest;
      mret (formatted :: others)
  end.

(** Lines 17-37. *)
Definition get_stock_news (symbol : string) (limit : Z) : result (list item) :=
  match (news ← news_of symbol; format_news (slice_to limit news)) with
  | Ok r => Ok r
  | Raise e => Raise (Exception ("Error fetching news for " ++ symbol ++ ": " ++ str e))
  end.

End Fetch.

End News.

(** A close column that rises, respectively falls, from every row to the
    next, on finite closes. *)
Definition rising (close : Series) : Prop :=
  ∀ i x y, close !! i = Some x → close !! S i = Some y →
           ∃ a b, x = Fin a ∧ y = Fin b ∧ (a < b)%Q.

Definition falling (close : Series) : Prop :=
  ∀ i x y, close !! i = Some x → close !! S i = Some y →
           ∃ a b, x = Fin a ∧ y = Fin b ∧ (b < a)%Q.

(** The gain and the loss of one difference (lines 77-78, cell-wise). *)
Definition gain_of (d : num) : num := if (d >? zero)%num then d else zero.
Definition loss_of (d : num) : num := (- (if (d <? zero)%num then d else zero))%num.


(* ================================================================== *)
(** * data_fetcher.analyze_portfolio on binary64 numbers *)
(* ================================================================== *)

(** What the percentages of the sector distribution are, and whether they
    add up to 100, depends on rounding.  Those statements are therefore made
    on IEEE 754 binary64 numbers themselves, the primitive [float], with the
    arithmetic of NumPy's [float64]: round to nearest, ties to even; no
    operation raises; a division by zero gives an infinity or [NaN]. *)

Module Portfolio64.

(** A [float64] column and a frame of such columns. *)
Abbreviation Series := (list float).
Abbreviation DataFrame := (gmap string (list float)).

(** [frame[col]] *)
Definition column (frame : DataFrame) (col : string) : result Series :=
  match frame !! col with
  | Some s => Ok s
  | None => Raise (KeyError col)
  end.

(** [s.iloc[-k]] for [k >= 1]. *)
Definition iloc_neg (s : Series) (k : nat) : result float :=
  if (length s <? k)%nat then Raise Series.out_of_bounds
  else match s !! (length s - k)%nat with
       | Some x => Ok x
       | None => Raise Series.out_of_bounds
       end.

(** A sum in input order, starting from 0. *)
Definition sum (s : Series) : float := foldl PrimFloat.add 0%float s.

(** What [analyze_portfolio] uses of a [yfinance.Ticker]. *)
Record ticker : Type := {
  history : string → result DataFrame;
  info : result dict
}.

(** A row of the uploaded CSV. *)
Record Row : Type := {
  Symbol : string;
  Shares : float
}.

(** An element of [analysis['stocks']]. *)
Module Stock.
Record t : Type := {
  symbol : string;
  shares : float;
  current_price : float;
  total_value : float;
  daily_change : float;
  sector : string
}.
End Stock.

(** The [analysis] dictionary. *)
Record Analysis : Type := {
  total_value : float;
  daily_change : float;
  stocks : list Stock.t;
  sector_distribution : gmap string float;
  risk_level : string
}.

Definition initial : Analysis := {|
  total_value := 0;
  daily_change := 0;
  stocks := [];
  sector_distribution := ∅;
  risk_level := "Medium"
|}.

Section Aggregator.

(** [yf.Ticker], the injected quote lookup. *)
Variable Ticker : string → ticker.

(** [stock.history(period=p)['Close'].iloc[-1]] *)
Definition last_close (stock : ticker) (period : string) : result float :=
  frame ← history stock period;
  close ← column frame "Close";
  iloc_neg close 1.

(** The body of the [for] loop, lines 98-126. *)
Definition process_row (analysis : Analysis) (row : Row) : result Analysis :=
  let symbol := Symbol row in
  let shares := Shares row in
  (* Get current stock data *)
  let stock := Ticker symbol in
  current_price ← last_close stock "1d";
  prev_close ← last_close stock "2d";
  let stock_value := (current_price * shares)%float in
  let daily_change_ := (((current_price - prev_close) / prev_close) * 100)%float in
  (* Add to total value and daily change *)
  let total := (total_value analysis + stock_value)%float in
  let change := (daily_change analysis + daily_change_ * (stock_value / total))%float in
  (* Get sector information *)
  info ← info stock;
  let sector := dict_get info "sector" "Unknown" in
  let distribution :=
    <[sector := (default 0%float (sector_distribution analysis !! sector) + stock_value)%float]>
      (sector_distribution analysis) in
  (* Add stock details *)
  mret {|
    total_value := total;
    daily_change := change;
    stocks := stocks analysis ++
      [{| Stock.symbol := symbol;
          Stock.shares := shares;
          Stock.current_price := current_price;
          Stock.total_value := stock_value;
          Stock.daily_change := daily_change_;
          Stock.sector := sector |}];
    sector_distribution := distribution;
    risk_level := risk_level analysis
  |}.

(** [for _, row in portfolio_data.iterrows(): ...] *)
Fixpoint process_rows (analysis : Analysis) (rows : list Row) : result Analysis :=
  match rows with
  | [] => Ok analysis
  | row :: rest => analysis' ← process_row analysis row; process_rows analysis' rest
  end.

(** Lines 128-130: every bucket becomes a percentage of the total. *)
Definition to_percentages (analysis : Analysis) : Analysis := {|
  total_value := total_value analysis;
  daily_change := daily_change analysis;
  stocks := stocks analysis;
  sector_distribution :=
    (λ v, ((v / total_value analysis) * 100)%float) <$> sector_distribution analysis;
  risk_level := risk_level analysis
|}.

(** Lines 132-136. *)
Definition set_risk_level (analysis : Analysis) : Analysis := {|
  total_value := total_value analysis;
  daily_change := daily_change analysis;
  stocks := stocks analysis;
  sector_distribution := sector_distribution analysis;
  risk_level :=
    if (size (sector_distribution analysis) <? 3)%nat then "High"
    else if (5 <? size (sector_distribution analysis))%nat then "Low"
    else risk_level analysis
|}.

(** The [try] block, lines 97-138. *)
Definition analyze_portfolio_body (portfolio_data : list Row) : result Analysis :=
  analysis ← process_rows initial portfolio_data;
  mret (set_risk_level (to_percentages analysis)).

(** [except Exception as e: raise Exception(f"Error analyzing portfolio: {str(e)}")] *)
Definition analyze_portfolio (portfolio_data : list Row) : result Analysis :=
  match analyze_portfolio_body portfolio_data with
  | Ok analysis => Ok analysis
  | Raise e => Raise (Exception ("Error analyzing portfolio: " ++ str e))
  end.

End Aggregator.

(** ** Vocabulary of the statements about the percentages *)

(** The quote of one symbol, in the order the loop body reads it. *)
Definition lookup (Ticker : string → ticker) (symbol : string)
  : result (float * float * string) :=
  current_price ← last_close (Ticker symbol) "1d";
  prev_close ← last_close (Ticker symbol) "2d";
  info ← info (Ticker symbol);
  mret (current_price, prev_close, dict_get info "sector" "Unknown").

(** A row enriched with its quote: the entry appended to [stocks]. *)
Definition holding (row : Row) (q : float * float * string) : Stock.t :=
  let '(current_price, prev_close, sector) := q in {|
    Stock.symbol := Symbol row;
    Stock.shares := Shares row;
    Stock.current_price := current_price;
    Stock.total_value := (current_price * Shares row)%float;
    Stock.daily_change := (((current_price - prev_close) / prev_close) * 100)%float;
    Stock.sector := sector
  |}.

(** The enriched holdings of a portfolio, in input order; the first failing
    lookup ends the enumeration. *)
Fixpoint holdings (Ticker : string → ticker) (rows : list Row)
  : result (list Stock.t) :=
  match rows with
  | [] => Ok []
  | row :: rest =>
      q ← lookup Ticker (Symbol row);
      hs ← holdings Ticker rest;
      mret (holding row q :: hs)
  end.

(** What one enriched holding adds to the running dictionary. *)
Definition add_holding (analysis : Analysis) (s : Stock.t) : Analysis := {|
  total_value := (total_value analysis + Stock.total_value s)%float;
  daily_change :=
    (daily_change analysis
     + Stock.daily_change s
       * (Stock.total_value s / (total_value analysis + Stock.total_value s)))%float;
  stocks := stocks analysis ++ [s];
  sector_distribution :=
    <[Stock.sector s :=
        (default 0%float (sector_distribution analysis !! Stock.sector s)
         + Stock.total_value s)%float]> (sector_distribution analysis);
  risk_level := risk_level analysis
|}.

(** The holdings classified in a sector, and the sum of their values, added
    in input order as the loop adds them to the bucket. *)
Definition in_sector (sec : string) (hs : list Stock.t) : list Stock.t :=
  filter (λ s, Stock.sector s = sec) hs.

Definition sector_value (sec : string) (hs : list Stock.t) : float :=
  sum (Stock.total_value <$> in_sector sec hs).

(** The distinct sectors among the holdings. *)
Definition distinct_sectors (hs : list Stock.t) : gset string :=
  list_to_set (Stock.sector <$> hs).

(** The sum of the entries of a dictionary of numbers. *)
Definition dict_sum (m : gmap string float) : float :=
  map_fold (λ _ v acc, (v + acc)%float) 0%float m.

(** A ticker whose one-day history has the latest close and whose two-day
    history has the previous and the latest close. *)
Definition quoted (prev price : float) (sector : string) : ticker := {|
  history := λ period,
    if String.eqb period "1d" then Ok {[ "Close" := [price] ]}
    else Ok {[ "Close" := [prev; price] ]};
  info := Ok {[ "sector" := sector ]}
|}.

(** A symbol the provider does not know: its histories are empty. *)
Definition unknown_symbol : ticker := {|
  history := λ _, Ok {[ "Close" := [] ]};
  info := Ok ∅
|}.

(** The two-holding example: AAPL at 150 with 10 shares in Tech, XOM at 100
    with 5 shares in Energy. *)
Definition example_market (symbol : string) : ticker :=
  if String.eqb symbol "AAPL" then quoted 145 150 "Tech"
  else if String.eqb symbol "XOM" then quoted 102 100 "Energy"
  else unknown_symbol.

Definition example_portfolio : list Row :=
  [ {| Symbol := "AAPL"; Shares := 10 |};
    {| Symbol := "XOM"; Shares := 5 |} ].

Definition example_holdings : list Stock.t :=
  [ holding {| Symbol := "AAPL"; Shares := 10 |} (150, 150, "Tech")%float;
    holding {| Symbol := "XOM"; Shares := 5 |} (100, 100, "Energy")%float ].

Definition example_summary : Analysis := {|
  total_value := 2000;
  daily_change := 0;
  stocks := example_holdings;
  sector_distribution := {[ "Tech" := 75%float; "Energy" := 25%float ]};
  risk_level := "High"
|}.

(** Two holdings worth 10 and 20: one share of AAPL at 10 in Tech, one share
    of XOM at 20 in Energy. *)
Definition thirds_market (symbol : string) : ticker :=
  if String.eqb symbol "AAPL" then quoted 10 10 "Tech"
  else if String.eqb symbol "XOM" then quoted 20 20 "Energy"
  else unknown_symbol.

Definition thirds_portfolio : list Row :=
  [ {| Symbol := "AAPL"; Shares := 1 |};
    {| Symbol := "XOM"; Shares := 1 |} ].

Definition thirds_holdings : list Stock.t :=
  [ holding {| Symbol := "AAPL"; Shares := 1 |} (10, 10, "Tech")%float;
    holding {| Symbol := "XOM"; Shares := 1 |} (20, 20, "Energy")%float ].

Definition thirds_summary : Analysis := {|
  total_value := 30;
  daily_change := 0;
  stocks := thirds_holdings;
  sector_distribution :=
    {[ "Tech" := (10 / 30 * 100)%float; "Energy" := (20 / 30 * 100)%float ]};
  risk_level := "High"
|}.

End Portfolio64.
(* ================================================================== *)
(** * The recommendation engine *)
(* ================================================================== *)

Section Recommendation.

Implicit Types (hist_data : DataFrame) (metrics info : dict).

Lemma decide_recommendation_cases signals :
  decide_recommendation signals ∈
    [("Buy", "Medium"); ("Sell", "High"); ("Hold", "Low")].
Proof.
  unfold decide_recommendation.
  repeat match goal with |- context [if ?b then _ else _] => destruct b end;
    set_solver.
Qed.

Lemma calculate_analysis_well_formed hist_data metrics info a :
  calculate_analysis hist_data metrics info = Ok a → well_formed a.
Proof.
  unfold calculate_analysis. intros H.
  repeat match type of H with
  | (mbind _ ?r) = Ok _ => destruct r as [?|?] eqn:?; simpl in H; [|discriminate]
  end.
  match type of H with
  | context [decide_recommendation ?s] =>
      pose proof (decide_recommendation_cases s) as Hc;
      destruct (decide_recommendation s) as [rec risk]
  end.
  destruct (column hist_data "Close"); simpl in H; [|discriminate].
  injection H as <-. unfold well_formed; simpl.
  set_solver.
Qed.

Lemma fallback_well_formed e : well_formed (fallback_analysis e).
Proof. unfold well_formed; simpl. set_solver. Qed.

End Recommendation.

(** C1. On the latest indicator point the decision table is evaluated from
    the top and the first matching row wins: Buy/Medium when the close is
    above both averages and the RSI is not above 70, or when the RSI is below
    30 on high volume; otherwise Sell/High when the RSI is above 70 or the
    close is above neither average; otherwise Hold/Low. *)
Theorem calculate_analysis_decision_table
    (hist_data : DataFrame) (metrics info : dict)
    (close prev ma20 ma50 rsi volume avgVolume20 : num) :
  latest hist_data "Close" = Ok close →
  (column hist_data "Close" ≫= (λ s, iloc_neg s 2)) = Ok prev →
  latest hist_data "MA20" = Ok ma20 →
  latest hist_data "MA50" = Ok ma50 →
  latest hist_data "RSI" = Ok rsi →
  latest hist_data "Volume" = Ok volume →
  (column hist_data "Volume" ≫= (λ s, iloc_neg (rolling_mean 20 s) 1)) = Ok avgVolume20 →
  ∃ a, calculate_analysis hist_data metrics info = Ok a ∧
       get_stock_analysis hist_data metrics info = a ∧
       (recommendation a, risk_level a) =
         if ((close >? ma50) && (close >? ma20) && negb (rsi >? c70)
             || (rsi <? c30) && (volume >? avgVolume20 * c1_2))%num
         then ("Buy", "Medium")
         else if ((rsi >? c70)
                  || negb (close >? ma50) && negb (close >? ma20))%num
         then ("Sell", "High")
         else ("Hold", "Low").
Proof.
  unfold latest. intros Hc Hp H20 H50 Hr Hv Ha.
  unfold get_stock_analysis, calculate_analysis.
  rewrite Hc, Hp, H20, H50, Hr, Hv, Ha. simpl.
  destruct (column hist_data "Close") as [cl|] eqn:Hcl; [|discriminate].
  simpl.
  match goal with
  | |- context [decide_recommendation ?s] =>
      change (decide_recommendation s) with
        (if ((close >? ma50) && (close >? ma20) && negb (rsi >? c70)
             || (rsi <? c30) && (volume >? avgVolume20 * c1_2))%num
         then ("Buy", "Medium")
         else if ((rsi >? c70)
                  || negb (close >? ma50) && negb (close >? ma20))%num
         then ("Sell", "High")
         else ("Hold", "Low"))
  end.
  repeat match goal with
  | |- context [if ?b then ("Buy", _) else _] => destruct b
  | |- context [if ?b then ("Sell", _) else _] => destruct b
  end; simpl; eexists; (split; [reflexivity|]); split; reflexivity.
Qed.

Lemma calculate_analysis_decision_table_witness :
  ∃ a, calculate_analysis rising_frame ∅ ∅ = Ok a ∧
       get_stock_analysis rising_frame ∅ ∅ = a ∧
       (recommendation a, risk_level a) = ("Buy", "Medium").
Proof.
  exact (calculate_analysis_decision_table rising_frame ∅ ∅
           (of_Z 12) (of_Z 10) (of_Z 11) (of_Z 10) (of_Z 55) (of_Z 1100) NaN
           eq_refl eq_refl eq_refl eq_refl eq_refl eq_refl eq_refl).
Defined.

(** The other two rows of the table, on the same frame with an overbought
    RSI and with a close between the two averages. *)
Example decision_table_sell :
  let a := get_stock_analysis (<["RSI" := [of_Z 50; of_Z 80]]> rising_frame) ∅ ∅ in
  (recommendation a, risk_level a) = ("Sell", "High").
Proof. reflexivity. Qed.

Example decision_table_hold :
  let a := get_stock_analysis (<["MA20" := [of_Z 9; of_Z 13]]> rising_frame) ∅ ∅ in
  (recommendation a, risk_level a) = ("Hold", "Low").
Proof. reflexivity. Qed.

Section Fallback.

Implicit Types (hist_data : DataFrame) (metrics info : dict).

Lemma bind_Ok {A B} (k : A → result B) (a : A) : Ok a ≫= k = k a.
Proof. reflexivity. Qed.

Lemma bind_Raise {A B} (k : A → result B) (e : exn) : Raise e ≫= k = Raise e.
Proof. reflexivity. Qed.

Lemma column_missing hist_data col :
  hist_data !! col = None → column hist_data col = Raise (KeyError col).
Proof. unfold column. by intros ->. Qed.

Lemma column_present hist_data col s :
  hist_data !! col = Some s → column hist_data col = Ok s.
Proof. unfold column. by intros ->. Qed.

Lemma iloc_neg_short (s : Series) k :
  (length s < k)%nat → iloc_neg s k = Raise out_of_bounds.
Proof.
  intros H. unfold iloc_neg. by rewrite (proj2 (Nat.ltb_lt _ _) H).
Qed.

(** Each of the five columns is read before anything is returned. *)
Lemma calculate_analysis_missing_column hist_data metrics info col :
  col ∈ ["Close"; "MA20"; "MA50"; "RSI"; "Volume"] →
  hist_data !! col = None →
  ∃ e, calculate_analysis hist_data metrics info = Raise e.
Proof.
  intros Hin Hnone. unfold calculate_analysis.
  repeat match goal with
  | |- ∃ e, Raise _ = Raise e => by eexists
  | |- context [column hist_data ?c] =>
      let E := fresh "E" in
      destruct (hist_data !! c) as [?|] eqn:E;
      [ rewrite !(column_present _ _ _ E), ?bind_Ok; cbv beta
      | rewrite !(column_missing _ _ E), ?bind_Raise ]
  | |- ∃ e, iloc_neg ?s ?k ≫= _ = Raise e =>
      destruct (iloc_neg s k); rewrite ?bind_Ok, ?bind_Raise; cbv beta
  end.
  exfalso. apply list_elem_of_In in Hin. simpl in Hin.
  intuition (subst; congruence).
Qed.

(** [iloc[-2]] needs two rows. *)
Lemma calculate_analysis_short_series hist_data metrics info close :
  hist_data !! "Close" = Some close → (length close < 2)%nat →
  ∃ e, calculate_analysis hist_data metrics info = Raise e.
Proof.
  intros Hc Hlen. unfold calculate_analysis.
  rewrite !(column_present _ _ _ Hc), !bind_Ok. cbv beta.
  destruct (iloc_neg close 1); rewrite ?bind_Ok, ?bind_Raise; [|by eexists].
  rewrite (iloc_neg_short _ _ Hlen), bind_Raise. by eexists.
Qed.

End Fallback.

(** C3. The recommendation engine always returns a well-formed
    recommendation: whenever the computation raises, the result is the fixed
    fallback, whose verdict is Hold and whose risk is Medium; a missing
    indicator column and a series of fewer than two rows are such cases. *)
Theorem get_stock_analysis_never_raises
    (hist_data : DataFrame) (metrics info : dict) :
  well_formed (get_stock_analysis hist_data metrics info) ∧
  (∀ e, calculate_analysis hist_data metrics info = Raise e →
        get_stock_analysis hist_data metrics info = fallback_analysis e ∧
        recommendation (get_stock_analysis hist_data metrics info) = "Hold" ∧
        risk_level (get_stock_analysis hist_data metrics info) = "Medium") ∧
  (∀ col, col ∈ ["Close"; "MA20"; "MA50"; "RSI"; "Volume"] →
          hist_data !! col = None →
          ∃ e, get_stock_analysis hist_data metrics info = fallback_analysis e) ∧
  (∀ close, hist_data !! "Close" = Some close → (length close < 2)%nat →
            ∃ e, get_stock_analysis hist_data metrics info = fallback_analysis e).
Proof.
  split; [|split; [|split]].
  - unfold get_stock_analysis.
    destruct (calculate_analysis hist_data metrics info) eqn:E.
    + by eapply calculate_analysis_well_formed.
    + apply fallback_well_formed.
  - intros e E. unfold get_stock_analysis. rewrite E. done.
  - intros col Hin Hnone.
    destruct (calculate_analysis_missing_column _ metrics info _ Hin Hnone) as [e E].
    exists e. unfold get_stock_analysis. by rewrite E.
  - intros close Hc Hlen.
    destruct (calculate_analysis_short_series _ metrics info _ Hc Hlen) as [e E].
    exists e. unfold get_stock_analysis. by rewrite E.
Qed.

Lemma get_stock_analysis_never_raises_witness :
  ∃ e, get_stock_analysis one_row ∅ ∅ = fallback_analysis e.
Proof.
  apply (proj1 (proj2 (proj2 (get_stock_analysis_never_raises one_row ∅ ∅))) "MA20").
  - apply list_elem_of_In. simpl. auto.
  - reflexivity.
Defined.

(* ================================================================== *)
(** * The indicator engine *)
(* ================================================================== *)

Section Indicators.

Implicit Types (h : heap) (df : loc) (close : Series).

Lemma rolling_mean_length w (s : Series) : length (rolling_mean w s) = length s.
Proof. unfold rolling_mean. by rewrite length_imap. Qed.

Lemma rolling_mean_lookup w (s : Series) i :
  (i < length s)%nat → rolling_mean w s !! i = Some (rolling_mean_at w s i).
Proof.
  intros Hi. unfold rolling_mean. rewrite list_lookup_imap.
  destruct (lookup_lt_is_Some_2 s i Hi) as [x ->]. done.
Qed.

(** Before the window fills there is no value. *)
Lemma rolling_mean_leading w (s : Series) i :
  (i < length s)%nat → (S i < w)%nat → rolling_mean w s !! i = Some NaN.
Proof.
  intros Hi Hw. rewrite rolling_mean_lookup by done.
  unfold rolling_mean_at. by rewrite (proj2 (Nat.ltb_lt _ _) Hw).
Qed.

Lemma diff_length (s : Series) : length (diff s) = length s.
Proof. unfold diff. rewrite length_zip_with. simpl. lia. Qed.

Lemma where_length (s : Series) (c : list bool) other :
  length c = length s → length (where_ s c other) = length s.
Proof. intros H. unfold where_. rewrite length_zip_with. lia. Qed.

Lemma avg_gain_length close : length (avg_gain close) = length close.
Proof.
  unfold avg_gain. rewrite rolling_mean_length, where_length, diff_length; [done|].
  unfold gt_scalar. by rewrite length_fmap.
Qed.

Lemma avg_loss_length close : length (avg_loss close) = length close.
Proof.
  unfold avg_loss, neg_series.
  rewrite rolling_mean_length, length_fmap, where_length, diff_length; [done|].
  unfold lt_scalar. by rewrite length_fmap.
Qed.

Lemma rsi14_length close : length (rsi14 close) = length close.
Proof.
  unfold rsi14, div_series.
  rewrite length_fmap, length_zip_with, avg_gain_length, avg_loss_length. lia.
Qed.

Lemma rsi14_lookup close i g l :
  avg_gain close !! i = Some g → avg_loss close !! i = Some l →
  rsi14 close !! i = Some (rsi_of_rs (g / l)%num).
Proof.
  intros Hg Hl. unfold rsi14, div_series.
  rewrite list_lookup_fmap, lookup_zip_with, Hg. simpl. by rewrite Hl.
Qed.

(** The run of the function on a frame that has a close column: the same
    reference comes back, the frame it denotes has the three columns set, and
    no other object changes. *)
Lemma calculate_technical_indicators_run h df close :
  h df !! "Close" = Some close →
  ∃ h', calculate_technical_indicators df h = (Ok df, h') ∧
        h' df = with_indicators close (h df) ∧
        ∀ l, l ≠ df → h' l = h l.
Proof.
  intros Hc. unfold calculate_technical_indicators.
  unfold mbind, M_bind, mret, M_ret, getitem, setitem, column.
  rewrite Hc. rewrite fn_lookup_insert.
  rewrite lookup_insert_ne, Hc by done.
  rewrite fn_lookup_insert.
  rewrite !lookup_insert_ne, Hc by done.
  eexists. split; [reflexivity|]. split.
  - rewrite !fn_lookup_insert. reflexivity.
  - intros l Hl. by rewrite !fn_lookup_insert_ne.
Qed.

(** Without a close column the first statement raises and nothing is written. *)
Lemma calculate_technical_indicators_no_close h df :
  h df !! "Close" = None →
  calculate_technical_indicators df h = (Raise (KeyError "Close"), h).
Proof.
  intros Hc. unfold calculate_technical_indicators.
  unfold mbind, M_bind, getitem, column. by rewrite Hc.
Qed.

Lemma with_indicators_idem close (frame : DataFrame) :
  with_indicators close (with_indicators close frame) = with_indicators close frame.
Proof.
  unfold with_indicators. apply map_eq. intros k.
  rewrite !lookup_insert. repeat case_decide; done.
Qed.

Lemma with_indicators_close close (frame : DataFrame) :
  with_indicators close frame !! "Close" = frame !! "Close".
Proof. unfold with_indicators. by rewrite !lookup_insert_ne. Qed.

End Indicators.

Section ZeroDivision.

Lemma Qlt_b_pos (q : Q) : Qlt_b 0 q = true → Qzero_b q = false ∧ Qpos_b q = true.
Proof.
  unfold Qlt_b, Qzero_b, Qpos_b. destruct q as [n d].
  unfold Qcompare. simpl. rewrite Z.mul_1_r.
  destruct n; simpl; try discriminate. done.
Qed.

(** A positive average gain over a zero average loss: [rs] is [+inf] and
    the RSI is 100. *)
Lemma rsi_of_positive_over_zero (g : num) :
  (g >? zero)%num = true → rsi_of_rs (g / zero)%num = hundred.
Proof.
  destruct g as [q| | |]; unfold gt, lt, zero; try discriminate.
  - intros H. apply Qlt_b_pos in H as [Hz Hp].
    unfold div. simpl (Qzero_b 0). cbv iota. rewrite Hz, Hp. reflexivity.
  - intros _. reflexivity.
Qed.

(** [0/0] is [NaN], and so is the RSI computed from it. *)
Lemma rsi_of_zero_over_zero : rsi_of_rs (zero / zero)%num = NaN.
Proof. reflexivity. Qed.

End ZeroDivision.

Section ConstantSeries.

Lemma fin_ext (a b : Q) : (a == b)%Q → fin a = fin b.
Proof. intros H. unfold fin. f_equal. by apply Qred_complete. Qed.

Lemma sub_self (c : Q) : (Fin c - Fin c)%num = zero.
Proof.
  unfold sub. change zero with (fin 0). apply fin_ext. ring.
Qed.

Lemma zip_sub_replicate (x : num) m k :
  (m ≤ k)%nat →
  zip_with sub (replicate m x) (replicate k x) = replicate m (x - x)%num.
Proof.
  revert k. induction m as [|m IH]; intros k Hk; [done|].
  destruct k as [|k]; [lia|]. simpl. f_equal. apply IH. lia.
Qed.

(** The differences of a constant column: no value, then zeros. *)
Lemma diff_constant (c : Q) n :
  diff (replicate (S n) (Fin c)) = NaN :: replicate n zero.
Proof.
  unfold diff. simpl. f_equal.
  change (Fin c :: replicate n (Fin c)) with (replicate (S n) (Fin c)).
  rewrite (zip_sub_replicate (Fin c) n (S n)) by lia.
  by rewrite sub_self.
Qed.

Lemma where_gt_constant n :
  where_ (NaN :: replicate n zero) (gt_scalar (NaN :: replicate n zero) zero) zero
  = replicate (S n) zero.
Proof.
  unfold where_, gt_scalar. simpl. f_equal.
  induction n as [|n IH]; [done|]. simpl. by f_equal.
Qed.

Lemma where_lt_constant n :
  where_ (NaN :: replicate n zero) (lt_scalar (NaN :: replicate n zero) zero) zero
  = replicate (S n) zero.
Proof.
  unfold where_, lt_scalar. simpl. f_equal.
  induction n as [|n IH]; [done|]. simpl. by f_equal.
Qed.

Lemma sum_zeros k : Series.sum (replicate k zero) = zero.
Proof.
  unfold Series.sum. induction k as [|k IH]; [done|]. simpl.
  change (zero + zero)%num with zero. exact IH.
Qed.

Lemma forallb_finite_zeros k : forallb is_finite (replicate k zero) = true.
Proof. induction k as [|k IH]; [done|]. simpl. exact IH. Qed.

(** The rolling mean of a column of zeros: no value, then zeros. *)
Lemma rolling_mean_at_zeros n i :
  rolling_mean_at 14 (replicate n zero) i = if (S i <? 14)%nat then NaN else zero.
Proof.
  unfold rolling_mean_at. destruct (S i <? 14)%nat; [done|].
  unfold window. rewrite drop_replicate, take_replicate.
  rewrite forallb_finite_zeros, sum_zeros. reflexivity.
Qed.

Lemma avg_gain_constant (c : Q) n i :
  (i < n)%nat →
  avg_gain (replicate n (Fin c)) !! i = Some (if (S i <? 14)%nat then NaN else zero).
Proof.
  intros Hi. destruct n as [|n]; [lia|].
  unfold avg_gain. rewrite diff_constant, where_gt_constant.
  rewrite rolling_mean_lookup by (rewrite length_replicate; lia).
  by rewrite rolling_mean_at_zeros.
Qed.

Lemma avg_loss_constant (c : Q) n i :
  (i < n)%nat →
  avg_loss (replicate n (Fin c)) !! i = Some (if (S i <? 14)%nat then NaN else zero).
Proof.
  intros Hi. destruct n as [|n]; [lia|].
  unfold avg_loss. rewrite diff_constant, where_lt_constant.
  unfold neg_series. rewrite fmap_replicate. change (- zero)%num with zero.
  rewrite rolling_mean_lookup by (rewrite length_replicate; lia).
  by rewrite rolling_mean_at_zeros.
Qed.

(** The RSI of a constant column has no value anywhere. *)
Lemma rsi14_constant (c : Q) n : rsi14 (replicate n (Fin c)) = replicate n NaN.
Proof.
  apply list_eq. intros i.
  destruct (decide (i < n)%nat) as [Hi|Hi].
  - rewrite (rsi14_lookup _ i _ _ (avg_gain_constant c n i Hi) (avg_loss_constant c n i Hi)).
    rewrite lookup_replicate_2 by done.
    by destruct (S i <? 14)%nat.
  - rewrite !lookup_ge_None_2; [done| |].
    + rewrite length_replicate. lia.
    + rewrite rsi14_length, length_replicate. lia.
Qed.

End ConstantSeries.

(** C2 (as the code has it).  Where the 14-period average loss is 0, the
    RSI is 100 if the average gain there is positive, and NaN if the average
    gain is 0 as well; a constant close column is the second case wherever
    its window is full, and its RSI column has no value at any index. *)
Theorem rsi_at_zero_average_loss :
  (∀ (h : heap) (df : loc) (close : Series) (i : nat) (g : num),
     h df !! "Close" = Some close →
     avg_loss close !! i = Some zero →
     avg_gain close !! i = Some g →
     ∃ h' rsi,
       calculate_technical_indicators df h = (Ok df, h') ∧
       h' df !! "RSI" = Some rsi ∧
       ((g >? zero)%num = true → rsi !! i = Some hundred) ∧
       (g = zero → rsi !! i = Some NaN)) ∧
  (∀ (h : heap) (df : loc) (c : Q) (n : nat),
     h df !! "Close" = Some (replicate n (Fin c)) →
     (∀ i, (13 ≤ i < n)%nat →
           avg_loss (replicate n (Fin c)) !! i = Some zero ∧
           avg_gain (replicate n (Fin c)) !! i = Some zero) ∧
     ∃ h', calculate_technical_indicators df h = (Ok df, h') ∧
           h' df !! "RSI" = Some (replicate n NaN)).
Proof.
  split.
  - intros h df close i g Hc Hl Hg.
    destruct (calculate_technical_indicators_run h df close Hc) as (h' & Hrun & Hdf & _).
    exists h', (rsi14 close). split; [done|]. split.
    { rewrite Hdf. unfold with_indicators. by rewrite lookup_insert_eq. }
    rewrite (rsi14_lookup close i g zero Hg Hl). split.
    + intros Hpos. by rewrite rsi_of_positive_over_zero.
    + intros ->. by rewrite rsi_of_zero_over_zero.
  - intros h df c n Hc. split.
    + intros i [Hlo Hhi].
      rewrite avg_loss_constant, avg_gain_constant by done.
      destruct (Nat.ltb_spec (S i) 14); [lia|done].
    + destruct (calculate_technical_indicators_run h df _ Hc) as (h' & Hrun & Hdf & _).
      exists h'. split; [done|].
      rewrite Hdf. unfold with_indicators.
      by rewrite lookup_insert_eq, rsi14_constant.
Qed.

Lemma rsi_at_zero_average_loss_witness :
  ∃ h' rsi,
    calculate_technical_indicators 0%nat (λ _, rising15) = (Ok 0%nat, h') ∧
    h' 0%nat !! "RSI" = Some rsi ∧
    ((of_Z 1 >? zero)%num = true → rsi !! 14%nat = Some hundred) ∧
    (of_Z 1 = zero → rsi !! 14%nat = Some NaN).
Proof.
  exact (proj1 rsi_at_zero_average_loss (λ _, rising15) 0%nat
           ((λ n, of_Z (Z.of_nat n)) <$> seq 1 15) 14%nat (of_Z 1)
           eq_refl eq_refl eq_refl).
Defined.

(** C2 (as stated) fails: on fifteen equal closes the average loss at the
    latest index is 0, and the RSI computed there is NaN, not 100. *)
Lemma rsi_flat_series_is_nan :
  column flat15 "Close" = Ok (replicate 15 (of_Z 7)) ∧
  avg_loss (replicate 15 (of_Z 7)) !! 14%nat = Some zero ∧
  (column ((calculate_technical_indicators 0%nat (λ _, flat15)).2 0%nat) "RSI"
     ≫= (λ s, iloc_neg s 1)) = Ok NaN ∧
  NaN ≠ hundred.
Proof. repeat split; try reflexivity. discriminate. Qed.

Section LeadingCells.

Lemma rsi14_leading (close : Series) i :
  (i < length close)%nat → (i < 13)%nat → rsi14 close !! i = Some NaN.
Proof.
  intros Hi Hw.
  assert (avg_gain close !! i = Some NaN) as Hg.
  { unfold avg_gain. apply rolling_mean_leading; [|lia].
    rewrite where_length, diff_length; [done|].
    unfold gt_scalar. by rewrite length_fmap. }
  assert (avg_loss close !! i = Some NaN) as Hl.
  { unfold avg_loss, neg_series. apply rolling_mean_leading; [|lia].
    rewrite length_fmap, where_length, diff_length; [done|].
    unfold lt_scalar. by rewrite length_fmap. }
  by rewrite (rsi14_lookup close i NaN NaN Hg Hl).
Qed.

End LeadingCells.

(** C4 (as the code has it).  The indicator engine has no minimum length:
    on every frame with a close column, of any length, it returns normally;
    the three indicator columns are as long as the series and hold no value
    (NaN) at the indices before their window fills, so a window longer than
    the series gives a column of absent values.  It raises only when the
    close column is missing, and then with a KeyError. *)
Theorem calculate_technical_indicators_any_length (h : heap) (df : loc) :
  (∀ close, h df !! "Close" = Some close →
     ∃ h' ma20 ma50 rsi,
       calculate_technical_indicators df h = (Ok df, h') ∧
       h' df !! "MA20" = Some ma20 ∧
       h' df !! "MA50" = Some ma50 ∧
       h' df !! "RSI" = Some rsi ∧
       length ma20 = length close ∧
       length ma50 = length close ∧
       length rsi = length close ∧
       ∀ i, (i < length close)%nat →
            ((i < 19)%nat → ma20 !! i = Some NaN) ∧
            ((i < 49)%nat → ma50 !! i = Some NaN) ∧
            ((i < 13)%nat → rsi !! i = Some NaN)) ∧
  (h df !! "Close" = None →
     calculate_technical_indicators df h = (Raise (KeyError "Close"), h)).
Proof.
  split; [|apply calculate_technical_indicators_no_close].
  intros close Hc.
  destruct (calculate_technical_indicators_run h df close Hc) as (h' & Hrun & Hdf & _).
  exists h', (rolling_mean 20 close), (rolling_mean 50 close), (rsi14 close).
  split; [done|]. rewrite Hdf. unfold with_indicators.
  repeat (rewrite lookup_insert_eq || rewrite lookup_insert_ne by done).
  rewrite !rolling_mean_length, rsi14_length.
  repeat (split; [done|]).
  intros i Hi. repeat split; intros Hw.
  - apply rolling_mean_leading; [done|lia].
  - apply rolling_mean_leading; [done|lia].
  - by apply rsi14_leading.
Qed.

Lemma calculate_technical_indicators_any_length_witness :
  ∃ h' ma20 ma50 rsi,
    calculate_technical_indicators 0%nat (λ _, one_row) = (Ok 0%nat, h') ∧
    h' 0%nat !! "MA20" = Some ma20 ∧
    h' 0%nat !! "MA50" = Some ma50 ∧
    h' 0%nat !! "RSI" = Some rsi ∧
    length ma20 = 1%nat ∧
    length ma50 = 1%nat ∧
    length rsi = 1%nat ∧
    ∀ i, (i < 1)%nat →
         ((i < 19)%nat → ma20 !! i = Some NaN) ∧
         ((i < 49)%nat → ma50 !! i = Some NaN) ∧
         ((i < 13)%nat → rsi !! i = Some NaN).
Proof.
  exact (proj1 (calculate_technical_indicators_any_length (λ _, one_row) 0%nat)
           [of_Z 7] eq_refl).
Defined.

(** C4 (as stated) fails: a frame of exactly one row is processed without
    any error, and its indicator columns hold one absent value each. *)
Lemma one_row_series_is_accepted :
  column one_row "Close" = Ok [of_Z 7] ∧
  (calculate_technical_indicators 0%nat (λ _, one_row)).1 = Ok 0%nat ∧
  (calculate_technical_indicators 0%nat (λ _, one_row)).2 0%nat
    = <["RSI" := [NaN]]> (<["MA50" := [NaN]]> (<["MA20" := [NaN]]> one_row)).
Proof. repeat split; reflexivity. Qed.

(** C9 (as the code has it).  The function works in place: it returns the
    reference it was given, and the frame behind it has the MA20, MA50 and RSI
    columns set; every other column of that frame, and every other object, is
    unchanged.  The three columns are functions of the close column alone, so
    two calls on frames with equal contents leave equal frames, and a second
    call on the same frame changes nothing. *)
Theorem calculate_technical_indicators_in_place (h : heap) (df : loc) (close : Series) :
  h df !! "Close" = Some close →
  ∃ h',
    calculate_technical_indicators df h = (Ok df, h') ∧
    h' df = with_indicators close (h df) ∧
    (∀ col, col ∉ ["MA20"; "MA50"; "RSI"] → h' df !! col = h df !! col) ∧
    (∀ l, l ≠ df → h' l = h l) ∧
    (∀ h2 df2, h2 df2 = h df →
       ∃ h2', calculate_technical_indicators df2 h2 = (Ok df2, h2') ∧
              h2' df2 = h' df) ∧
    (∃ h'', calculate_technical_indicators df h' = (Ok df, h'') ∧
            ∀ l, h'' l = h' l).
Proof.
  intros Hc.
  destruct (calculate_technical_indicators_run h df close Hc) as (h' & Hrun & Hdf & Hother).
  exists h'. split; [done|]. split; [done|]. split; [|split; [done|split]].
  - intros col Hcol. rewrite Hdf. unfold with_indicators.
    rewrite !lookup_insert_ne; [done|..]; intros <-; apply Hcol; set_solver.
  - intros h2 df2 Heq.
    assert (h2 df2 !! "Close" = Some close) as Hc2 by (by rewrite Heq).
    destruct (calculate_technical_indicators_run h2 df2 close Hc2) as (h2' & Hrun2 & Hdf2 & _).
    exists h2'. split; [done|]. by rewrite Hdf2, Hdf, Heq.
  - assert (h' df !! "Close" = Some close) as Hc'.
    { by rewrite Hdf, with_indicators_close. }
    destruct (calculate_technical_indicators_run h' df close Hc') as (h'' & Hrun' & Hdf' & Hother').
    exists h''. split; [done|]. intros l.
    destruct (decide (l = df)) as [->|Hne]; [|by apply Hother'].
    by rewrite Hdf', Hdf, with_indicators_idem.
Qed.

Lemma calculate_technical_indicators_in_place_witness :
  ∃ h',
    calculate_technical_indicators 0%nat (λ _, one_row) = (Ok 0%nat, h') ∧
    h' 0%nat = with_indicators [of_Z 7] one_row ∧
    (∀ col, col ∉ ["MA20"; "MA50"; "RSI"] → h' 0%nat !! col = one_row !! col) ∧
    (∀ l, l ≠ 0%nat → h' l = one_row) ∧
    (∀ h2 df2, h2 df2 = one_row →
       ∃ h2', calculate_technical_indicators df2 h2 = (Ok df2, h2') ∧
              h2' df2 = h' 0%nat) ∧
    (∃ h'', calculate_technical_indicators 0%nat h' = (Ok 0%nat, h'') ∧
            ∀ l, h'' l = h' l).
Proof.
  exact (calculate_technical_indicators_in_place (λ _, one_row) 0%nat [of_Z 7] eq_refl).
Defined.

(** C9 (as stated) fails: after the call the frame that was passed in has
    columns it did not have before. *)
Lemma input_frame_is_mutated :
  one_row !! "MA20" = None ∧
  (calculate_technical_indicators 0%nat (λ _, one_row)).2 0%nat !! "MA20" = Some [NaN] ∧
  (calculate_technical_indicators 0%nat (λ _, one_row)).2 0%nat ≠ one_row.
Proof.
  repeat split; try reflexivity.
  intros H. apply (f_equal (λ m : DataFrame, m !! "MA20")) in H. discriminate H.
Qed.

(* ================================================================== *)
(** * Arithmetic facts used by the aggregator *)
(* ================================================================== *)

Section Arithmetic.

Implicit Types (x y z : num) (a b c t : Q).

Lemma Qzero_b_false t : ¬ (t == 0)%Q → Qzero_b t = false.
Proof.
  intros H. unfold Qzero_b. apply Z.eqb_neq. intros Hn. apply H.
  destruct t as [n d]. simpl in Hn. subst n. reflexivity.
Qed.

End Arithmetic.

(* ================================================================== *)
(** * The portfolio aggregator *)
(* ================================================================== *)

Module PortfolioFacts.

Import Portfolio.

Section Loop.

Variable Ticker : string → yf.ticker.

Implicit Types (a : Analysis) (row : Row) (rows pre post : list Row).
Implicit Types (hs : list Stock.t).

(** The loop body reads the quote and adds the enriched holding. *)
Lemma process_row_lookup a row :
  process_row Ticker a row =
  (q ← lookup Ticker (Symbol row); mret (add_holding a (holding row q))).
Proof.
  unfold process_row, lookup.
  destruct (last_close (Ticker (Symbol row)) "1d") as [cur|e]; [|done].
  rewrite !bind_Ok.
  destruct (last_close (Ticker (Symbol row)) "2d") as [prev|e]; [|done].
  rewrite !bind_Ok.
  destruct (yf.info (Ticker (Symbol row))) as [i|e]; [|done].
  reflexivity.
Qed.

(** The loop is the fold of [add_holding] over the enriched holdings. *)
Lemma process_rows_holdings a rows :
  process_rows Ticker a rows =
  (hs ← holdings Ticker rows; mret (foldl add_holding a hs)).
Proof.
  revert a. induction rows as [|row rest IH]; intros a; [done|].
  simpl. rewrite process_row_lookup.
  destruct (lookup Ticker (Symbol row)) as [q|e]; [|done].
  rewrite !bind_Ok. rewrite IH.
  destruct (holdings Ticker rest) as [hs|e]; done.
Qed.

(** The first failing lookup ends the loop with its exception. *)
Lemma holdings_first_failure pre row post e :
  Forall (λ r, ∃ q, lookup Ticker (Symbol r) = Ok q) pre →
  lookup Ticker (Symbol row) = Raise e →
  holdings Ticker (pre ++ row :: post)%list = Raise e.
Proof.
  intros Hpre Hrow. induction Hpre as [|r pre [q Hq] _ IH]; simpl.
  - by rewrite Hrow.
  - by rewrite Hq, bind_Ok, IH.
Qed.

(** A portfolio with a failing lookup has a first one. *)
Lemma first_failing_row rows :
  (∃ row, row ∈ rows ∧ ∃ e, lookup Ticker (Symbol row) = Raise e) →
  ∃ pre row post e,
    rows = (pre ++ row :: post)%list ∧
    Forall (λ r, ∃ q, lookup Ticker (Symbol r) = Ok q) pre ∧
    lookup Ticker (Symbol row) = Raise e.
Proof.
  induction rows as [|r rest IH]; intros (row & Hin & e & He).
  - by apply elem_of_nil in Hin.
  - destruct (lookup Ticker (Symbol r)) as [q|e'] eqn:Hr.
    + apply elem_of_cons in Hin as [->|Hin]; [congruence|].
      destruct IH as (pre & row' & post & e' & -> & Hpre & Hrow'); [by eauto|].
      exists (r :: pre), row', post, e'. split; [done|]. split; [|done].
      constructor; [by exists q|done].
    + exists [], r, rest, e'. split; [done|]. split; [constructor|done].
Qed.

(** Every row of a successfully enriched portfolio has its holding, built
    from its own quote. *)
Lemma holdings_elem rows hs row :
  holdings Ticker rows = Ok hs → row ∈ rows →
  ∃ q, lookup Ticker (Symbol row) = Ok q ∧ holding row q ∈ hs.
Proof.
  revert hs. induction rows as [|r rest IH]; intros hs Hhs Hin.
  - by apply elem_of_nil in Hin.
  - simpl in Hhs.
    destruct (lookup Ticker (Symbol r)) as [q|e] eqn:Hr; [|done].
    rewrite bind_Ok in Hhs.
    destruct (holdings Ticker rest) as [hs'|e] eqn:Hrest; [|done].
    injection Hhs as <-.
    apply elem_of_cons in Hin as [->|Hin].
    + exists q. split; [done|]. apply elem_of_cons. by left.
    + destruct (IH hs' eq_refl Hin) as (q' & Hq' & Hel).
      exists q'. split; [done|]. apply elem_of_cons. by right.
Qed.

Lemma holdings_symbols rows hs :
  holdings Ticker rows = Ok hs → Stock.symbol <$> hs = Symbol <$> rows.
Proof.
  revert hs. induction rows as [|r rest IH]; intros hs Hhs; simpl in Hhs.
  - by injection Hhs as <-.
  - destruct (lookup Ticker (Symbol r)) as [[[cur prev] sec]|e]; [|done].
    rewrite bind_Ok in Hhs.
    destruct (holdings Ticker rest) as [hs'|e]; [|done].
    injection Hhs as <-. simpl. f_equal. by apply IH.
Qed.

End Loop.

Section Fold.

Implicit Types (a : Analysis) (hs : list Stock.t) (s : Stock.t).

Lemma fold_snoc hs s :
  foldl add_holding initial (hs ++ [s]) = add_holding (foldl add_holding initial hs) s.
Proof. apply foldl_snoc. Qed.

Lemma fold_stocks hs : stocks (foldl add_holding initial hs) = hs.
Proof.
  induction hs as [|s hs IH] using rev_ind; [done|].
  rewrite fold_snoc. simpl. by rewrite IH.
Qed.

Lemma fold_risk_level hs : risk_level (foldl add_holding initial hs) = "Medium".
Proof.
  induction hs as [|s hs IH] using rev_ind; [done|].
  rewrite fold_snoc. simpl. exact IH.
Qed.

Lemma fold_total_value hs :
  total_value (foldl add_holding initial hs) = Series.sum (Stock.total_value <$> hs).
Proof.
  induction hs as [|s hs IH] using rev_ind; [done|].
  rewrite fold_snoc, fmap_app. unfold Series.sum. rewrite foldl_app.
  simpl. rewrite IH. reflexivity.
Qed.

(** Total value and daily change evolve together as the running-total fold. *)
Lemma fold_weighted hs :
  (total_value (foldl add_holding initial hs),
   daily_change (foldl add_holding initial hs))
  = foldl weighted_step (zero, zero) hs.
Proof.
  induction hs as [|s hs IH] using rev_ind; [done|].
  rewrite fold_snoc, foldl_snoc, <- IH. reflexivity.
Qed.

Lemma fold_sectors hs :
  dom (sector_distribution (foldl add_holding initial hs)) = distinct_sectors hs.
Proof.
  unfold distinct_sectors.
  induction hs as [|s hs IH] using rev_ind; [apply dom_empty_L|].
  rewrite fold_snoc, fmap_app, list_to_set_app_L. simpl.
  rewrite dom_insert_L, IH. set_solver.
Qed.

End Fold.

Section Result.

Variable Ticker : string → yf.ticker.

Implicit Types (a : Analysis) (rows : list Row) (hs : list Stock.t).

(** The dictionary returned for enriched holdings [hs]. *)
Lemma analyze_portfolio_ok rows a :
  analyze_portfolio Ticker rows = Ok a →
  ∃ hs, holdings Ticker rows = Ok hs ∧
        a = set_risk_level (to_percentages (foldl add_holding initial hs)).
Proof.
  unfold analyze_portfolio, analyze_portfolio_body.
  rewrite process_rows_holdings.
  destruct (holdings Ticker rows) as [hs|e]; [|done].
  rewrite !bind_Ok. intros [= <-]. by exists hs.
Qed.

Lemma analyze_portfolio_holdings rows hs :
  holdings Ticker rows = Ok hs →
  analyze_portfolio Ticker rows =
    Ok (set_risk_level (to_percentages (foldl add_holding initial hs))).
Proof.
  intros H. unfold analyze_portfolio, analyze_portfolio_body.
  by rewrite process_rows_holdings, H.
Qed.

Lemma analyze_portfolio_raise rows e :
  holdings Ticker rows = Raise e →
  analyze_portfolio Ticker rows =
    Raise (Exception ("Error analyzing portfolio: " ++ str e)).
Proof.
  intros H. unfold analyze_portfolio, analyze_portfolio_body.
  by rewrite process_rows_holdings, H.
Qed.

Lemma risk_of_sector_count_cases n :
  ((n < 3)%nat → risk_of_sector_count n = "High") ∧
  ((5 < n)%nat → risk_of_sector_count n = "Low") ∧
  ((3 ≤ n ≤ 5)%nat → risk_of_sector_count n = "Medium").
Proof.
  unfold risk_of_sector_count.
  destruct (Nat.ltb_spec n 3), (Nat.ltb_spec 5 n); repeat split; intros; (done || lia).
Qed.

(** The fields of the returned dictionary, in terms of the holdings. *)
Lemma result_fields hs :
  let a := set_risk_level (to_percentages (foldl add_holding initial hs)) in
  stocks a = hs ∧
  total_value a = Series.sum (Stock.total_value <$> hs) ∧
  daily_change a = running_weighted_change hs ∧
  dom (sector_distribution a) = distinct_sectors hs ∧
  risk_level a = risk_of_sector_count (size (distinct_sectors hs)).
Proof.
  simpl. split; [apply fold_stocks|]. split; [apply fold_total_value|]. split.
  { unfold running_weighted_change. by rewrite <- fold_weighted. }
  split.
  { by rewrite dom_fmap_L, fold_sectors. }
  rewrite map_size_fmap, fold_risk_level.
  rewrite <- fold_sectors, size_dom. reflexivity.
Qed.

End Result.

(** C5. The weighted daily change is the left fold over the holdings in
    input order, each holding contributing its daily change times its value
    over the running total that already includes it.  The result therefore
    depends on the order: the same two holdings in the two orders give
    different results, and neither is the value-weighted average over the
    final total. *)
Theorem daily_change_is_running_fold :
  (∀ (Ticker : string → yf.ticker) (rows : list Row) (a : Analysis),
     analyze_portfolio Ticker rows = Ok a →
     holdings Ticker rows = Ok (stocks a) ∧
     daily_change a = running_weighted_change (stocks a)) ∧
  (∃ a1 a2,
     analyze_portfolio moving_market example_portfolio = Ok a1 ∧
     analyze_portfolio moving_market (rev example_portfolio) = Ok a2 ∧
     stocks a2 = rev (stocks a1) ∧
     daily_change a1 = Fin (220 # 31) ∧
     daily_change a2 = Fin (-90 # 31) ∧
     value_weighted_change (stocks a1) = Fin (130 # 31) ∧
     value_weighted_change (stocks a2) = Fin (130 # 31)).
Proof.
  split.
  - intros Ticker rows a Ha.
    destruct (analyze_portfolio_ok Ticker rows a Ha) as (hs & Hhs & ->).
    destruct (result_fields hs) as (Hst & _ & Hdc & _).
    rewrite Hst. by split.
  - eexists _, _. split; [reflexivity|]. split; [reflexivity|].
    repeat split; reflexivity.
Qed.

Lemma daily_change_is_running_fold_witness :
  holdings example_market example_portfolio = Ok example_holdings ∧
  zero = running_weighted_change example_holdings.
Proof.
  exact (proj1 daily_change_is_running_fold example_market example_portfolio
           example_summary eq_refl).
Defined.

(** C7. The risk level of a successfully aggregated portfolio is a
    function of the number of distinct sectors among its holdings: High for
    fewer than 3, Low for more than 5, Medium for 3 to 5. *)
Theorem risk_level_by_distinct_sectors
    (Ticker : string → yf.ticker) (rows : list Row) (a : Analysis) :
  analyze_portfolio Ticker rows = Ok a →
  holdings Ticker rows = Ok (stocks a) ∧
  size (sector_distribution a) = size (distinct_sectors (stocks a)) ∧
  ((size (distinct_sectors (stocks a)) < 3)%nat → risk_level a = "High") ∧
  ((5 < size (distinct_sectors (stocks a)))%nat → risk_level a = "Low") ∧
  ((3 ≤ size (distinct_sectors (stocks a)) ≤ 5)%nat → risk_level a = "Medium").
Proof.
  intros Ha.
  destruct (analyze_portfolio_ok Ticker rows a Ha) as (hs & Hhs & ->).
  destruct (result_fields hs) as (Hst & _ & _ & Hdom & Hrisk).
  rewrite Hst, Hrisk. split; [done|]. split.
  - by rewrite <- Hdom, size_dom.
  - apply risk_of_sector_count_cases.
Qed.

Lemma risk_level_by_distinct_sectors_witness :
  holdings example_market example_portfolio = Ok example_holdings ∧
  size ({[ "Tech" := of_Z 75; "Energy" := of_Z 25 ]} : gmap string num)
    = size (distinct_sectors example_holdings) ∧
  ((size (distinct_sectors example_holdings) < 3)%nat → "High" = "High") ∧
  ((5 < size (distinct_sectors example_holdings))%nat → "High" = "Low") ∧
  ((3 ≤ size (distinct_sectors example_holdings) ≤ 5)%nat → "High" = "Medium").
Proof.
  exact (risk_level_by_distinct_sectors example_market example_portfolio
           example_summary eq_refl).
Defined.

Section Quotes.

Variable Ticker : string → yf.ticker.

(** The sector of a quote is the ["sector"] entry of [info], or ["Unknown"]. *)
Lemma lookup_sector symbol cur prev sec :
  lookup Ticker symbol = Ok (cur, prev, sec) →
  ∃ i, yf.info (Ticker symbol) = Ok i ∧ sec = dict_get i "sector" "Unknown".
Proof.
  unfold lookup.
  destruct (last_close (Ticker symbol) "1d") as [c|e]; [|done].
  rewrite bind_Ok.
  destruct (last_close (Ticker symbol) "2d") as [p|e]; [|done].
  rewrite bind_Ok.
  destruct (yf.info (Ticker symbol)) as [i|e]; [|done].
  rewrite bind_Ok. intros [= _ _ <-]. by exists i.
Qed.

End Quotes.

(** C8 (as the code has it).  If the lookup fails for some symbol, the
    whole aggregation fails: the exception raised is an [Exception] whose
    message is "Error analyzing portfolio: " followed by the message of the
    first failing lookup, and no summary is returned.  The message carries the
    failing symbol only if the lookup's own message does. *)
Theorem lookup_failure_aborts (Ticker : string → yf.ticker) (rows : list Row) :
  (∃ row, row ∈ rows ∧ ∃ e, lookup Ticker (Symbol row) = Raise e) →
  ∃ pre row post e,
    rows = (pre ++ row :: post)%list ∧
    Forall (λ r, ∃ q, lookup Ticker (Symbol r) = Ok q) pre ∧
    lookup Ticker (Symbol row) = Raise e ∧
    analyze_portfolio Ticker rows
      = Raise (Exception ("Error analyzing portfolio: " ++ str e)) ∧
    ∀ a, analyze_portfolio Ticker rows ≠ Ok a.
Proof.
  intros Hfail.
  destruct (first_failing_row Ticker rows Hfail) as (pre & row & post & e & -> & Hpre & Hrow).
  exists pre, row, post, e. split; [done|]. split; [done|]. split; [done|].
  pose proof (holdings_first_failure Ticker pre row post e Hpre Hrow) as Hh.
  rewrite (analyze_portfolio_raise Ticker _ e Hh). split; [done|]. by intros a.
Qed.

Lemma lookup_failure_aborts_witness :
  ∃ pre row post e,
    failing_portfolio = (pre ++ row :: post)%list ∧
    Forall (λ r, ∃ q, lookup example_market (Symbol r) = Ok q) pre ∧
    lookup example_market (Symbol row) = Raise e ∧
    analyze_portfolio example_market failing_portfolio
      = Raise (Exception ("Error analyzing portfolio: " ++ str e)) ∧
    ∀ a, analyze_portfolio example_market failing_portfolio ≠ Ok a.
Proof.
  apply (lookup_failure_aborts example_market failing_portfolio).
  exists failing_row. split.
  - apply list_elem_of_In. simpl. auto.
  - exists out_of_bounds. reflexivity.
Defined.

(** C8 (as stated) fails: the lookup of the symbol ZZZ fails, and the
    exception of the aggregation does not name ZZZ. *)
Lemma error_does_not_name_symbol :
  failing_row ∈ failing_portfolio ∧
  lookup example_market (Symbol failing_row) = Raise out_of_bounds ∧
  analyze_portfolio example_market failing_portfolio
    = Raise (Exception
        "Error analyzing portfolio: single positional indexer is out-of-bounds") ∧
  contains (Symbol failing_row)
    "Error analyzing portfolio: single positional indexer is out-of-bounds" = false.
Proof.
  split; [apply list_elem_of_In; simpl; auto|]. repeat split; reflexivity.
Qed.

(** C10. A holding whose quote has no sector classification is classified
    under the sector name "Unknown"; "Unknown" has its own entry in the sector
    distribution and counts among the distinct sectors that determine the risk
    level. *)
Theorem missing_sector_is_unknown
    (Ticker : string → yf.ticker) (rows : list Row) (a : Analysis)
    (row : Row) (i : dict) :
  analyze_portfolio Ticker rows = Ok a →
  row ∈ rows →
  yf.info (Ticker (Symbol row)) = Ok i →
  i !! "sector" = None →
  (∃ s, s ∈ stocks a ∧ Stock.symbol s = Symbol row ∧
        Stock.shares s = Shares row ∧ Stock.sector s = "Unknown") ∧
  "Unknown" ∈ distinct_sectors (stocks a) ∧
  is_Some (sector_distribution a !! "Unknown") ∧
  size (sector_distribution a) = size (distinct_sectors (stocks a)) ∧
  risk_level a = risk_of_sector_count (size (sector_distribution a)).
Proof.
  intros Ha Hin Hinfo Hnone.
  destruct (analyze_portfolio_ok Ticker rows a Ha) as (hs & Hhs & ->).
  destruct (result_fields hs) as (Hst & _ & _ & Hdom & Hrisk).
  destruct (holdings_elem Ticker rows hs row Hhs Hin) as ([[cur prev] sec] & Hq & Hel).
  destruct (lookup_sector Ticker _ _ _ _ Hq) as (i' & Hi' & ->).
  rewrite Hinfo in Hi'. injection Hi' as <-.
  assert (dict_get i "sector" "Unknown" = "Unknown") as Hunk.
  { unfold dict_get. by rewrite Hnone. }
  rewrite Hunk in Hel.
  assert ("Unknown" ∈ distinct_sectors hs) as Hmem.
  { unfold distinct_sectors. apply elem_of_list_to_set, list_elem_of_fmap.
    eexists. split; [|exact Hel]. reflexivity. }
  assert (size (sector_distribution
            (set_risk_level (to_percentages (foldl add_holding initial hs))))
          = size (distinct_sectors hs)) as Hsize.
  { by rewrite <- Hdom, size_dom. }
  rewrite Hst. split; [|split; [done|split; [|split]]].
  - eexists. split; [exact Hel|]. done.
  - apply elem_of_dom. by rewrite Hdom.
  - exact Hsize.
  - by rewrite Hsize.
Qed.

Lemma missing_sector_is_unknown_witness :
  (∃ s, s ∈ stocks unclassified_summary ∧ Stock.symbol s = "BRK" ∧
        Stock.shares s = of_Z 1 ∧ Stock.sector s = "Unknown") ∧
  "Unknown" ∈ distinct_sectors (stocks unclassified_summary) ∧
  is_Some (sector_distribution unclassified_summary !! "Unknown") ∧
  size (sector_distribution unclassified_summary)
    = size (distinct_sectors (stocks unclassified_summary)) ∧
  "Medium" = risk_of_sector_count (size (sector_distribution unclassified_summary)).
Proof.
  apply (missing_sector_is_unknown example_market unclassified_portfolio
           unclassified_summary unclassified_row ∅).
  - reflexivity.
  - apply list_elem_of_In. simpl. auto.
  - reflexivity.
  - reflexivity.
Defined.

End PortfolioFacts.

(* ================================================================== *)
(** * The sector percentages, on binary64 numbers *)
(* ================================================================== *)

Module Portfolio64Facts.

Import Portfolio64.

Section Loop64.

Variable Ticker : string → ticker.

Implicit Types (a : Analysis) (row : Row) (rows : list Row) (hs : list Stock.t).

(** The loop body reads the quote and adds the enriched holding. *)
Lemma process_row_lookup64 a row :
  process_row Ticker a row =
  (q ← lookup Ticker (Symbol row); mret (add_holding a (holding row q))).
Proof.
  unfold process_row, lookup.
  destruct (last_close (Ticker (Symbol row)) "1d") as [cur|e]; [|done].
  rewrite !bind_Ok.
  destruct (last_close (Ticker (Symbol row)) "2d") as [prev|e]; [|done].
  rewrite !bind_Ok.
  destruct (info (Ticker (Symbol row))) as [i|e]; [|done].
  reflexivity.
Qed.

(** The loop is the fold of [add_holding] over the enriched holdings. *)
Lemma process_rows_holdings64 a rows :
  process_rows Ticker a rows =
  (hs ← holdings Ticker rows; mret (foldl add_holding a hs)).
Proof.
  revert a. induction rows as [|row rest IH]; intros a; [done|].
  simpl. rewrite process_row_lookup64.
  destruct (lookup Ticker (Symbol row)) as [q|e]; [|done].
  rewrite !bind_Ok. rewrite IH.
  destruct (holdings Ticker rest) as [hs|e]; done.
Qed.

(** The dictionary returned for enriched holdings [hs]. *)
Lemma analyze_portfolio_ok64 rows a :
  analyze_portfolio Ticker rows = Ok a →
  ∃ hs, holdings Ticker rows = Ok hs ∧
        a = set_risk_level (to_percentages (foldl add_holding initial hs)).
Proof.
  unfold analyze_portfolio, analyze_portfolio_body.
  rewrite process_rows_holdings64.
  destruct (holdings Ticker rows) as [hs|e]; [|done].
  rewrite !bind_Ok. intros [= <-]. by exists hs.
Qed.

End Loop64.

Section Fold64.

Implicit Types (a : Analysis) (hs : list Stock.t) (s : Stock.t).

Lemma fold_snoc64 hs s :
  foldl add_holding initial (hs ++ [s]) = add_holding (foldl add_holding initial hs) s.
Proof. apply foldl_snoc. Qed.

Lemma fold_stocks64 hs : stocks (foldl add_holding initial hs) = hs.
Proof.
  induction hs as [|s hs IH] using rev_ind; [done|].
  rewrite fold_snoc64. simpl. by rewrite IH.
Qed.

(** The total is the sum of the values, added in input order. *)
Lemma fold_total_value64 hs :
  total_value (foldl add_holding initial hs) = sum (Stock.total_value <$> hs).
Proof.
  induction hs as [|s hs IH] using rev_ind; [done|].
  rewrite fold_snoc64, fmap_app. unfold sum. rewrite foldl_app.
  simpl. rewrite IH. reflexivity.
Qed.

Lemma fold_sectors64 hs :
  dom (sector_distribution (foldl add_holding initial hs)) = distinct_sectors hs.
Proof.
  unfold distinct_sectors.
  induction hs as [|s hs IH] using rev_ind; [apply dom_empty_L|].
  rewrite fold_snoc64, fmap_app, list_to_set_app_L. simpl.
  rewrite dom_insert_L, IH. set_solver.
Qed.

(** Each bucket is the sum of the values of the holdings of its sector, added
    in input order; a sector without holdings has no bucket. *)
Lemma fold_bucket64 hs sec :
  sector_distribution (foldl add_holding initial hs) !! sec
  = match in_sector sec hs with
    | [] => None
    | _ => Some (sector_value sec hs)
    end.
Proof.
  induction hs as [|s hs IH] using rev_ind; [done|].
  rewrite fold_snoc64. simpl. unfold sector_value, in_sector in *.
  rewrite list.filter_app, filter_cons, filter_nil.
  destruct (decide (Stock.sector s = sec)) as [Heq|Hne].
  - rewrite Heq, lookup_insert_eq, IH.
    rewrite fmap_app. unfold sum. rewrite foldl_app. simpl.
    destruct (filter (λ s0, Stock.sector s0 = sec) hs) as [|h l]; reflexivity.
  - rewrite lookup_insert_ne by done. rewrite IH, app_nil_r. reflexivity.
Qed.

End Fold64.

(** C6. What the sector distribution holds, bit for bit.  For every
    portfolio that is aggregated, the total value is the sum of the stock
    values added in input order, the keys of the distribution are the
    distinct sectors of the holdings, and the entry of a sector is its bucket
    (the values of its holdings, added in input order) divided by the total
    value and then multiplied by 100, each operation rounded to binary64.
    The two-holding example (AAPL at 150 with 10 shares in Tech, XOM at 100
    with 5 shares in Energy) has total value 2000 and the distribution
    Tech 75, Energy 25, exactly. *)
Theorem sector_distribution_entries :
  (∀ (Ticker : string → ticker) (rows : list Row) (a : Analysis),
     analyze_portfolio Ticker rows = Ok a →
     holdings Ticker rows = Ok (stocks a) ∧
     total_value a = sum (Stock.total_value <$> stocks a) ∧
     dom (sector_distribution a) = distinct_sectors (stocks a) ∧
     (∀ sec, sec ∈ distinct_sectors (stocks a) →
        sector_distribution a !! sec
        = Some ((sector_value sec (stocks a) / total_value a) * 100)%float)) ∧
  (analyze_portfolio example_market example_portfolio = Ok example_summary ∧
   total_value example_summary = 2000%float ∧
   sector_distribution example_summary = {[ "Tech" := 75%float; "Energy" := 25%float ]}).
Proof.
  split; [|repeat split; vm_compute; reflexivity].
  intros Ticker rows a Ha.
  destruct (analyze_portfolio_ok64 Ticker rows a Ha) as (hs & Hhs & ->).
  simpl. rewrite fold_stocks64, fold_total_value64, dom_fmap_L, fold_sectors64.
  split; [done|]. split; [done|]. split; [done|].
  intros sec Hsec. rewrite <- fold_sectors64 in Hsec.
  apply elem_of_dom in Hsec as [v Hv].
  rewrite lookup_fmap, Hv. simpl.
  rewrite fold_bucket64 in Hv.
  destruct (in_sector sec hs); [done|]. by injection Hv as <-.
Qed.

Lemma sector_distribution_entries_witness :
  holdings example_market example_portfolio = Ok example_holdings ∧
  2000%float = sum (Stock.total_value <$> example_holdings) ∧
  dom ({[ "Tech" := 75%float; "Energy" := 25%float ]} : gmap string float)
    = distinct_sectors example_holdings ∧
  (∀ sec, sec ∈ distinct_sectors example_holdings →
     ({[ "Tech" := 75%float; "Energy" := 25%float ]} : gmap string float) !! sec
     = Some ((sector_value sec example_holdings / 2000) * 100)%float).
Proof.
  exact (proj1 sector_distribution_entries example_market example_portfolio
           example_summary ltac:(vm_compute; reflexivity)).
Defined.

(** The percentages are rounded.  Two holdings worth 10 and 20, in two
    sectors, have the positive total value 30; the entry of Tech is
    [10 / 30 * 100], which is not [100 * 10 / 30], and the two entries do not
    sum to 100. *)
Lemma percentages_are_rounded :
  analyze_portfolio thirds_market thirds_portfolio = Ok thirds_summary ∧
  stocks thirds_summary ≠ [] ∧
  total_value thirds_summary = 30%float ∧
  (0 <? total_value thirds_summary)%float = true ∧
  sector_value "Tech" (stocks thirds_summary) = 10%float ∧
  sector_distribution thirds_summary !! "Tech"
    ≠ Some (100 * sector_value "Tech" (stocks thirds_summary)
            / total_value thirds_summary)%float ∧
  dict_sum (sector_distribution thirds_summary) ≠ 100%float.
Proof.
  split; [vm_compute; reflexivity|]. split; [discriminate|].
  split; [reflexivity|]. split; [vm_compute; reflexivity|].
  split; [vm_compute; reflexivity|]. split.
  - intros H.
    apply (f_equal (λ o, match o with
                         | Some v => PrimFloat.eqb v (10 / 30 * 100)
                         | None => false
                         end)) in H.
    vm_compute in H. discriminate.
  - intros H. apply (f_equal (λ v, PrimFloat.eqb v 100)) in H.
    vm_compute in H. discriminate.
Qed.

End Portfolio64Facts.


(* ================================================================== *)
(** * Further properties of the indicator engine *)
(* ================================================================== *)

Section RollingMean.

Implicit Types (s : Series) (w i j : nat).

Lemma window_length w i s :
  (w ≤ S i)%nat → (i < length s)%nat → length (window w i s) = w.
Proof.
  intros Hw Hi. unfold window. rewrite length_take, length_drop. lia.
Qed.

Lemma window_lookup w i s k :
  (w ≤ S i)%nat → (k < w)%nat → window w i s !! k = s !! (S i - w + k)%nat.
Proof.
  intros Hw Hk. unfold window. rewrite lookup_take_lt by done.
  by rewrite lookup_drop.
Qed.

Lemma sum_from_finite (a : Q) s :
  Forall (λ x, is_finite x = true) s → ∃ q, foldl add (Fin a) s = Fin q.
Proof.
  intros Hs. revert a. induction Hs as [|x s Hx _ IH]; intros a; [by exists a|].
  destruct x as [b| | |]; try discriminate. simpl. apply IH.
Qed.

Lemma sum_finite s :
  Forall (λ x, is_finite x = true) s → ∃ q, Series.sum s = Fin q.
Proof. apply sum_from_finite. Qed.

Lemma forallb_finite_Forall s :
  forallb is_finite s = true ↔ Forall (λ x, is_finite x = true) s.
Proof.
  rewrite forallb_forall, Forall_forall.
  split; intros H x Hx; apply H; first [done | by apply list_elem_of_In].
Qed.

Lemma of_Z_nat_nonzero w : (0 < w)%nat → Qzero_b (inject_Z (Z.of_nat w)) = false.
Proof. intros H. unfold Qzero_b. simpl. apply Z.eqb_neq. lia. Qed.

(** A full window of finite cells has a finite mean. *)
Lemma rolling_mean_at_finite w s i :
  (0 < w)%nat → (w ≤ S i)%nat →
  Forall (λ x, is_finite x = true) (window w i s) →
  ∃ q, rolling_mean_at w s i = Fin q.
Proof.
  intros Hw0 Hw Hfin. unfold rolling_mean_at.
  destruct (Nat.ltb_spec (S i) w); [lia|].
  rewrite (proj2 (forallb_finite_Forall _) Hfin).
  destruct (sum_finite _ Hfin) as [q ->].
  unfold div, of_Z. rewrite (of_Z_nat_nonzero w Hw0). by eexists.
Qed.

(** A cell that is not finite blanks every window that holds it. *)
Lemma rolling_mean_at_blank w s i j x :
  (w ≤ S i)%nat → (i < j + w)%nat → (j ≤ i)%nat →
  s !! j = Some x → is_finite x = false →
  rolling_mean_at w s i = NaN.
Proof.
  intros Hw Hlo Hhi Hj Hx. unfold rolling_mean_at.
  destruct (S i <? w)%nat; [done|].
  destruct (forallb is_finite (window w i s)) eqn:Hall; [|done].
  apply forallb_finite_Forall in Hall.
  assert (window w i s !! (j - (S i - w))%nat = Some x) as Hk.
  { rewrite window_lookup by lia. rewrite <- Hj. f_equal. lia. }
  pose proof (Forall_lookup_1 _ _ _ _ Hall Hk) as Hfin. simpl in Hfin. congruence.
Qed.

Lemma window_finite w i s :
  Forall (λ x, is_finite x = true) s →
  Forall (λ x, is_finite x = true) (window w i s).
Proof.
  intros H. unfold window. by apply Forall_take, Forall_drop.
Qed.

End RollingMean.

(** X1. Where the moving averages have a value.  On a series whose closes
    are all finite, MA20 has a finite value at every index from 19 on and MA50
    at every index from 49 on; a close that is not a finite number (a missing
    quote) leaves no value in the 20, respectively 50, cells whose window
    holds it. *)
Theorem moving_averages_defined (h : heap) (df : loc) (close : Series) :
  h df !! "Close" = Some close →
  ∃ h' ma20 ma50,
    calculate_technical_indicators df h = (Ok df, h') ∧
    h' df !! "MA20" = Some ma20 ∧
    h' df !! "MA50" = Some ma50 ∧
    (Forall (λ x, is_finite x = true) close →
     ∀ i, (i < length close)%nat →
          ((19 ≤ i)%nat → ∃ q, ma20 !! i = Some (Fin q)) ∧
          ((49 ≤ i)%nat → ∃ q, ma50 !! i = Some (Fin q))) ∧
    (∀ j x, close !! j = Some x → is_finite x = false →
     ∀ i, (j ≤ i)%nat → (i < length close)%nat →
          ((i < j + 20)%nat → ma20 !! i = Some NaN) ∧
          ((i < j + 50)%nat → ma50 !! i = Some NaN)).
Proof.
  intros Hc.
  destruct (calculate_technical_indicators_run h df close Hc) as (h' & Hrun & Hdf & _).
  exists h', (rolling_mean 20 close), (rolling_mean 50 close).
  split; [done|]. rewrite Hdf. unfold with_indicators.
  repeat (rewrite lookup_insert_eq || rewrite lookup_insert_ne by done).
  split; [done|]. split; [done|]. split.
  - intros Hfin i Hi. split; intros Hw; rewrite rolling_mean_lookup by done.
    + destruct (rolling_mean_at_finite 20 close i) as [q ->];
        [lia|lia|by apply window_finite|by eexists].
    + destruct (rolling_mean_at_finite 50 close i) as [q ->];
        [lia|lia|by apply window_finite|by eexists].
  - intros j x Hj Hx i Hji Hi. split; intros Hw; rewrite rolling_mean_lookup by done.
    + destruct (decide (20 ≤ S i)%nat) as [Hfull|Hshort].
      * by rewrite (rolling_mean_at_blank 20 close i j x).
      * unfold rolling_mean_at. destruct (Nat.ltb_spec (S i) 20); [done|lia].
    + destruct (decide (50 ≤ S i)%nat) as [Hfull|Hshort].
      * by rewrite (rolling_mean_at_blank 50 close i j x).
      * unfold rolling_mean_at. destruct (Nat.ltb_spec (S i) 50); [done|lia].
Qed.

Lemma moving_averages_defined_witness :
  ∃ h' ma20 ma50,
    calculate_technical_indicators 0%nat (λ _, rising60) = (Ok 0%nat, h') ∧
    h' 0%nat !! "MA20" = Some ma20 ∧
    h' 0%nat !! "MA50" = Some ma50 ∧
    (Forall (λ x, is_finite x = true) ((λ n, of_Z (Z.of_nat n)) <$> seq 1 60) →
     ∀ i, (i < length ((λ n, of_Z (Z.of_nat n)) <$> seq 1 60))%nat →
          ((19 ≤ i)%nat → ∃ q, ma20 !! i = Some (Fin q)) ∧
          ((49 ≤ i)%nat → ∃ q, ma50 !! i = Some (Fin q))) ∧
    (∀ j x, ((λ n, of_Z (Z.of_nat n)) <$> seq 1 60) !! j = Some x →
     is_finite x = false →
     ∀ i, (j ≤ i)%nat → (i < length ((λ n, of_Z (Z.of_nat n)) <$> seq 1 60))%nat →
          ((i < j + 20)%nat → ma20 !! i = Some NaN) ∧
          ((i < j + 50)%nat → ma50 !! i = Some NaN)).
Proof.
  exact (moving_averages_defined (λ _, rising60) 0%nat
           ((λ n, of_Z (Z.of_nat n)) <$> seq 1 60) eq_refl).
Defined.

Section ConstantAverage.

Lemma sum_from_constant (c a : Q) k :
  foldl add (Fin a) (replicate k (Fin c)) = fin (a + inject_Z (Z.of_nat k) * c)
  ∨ (k = 0%nat ∧ foldl add (Fin a) (replicate k (Fin c)) = Fin a).
Proof.
  revert a. induction k as [|k IH]; intros a; [by right|left].
  simpl replicate. simpl foldl. unfold add at 2. unfold fin at 1.
  destruct (IH (Qred (a + c))) as [->|[-> ->]].
  - apply fin_ext. rewrite Qred_correct, Nat2Z.inj_succ, <- Z.add_1_r, inject_Z_plus.
    ring.
  - simpl. unfold fin. f_equal. apply Qred_complete. ring.
Qed.

(** The mean of a full window of equal cells is that cell. *)
Lemma rolling_mean_at_constant (c : Q) w n i :
  (0 < w)%nat → (w ≤ S i)%nat → (i < n)%nat →
  rolling_mean_at w (replicate n (Fin c)) i = fin c.
Proof.
  intros Hw0 Hw Hi. unfold rolling_mean_at.
  destruct (Nat.ltb_spec (S i) w); [lia|].
  unfold window. rewrite drop_replicate, take_replicate.
  replace (w `min` (n - (S i - w)))%nat with w by lia.
  assert (forallb is_finite (replicate w (Fin c)) = true) as ->.
  { apply forallb_finite_Forall, Forall_replicate. done. }
  unfold Series.sum, zero.
  destruct (sum_from_constant c 0 w) as [->|[-> _]]; [|lia].
  unfold div, of_Z, fin at 1. rewrite (of_Z_nat_nonzero w Hw0).
  apply fin_ext. rewrite Qred_correct. field.
  intros Hz. unfold Qeq in Hz. simpl in Hz. lia.
Qed.

End ConstantAverage.

(** X2. On a series whose close is the same finite number at every row,
    both moving averages equal that number wherever their window is full:
    MA20 from index 19 on, MA50 from index 49 on. *)
Theorem moving_averages_of_constant_series (h : heap) (df : loc) (c : Q) (n : nat) :
  h df !! "Close" = Some (replicate n (Fin c)) →
  ∃ h' ma20 ma50,
    calculate_technical_indicators df h = (Ok df, h') ∧
    h' df !! "MA20" = Some ma20 ∧
    h' df !! "MA50" = Some ma50 ∧
    ∀ i, (i < n)%nat →
         ((19 ≤ i)%nat → ma20 !! i = Some (fin c)) ∧
         ((49 ≤ i)%nat → ma50 !! i = Some (fin c)).
Proof.
  intros Hc.
  destruct (calculate_technical_indicators_run h df _ Hc) as (h' & Hrun & Hdf & _).
  exists h', (rolling_mean 20 (replicate n (Fin c))), (rolling_mean 50 (replicate n (Fin c))).
  split; [done|]. rewrite Hdf. unfold with_indicators.
  repeat (rewrite lookup_insert_eq || rewrite lookup_insert_ne by done).
  split; [done|]. split; [done|].
  intros i Hi.
  split; intros Hw; rewrite rolling_mean_lookup by (by rewrite length_replicate);
    f_equal; apply rolling_mean_at_constant; lia.
Qed.

Lemma moving_averages_of_constant_series_witness :
  ∃ h' ma20 ma50,
    calculate_technical_indicators 0%nat (λ _, {[ "Close" := replicate 60 (Fin 7) ]})
      = (Ok 0%nat, h') ∧
    h' 0%nat !! "MA20" = Some ma20 ∧
    h' 0%nat !! "MA50" = Some ma50 ∧
    ∀ i, (i < 60)%nat →
         ((19 ≤ i)%nat → ma20 !! i = Some (fin 7)) ∧
         ((49 ≤ i)%nat → ma50 !! i = Some (fin 7)).
Proof.
  exact (moving_averages_of_constant_series
           (λ _, {[ "Close" := replicate 60 (Fin 7) ]}) 0%nat 7%Q 60%nat eq_refl).
Defined.

Section RsiRange.

Implicit Types (x y d g l : num) (a b q : Q) (s : Series).

Lemma Qlt_b_true a b : Qlt_b a b = true ↔ (a < b)%Q.
Proof.
  unfold Qlt_b. rewrite Qlt_alt. destruct (a ?= b)%Q; split; congruence.
Qed.

Lemma Qzero_b_true a : Qzero_b a = true ↔ (a == 0)%Q.
Proof.
  unfold Qzero_b, Qeq. destruct a as [n p]. simpl. rewrite Z.eqb_eq. lia.
Qed.

Lemma Qpos_b_true a : Qpos_b a = true ↔ (0 < a)%Q.
Proof.
  unfold Qpos_b, Qlt. destruct a as [n p]. simpl. rewrite Z.ltb_lt. lia.
Qed.

Lemma nonneg_zero : nonneg zero.
Proof. exists 0%Q. split; [done|]. lra. Qed.

Lemma gain_cell d : gain_like (if (d >? zero)%num then d else zero).
Proof.
  destruct d as [q| | |]; unfold gt, lt, zero; simpl.
  - destruct (Qlt_b 0 q) eqn:Hq; right.
    + apply Qlt_b_true in Hq. exists q. split; [done|]. lra.
    + apply nonneg_zero.
  - by left.
  - right. apply nonneg_zero.
  - right. apply nonneg_zero.
Qed.

Lemma loss_cell d : gain_like (- (if (d <? zero)%num then d else zero))%num.
Proof.
  destruct d as [q| | |]; unfold lt, zero; simpl.
  - destruct (Qlt_b q 0) eqn:Hq; right.
    + apply Qlt_b_true in Hq. exists (Qred (- q)). split; [done|].
      rewrite Qred_correct. lra.
    + apply nonneg_zero.
  - right. apply nonneg_zero.
  - by left.
  - right. apply nonneg_zero.
Qed.

Lemma gains_gain_like s :
  Forall gain_like (where_ s (gt_scalar s zero) zero).
Proof.
  unfold where_, gt_scalar. induction s as [|d s IH]; [constructor|].
  simpl. constructor; [apply gain_cell|exact IH].
Qed.

Lemma losses_gain_like s :
  Forall gain_like (neg_series (where_ s (lt_scalar s zero) zero)).
Proof.
  unfold neg_series, where_, lt_scalar. induction s as [|d s IH]; [constructor|].
  simpl. constructor; [apply loss_cell|exact IH].
Qed.

Lemma sum_from_nonneg a s :
  (0 <= a)%Q → Forall nonneg s → nonneg (foldl add (Fin a) s).
Proof.
  intros Ha Hs. revert a Ha. induction Hs as [|x s (b & -> & Hb) _ IH]; intros a Ha.
  - by exists a.
  - simpl. apply IH. rewrite Qred_correct. lra.
Qed.

(** The rolling mean of a gain-like column has no value or is not negative. *)
Lemma rolling_mean_at_gain_like w s i :
  (0 < w)%nat → Forall gain_like s →
  rolling_mean_at w s i = NaN ∨ nonneg (rolling_mean_at w s i).
Proof.
  intros Hw Hs. unfold rolling_mean_at.
  destruct (S i <? w)%nat; [by left|].
  destruct (forallb is_finite (window w i s)) eqn:Hfin; [|by left]. right.
  apply forallb_finite_Forall in Hfin.
  assert (Forall nonneg (window w i s)) as Hnn.
  { assert (Forall gain_like (window w i s)) as Hg.
    { unfold window. by apply Forall_take, Forall_drop. }
    assert (Forall (λ x, is_finite x = true ∧ gain_like x) (window w i s)) as Hboth.
    { by apply Forall_and. }
    eapply Forall_impl; [|exact Hboth]. intros x [Hx [->|Hn]]; [discriminate|done]. }
  destruct (sum_from_nonneg 0 (window w i s)) as (q & Hq & Hq0); [lra|done|].
  unfold Series.sum, zero. rewrite Hq.
  unfold div, of_Z. rewrite (of_Z_nat_nonzero w Hw).
  eexists. split; [reflexivity|]. rewrite Qred_correct.
  apply Qle_shift_div_l; [|lra].
  unfold Qlt. simpl. lia.
Qed.

(** The RSI of a quotient of two such means has no value or lies in [0, 100]. *)
Lemma rsi_of_rs_range g l :
  (g = NaN ∨ nonneg g) → (l = NaN ∨ nonneg l) →
  rsi_of_rs (g / l)%num = NaN
  ∨ ∃ q, rsi_of_rs (g / l)%num = Fin q ∧ (0 <= q <= 100)%Q.
Proof.
  intros [->|(a & -> & Ha)] [->|(b & -> & Hb)]; try (by left).
  unfold div. destruct (Qzero_b b) eqn:Hzb.
  - destruct (Qzero_b a) eqn:Hza; [by left|].
    assert (Qpos_b a = true) as ->.
    { apply Qpos_b_true. destruct (Qzero_b_true a) as [_ Hz].
      destruct (Qlt_le_dec 0 a) as [|Hle]; [done|].
      rewrite Hz in Hza; [done|]. lra. }
    right. exists 100%Q. split; [reflexivity|]. lra.
  - right.
    assert (0 < b)%Q as Hbpos.
    { destruct (Qlt_le_dec 0 b) as [|Hle]; [done|].
      destruct (Qzero_b_true b) as [_ Hz]. rewrite Hz in Hzb; [done|]. lra. }
    assert (0 <= Qred (a / b))%Q as Hr.
    { rewrite Qred_correct. apply Qle_shift_div_l; [done|]. lra. }
    cbv [rsi_of_rs one hundred of_Z add fin].
    set (u := Qred (inject_Z 1 + Qred (a / b))).
    assert (1 <= u)%Q as Hu.
    { unfold u. rewrite Qred_correct. change (inject_Z 1) with 1%Q. lra. }
    assert (Qzero_b u = false) as Hzu.
    { destruct (Qzero_b u) eqn:Hzu; [|done]. apply Qzero_b_true in Hzu. lra. }
    cbv [div]. rewrite Hzu. cbv [sub fin]. eexists. split; [reflexivity|].
    rewrite !Qred_correct. change (inject_Z 100) with 100%Q.
    assert (0 <= 100 / u)%Q as Hlo by (apply Qle_shift_div_l; lra).
    assert (100 / u <= 100)%Q as Hhi by (apply Qle_shift_div_r; lra).
    lra.
Qed.

Lemma avg_gain_range (close : Series) i x :
  avg_gain close !! i = Some x → x = NaN ∨ nonneg x.
Proof.
  unfold avg_gain, rolling_mean. rewrite list_lookup_imap.
  destruct (_ !! i); [|done]. intros [= <-].
  apply rolling_mean_at_gain_like; [lia|apply gains_gain_like].
Qed.

Lemma avg_loss_range (close : Series) i x :
  avg_loss close !! i = Some x → x = NaN ∨ nonneg x.
Proof.
  unfold avg_loss, rolling_mean. rewrite list_lookup_imap.
  destruct (_ !! i); [|done]. intros [= <-].
  apply rolling_mean_at_gain_like; [lia|apply losses_gain_like].
Qed.

Lemma rsi14_range (close : Series) i x :
  rsi14 close !! i = Some x →
  x = NaN ∨ ∃ q, x = Fin q ∧ (0 <= q <= 100)%Q.
Proof.
  intros Hx.
  assert (i < length close)%nat as Hi.
  { rewrite <- rsi14_length. by eapply lookup_lt_Some. }
  destruct (lookup_lt_is_Some_2 (avg_gain close) i) as [g Hg];
    [by rewrite avg_gain_length|].
  destruct (lookup_lt_is_Some_2 (avg_loss close) i) as [l Hl];
    [by rewrite avg_loss_length|].
  rewrite (rsi14_lookup close i g l Hg Hl) in Hx. injection Hx as <-.
  apply rsi_of_rs_range; [by eapply avg_gain_range|by eapply avg_loss_range].
Qed.

End RsiRange.

(** X3. Whatever the close column holds, every cell of the RSI column is
    either without a value (NaN) or a number between 0 and 100. *)
Theorem rsi_between_0_and_100 (h : heap) (df : loc) (close : Series) :
  h df !! "Close" = Some close →
  ∃ h' rsi,
    calculate_technical_indicators df h = (Ok df, h') ∧
    h' df !! "RSI" = Some rsi ∧
    length rsi = length close ∧
    ∀ i x, rsi !! i = Some x →
           x = NaN ∨ ∃ q, x = Fin q ∧ (0 <= q <= 100)%Q.
Proof.
  intros Hc.
  destruct (calculate_technical_indicators_run h df close Hc) as (h' & Hrun & Hdf & _).
  exists h', (rsi14 close). split; [done|]. split.
  { rewrite Hdf. unfold with_indicators. by rewrite lookup_insert_eq. }
  split; [apply rsi14_length|]. intros i x. apply rsi14_range.
Qed.

Lemma rsi_between_0_and_100_witness :
  ∃ h' rsi,
    calculate_technical_indicators 0%nat (λ _, rising60) = (Ok 0%nat, h') ∧
    h' 0%nat !! "RSI" = Some rsi ∧
    length rsi = length ((λ n, of_Z (Z.of_nat n)) <$> seq 1 60) ∧
    ∀ i x, rsi !! i = Some x →
           x = NaN ∨ ∃ q, x = Fin q ∧ (0 <= q <= 100)%Q.
Proof.
  exact (rsi_between_0_and_100 (λ _, rising60) 0%nat
           ((λ n, of_Z (Z.of_nat n)) <$> seq 1 60) eq_refl).
Defined.

(* ================================================================== *)
(** * Further properties of the recommendation engine *)
(* ================================================================== *)

Section Evaluation.

Implicit Types (hist_data : DataFrame) (metrics info : dict).

(** The computed dictionary has no ["error"] entry and one of the three rows
    of the table. *)
Lemma calculate_analysis_computed hist_data metrics info a :
  calculate_analysis hist_data metrics info = Ok a →
  error a = None ∧
  (recommendation a, risk_level a) ∈
    [("Buy", "Medium"); ("Sell", "High"); ("Hold", "Low")].
Proof.
  unfold calculate_analysis. intros H.
  repeat match type of H with
  | (mbind _ ?r) = Ok _ => destruct r as [?|?] eqn:?; simpl in H; [|discriminate]
  end.
  match type of H with
  | context [decide_recommendation ?s] =>
      pose proof (decide_recommendation_cases s) as Hc;
      destruct (decide_recommendation s) as [rec risk]
  end.
  destruct (column hist_data "Close"); simpl in H; [|discriminate].
  injection H as <-. by split.
Qed.

(** The run of [calculate_analysis] on a frame whose latest cells are known. *)
Lemma calculate_analysis_eval hist_data metrics info
    (close prev ma20 ma50 rsi volume avg : num) :
  latest hist_data "Close" = Ok close →
  (column hist_data "Close" ≫= (λ s, iloc_neg s 2)) = Ok prev →
  latest hist_data "MA20" = Ok ma20 →
  latest hist_data "MA50" = Ok ma50 →
  latest hist_data "RSI" = Ok rsi →
  latest hist_data "Volume" = Ok volume →
  (column hist_data "Volume" ≫= (λ s, iloc_neg (rolling_mean 20 s) 1)) = Ok avg →
  ∃ a, calculate_analysis hist_data metrics info = Ok a ∧
       (recommendation a, risk_level a) =
         decide_recommendation {|
           price_above_ma50 := (close >? ma50)%num;
           price_above_ma20 := (close >? ma20)%num;
           rsi_oversold := (rsi <? c30)%num;
           rsi_overbought := (rsi >? c70)%num;
           volume_high := (volume >? avg * c1_2)%num |}.
Proof.
  unfold latest. intros Hc Hp H20 H50 Hr Hv Ha.
  unfold calculate_analysis.
  rewrite Hc, Hp, H20, H50, Hr, Hv, Ha. simpl.
  destruct (column hist_data "Close") as [cl|] eqn:Hcl; [|discriminate].
  simpl.
  match goal with
  | |- context [decide_recommendation ?s] => destruct (decide_recommendation s)
  end.
  eexists. split; reflexivity.
Qed.

Lemma iloc_neg_last (s : Series) x :
  s !! (length s - 1)%nat = Some x → iloc_neg s 1 = Ok x.
Proof.
  intros Hx. unfold iloc_neg.
  assert (length s - 1 < length s)%nat as Hlt by (by eapply lookup_lt_Some).
  destruct (Nat.ltb_spec (length s) 1); [lia|]. by rewrite Hx.
Qed.

Lemma iloc_neg_Ok (s : Series) k :
  (1 ≤ k ≤ length s)%nat → ∃ x, iloc_neg s k = Ok x.
Proof.
  intros Hk. unfold iloc_neg.
  destruct (Nat.ltb_spec (length s) k); [lia|].
  destruct (lookup_lt_is_Some_2 s (length s - k)) as [x ->]; [lia|]. by eexists.
Qed.

Lemma iloc_neg_inv (s : Series) k x :
  iloc_neg s k = Ok x → (k ≤ length s)%nat ∧ s !! (length s - k)%nat = Some x.
Proof.
  unfold iloc_neg. destruct (Nat.ltb_spec (length s) k); [done|].
  destruct (s !! _) eqn:E; [|done]. intros [= <-]. by split.
Qed.

End Evaluation.

(** X5. The fallback can be told from a computed recommendation.  In the
    dictionary that [get_stock_analysis] returns, the "error" entry is
    present exactly when the computation raised, and exactly when the verdict
    is Hold with risk Medium; a computed dictionary pairs Buy with Medium,
    Sell with High and Hold with Low. *)
Theorem fallback_is_recognisable (hist_data : DataFrame) (metrics info : dict) :
  (is_Some (error (get_stock_analysis hist_data metrics info))
     ↔ ∃ e, calculate_analysis hist_data metrics info = Raise e) ∧
  (is_Some (error (get_stock_analysis hist_data metrics info))
     ↔ (recommendation (get_stock_analysis hist_data metrics info),
        risk_level (get_stock_analysis hist_data metrics info)) = ("Hold", "Medium")) ∧
  (error (get_stock_analysis hist_data metrics info) = None →
     (recommendation (get_stock_analysis hist_data metrics info),
      risk_level (get_stock_analysis hist_data metrics info))
     ∈ [("Buy", "Medium"); ("Sell", "High"); ("Hold", "Low")]).
Proof.
  unfold get_stock_analysis.
  destruct (calculate_analysis hist_data metrics info) as [a|e] eqn:E.
  - destruct (calculate_analysis_computed _ _ _ _ E) as [Herr Hrow].
    rewrite Herr. split; [|split].
    + split; [by intros [? ?]|by intros [? ?]].
    + split; [by intros [? ?]|]. intros Heq. rewrite Heq in Hrow.
      apply list_elem_of_In in Hrow. simpl in Hrow.
      destruct Hrow as [?|[?|[?|[]]]]; discriminate.
    + done.
  - simpl. split; [|split].
    + split; [by eexists|by eexists].
    + split; [done|by eexists].
    + discriminate.
Qed.

Section Pipeline.

Implicit Types (h : heap) (df : loc) (close volume : Series) (metrics info : dict).

Lemma latest_of_column (frame : DataFrame) col (s : Series) x :
  frame !! col = Some s → s !! (length s - 1)%nat = Some x →
  latest frame col = Ok x.
Proof.
  intros Hcol Hx. unfold latest. rewrite (column_present _ _ _ Hcol), bind_Ok.
  by apply iloc_neg_last.
Qed.

Lemma gt_NaN_r (x : num) : (x >? NaN)%num = false.
Proof. reflexivity. Qed.

Lemma mul_NaN_l (x : num) : (NaN * x)%num = NaN.
Proof. reflexivity. Qed.

(** The frame left by the indicator engine, read as [calculate_analysis]
    reads it: the latest cells of the six columns. *)
Lemma analysis_after_indicators (frame : DataFrame) close volume metrics info :
  frame !! "Close" = Some close → frame !! "Volume" = Some volume →
  (2 ≤ length close)%nat → (1 ≤ length volume)%nat →
  ∃ a c rsi v,
    calculate_analysis (with_indicators close frame) metrics info = Ok a ∧
    close !! (length close - 1)%nat = Some c ∧
    rsi14 close !! (length close - 1)%nat = Some rsi ∧
    volume !! (length volume - 1)%nat = Some v ∧
    (recommendation a, risk_level a) =
      decide_recommendation {|
        price_above_ma50 := (c >? rolling_mean_at 50 close (length close - 1))%num;
        price_above_ma20 := (c >? rolling_mean_at 20 close (length close - 1))%num;
        rsi_oversold := (rsi <? c30)%num;
        rsi_overbought := (rsi >? c70)%num;
        volume_high :=
          (v >? rolling_mean_at 20 volume (length volume - 1) * c1_2)%num |}.
Proof.
  intros Hc Hv Hn Hm.
  destruct (lookup_lt_is_Some_2 close (length close - 1)) as [c Hcl]; [lia|].
  destruct (lookup_lt_is_Some_2 (rsi14 close) (length close - 1)) as [rsi Hrsi];
    [rewrite rsi14_length; lia|].
  destruct (lookup_lt_is_Some_2 volume (length volume - 1)) as [v Hvl]; [lia|].
  destruct (iloc_neg_Ok close 2) as [prev Hprev]; [lia|].
  assert (with_indicators close frame !! "Close" = Some close) as Hc'.
  { by rewrite with_indicators_close. }
  assert (with_indicators close frame !! "Volume" = Some volume) as Hv'.
  { unfold with_indicators. by rewrite !lookup_insert_ne. }
  assert (with_indicators close frame !! "MA20" = Some (rolling_mean 20 close)) as H20.
  { unfold with_indicators. rewrite !lookup_insert_ne by done. apply lookup_insert_eq. }
  assert (with_indicators close frame !! "MA50" = Some (rolling_mean 50 close)) as H50.
  { unfold with_indicators. rewrite !lookup_insert_ne by done. apply lookup_insert_eq. }
  assert (with_indicators close frame !! "RSI" = Some (rsi14 close)) as Hr.
  { unfold with_indicators. apply lookup_insert_eq. }
  destruct (calculate_analysis_eval (with_indicators close frame) metrics info
              c prev (rolling_mean_at 20 close (length close - 1))
              (rolling_mean_at 50 close (length close - 1)) rsi v
              (rolling_mean_at 20 volume (length volume - 1))) as (a & Ha & Hrow).
  - by apply (latest_of_column _ _ close).
  - by rewrite (column_present _ _ _ Hc'), bind_Ok.
  - apply (latest_of_column _ _ _ _ H20).
    rewrite rolling_mean_length. apply rolling_mean_lookup. lia.
  - apply (latest_of_column _ _ _ _ H50).
    rewrite rolling_mean_length. apply rolling_mean_lookup. lia.
  - apply (latest_of_column _ _ _ _ Hr). by rewrite rsi14_length.
  - by apply (latest_of_column _ _ volume).
  - rewrite (column_present _ _ _ Hv'), bind_Ok. apply iloc_neg_last.
    rewrite rolling_mean_length. apply rolling_mean_lookup. lia.
  - exists a, c, rsi, v. done.
Qed.

End Pipeline.

(** X6. The page computes the indicators and then the analysis on the
    same frame.  On a frame with a close and a volume column of equal length,
    the analysis is the fallback exactly when the frame has fewer than two
    rows; from two rows on, a recommendation is always computed. *)
Theorem analysis_after_indicators_falls_back_iff_short
    (h : heap) (df : loc) (close volume : Series) (metrics info : dict) :
  h df !! "Close" = Some close →
  h df !! "Volume" = Some volume →
  length volume = length close →
  ∃ h',
    calculate_technical_indicators df h = (Ok df, h') ∧
    (is_Some (error (get_stock_analysis (h' df) metrics info))
       ↔ (length close < 2)%nat).
Proof.
  intros Hc Hv Hlen.
  destruct (calculate_technical_indicators_run h df close Hc) as (h' & Hrun & Hdf & _).
  exists h'. split; [done|]. rewrite Hdf.
  destruct (decide (length close < 2)%nat) as [Hshort|Hlong].
  - split; [done|]. intros _.
    destruct (calculate_analysis_short_series (with_indicators close (h df))
                metrics info close) as [e He]; [by rewrite with_indicators_close|done|].
    unfold get_stock_analysis. rewrite He. by eexists.
  - destruct (analysis_after_indicators (h df) close volume metrics info)
      as (a & _ & _ & _ & Ha & _); [done|done|lia|lia|].
    unfold get_stock_analysis. rewrite Ha.
    destruct (calculate_analysis_computed _ _ _ _ Ha) as [-> _].
    split; [by intros [? ?]|lia].
Qed.

Lemma analysis_after_indicators_falls_back_iff_short_witness :
  ∃ h',
    calculate_technical_indicators 0%nat (λ _, one_row) = (Ok 0%nat, h') ∧
    (is_Some (error (get_stock_analysis (h' 0%nat) ∅ ∅))
       ↔ (length [of_Z 7] < 2)%nat).
Proof.
  exact (analysis_after_indicators_falls_back_iff_short (λ _, one_row) 0%nat
           [of_Z 7] [of_Z 1000] ∅ ∅ eq_refl eq_refl eq_refl).
Defined.

(** X7. A short history decides the recommendation.  With 2 to 19 rows
    both moving averages and the average volume have no value at the latest
    row, and the recommendation is always Sell with risk High.  With fewer
    than 50 rows the 50-day average has no value, so Buy is only reached
    through the oversold rule: the latest RSI is below 30. *)
Theorem short_history_recommendation
    (h : heap) (df : loc) (close volume : Series) (metrics info : dict) :
  h df !! "Close" = Some close →
  h df !! "Volume" = Some volume →
  length volume = length close →
  (2 ≤ length close)%nat →
  ∃ h' a,
    calculate_technical_indicators df h = (Ok df, h') ∧
    get_stock_analysis (h' df) metrics info = a ∧
    error a = None ∧
    ((length close < 20)%nat →
       recommendation a = "Sell" ∧ risk_level a = "High") ∧
    ((length close < 50)%nat → recommendation a = "Buy" →
       ∃ rsi, latest (h' df) "RSI" = Ok rsi ∧ (rsi <? c30)%num = true).
Proof.
  intros Hc Hv Hlen Hn.
  destruct (calculate_technical_indicators_run h df close Hc) as (h' & Hrun & Hdf & _).
  destruct (analysis_after_indicators (h df) close volume metrics info)
    as (a & c & rsi & v & Ha & Hcl & Hrsi & Hvl & Hrow); [done|done|lia|lia|].
  exists h', a. split; [done|]. rewrite Hdf.
  split; [unfold get_stock_analysis; by rewrite Ha|].
  split; [by destruct (calculate_analysis_computed _ _ _ _ Ha)|].
  split.
  - intros Hshort. revert Hrow. unfold rolling_mean_at.
    rewrite Hlen.
    destruct (Nat.ltb_spec (S (length close - 1)) 20) as [_|]; [|lia].
    destruct (Nat.ltb_spec (S (length close - 1)) 50) as [_|]; [|lia].
    rewrite mul_NaN_l, !gt_NaN_r. unfold decide_recommendation. simpl.
    rewrite andb_false_r, orb_true_r. simpl. by intros [= -> ->].
  - intros Hshort Hbuy. exists rsi. split.
    + apply (latest_of_column _ _ (rsi14 close)).
      * unfold with_indicators. apply lookup_insert_eq.
      * by rewrite rsi14_length.
    + revert Hrow. unfold rolling_mean_at at 1.
      destruct (Nat.ltb_spec (S (length close - 1)) 50) as [_|]; [|lia].
      rewrite gt_NaN_r. unfold decide_recommendation. simpl.
      destruct (rsi <? c30)%num; [done|]. simpl.
      rewrite Hbuy.
      destruct (_ || _); intros [= ?]; discriminate.
Qed.

Lemma short_history_recommendation_witness :
  ∃ h' a,
    calculate_technical_indicators 0%nat (λ _, rising_frame) = (Ok 0%nat, h') ∧
    get_stock_analysis (h' 0%nat) ∅ ∅ = a ∧
    error a = None ∧
    ((length [of_Z 10; of_Z 12] < 20)%nat →
       recommendation a = "Sell" ∧ risk_level a = "High") ∧
    ((length [of_Z 10; of_Z 12] < 50)%nat → recommendation a = "Buy" →
       ∃ rsi, latest (h' 0%nat) "RSI" = Ok rsi ∧ (rsi <? c30)%num = true).
Proof.
  exact (short_history_recommendation (λ _, rising_frame) 0%nat
           [of_Z 10; of_Z 12] [of_Z 1000; of_Z 1100] ∅ ∅
           eq_refl eq_refl eq_refl (le_n 2)).
Defined.

Section BasicAnalysis.

Implicit Types (hist_data : DataFrame) (metrics info : dict).

(** What a successful run of [calculate_analysis] has read. *)
Lemma calculate_analysis_inv hist_data metrics info a :
  calculate_analysis hist_data metrics info = Ok a →
  ∃ close ma20 ma50 rsi volume avg,
    latest hist_data "Close" = Ok close ∧
    latest hist_data "MA20" = Ok ma20 ∧
    latest hist_data "MA50" = Ok ma50 ∧
    latest hist_data "RSI" = Ok rsi ∧
    latest hist_data "Volume" = Ok volume ∧
    (recommendation a, risk_level a) =
      decide_recommendation {|
        price_above_ma50 := (close >? ma50)%num;
        price_above_ma20 := (close >? ma20)%num;
        rsi_oversold := (rsi <? c30)%num;
        rsi_overbought := (rsi >? c70)%num;
        volume_high := (volume >? avg * c1_2)%num |}.
Proof.
  unfold calculate_analysis, latest. intros H.
  destruct (column hist_data "Close" ≫= (λ s, iloc_neg s 1)) as [close|] eqn:Hc;
    [|discriminate].
  rewrite bind_Ok in H.
  destruct (column hist_data "Close" ≫= (λ s, iloc_neg s 2)) as [prev|] eqn:Hp;
    [|discriminate].
  rewrite bind_Ok in H.
  destruct (column hist_data "MA20" ≫= (λ s, iloc_neg s 1)) as [ma20|] eqn:H20;
    [|discriminate].
  rewrite bind_Ok in H.
  destruct (column hist_data "MA50" ≫= (λ s, iloc_neg s 1)) as [ma50|] eqn:H50;
    [|discriminate].
  rewrite bind_Ok in H.
  destruct (column hist_data "RSI" ≫= (λ s, iloc_neg s 1)) as [rsi|] eqn:Hr;
    [|discriminate].
  rewrite bind_Ok in H.
  destruct (column hist_data "Volume" ≫= (λ s, iloc_neg s 1)) as [volume|] eqn:Hv;
    [|discriminate].
  rewrite bind_Ok in H.
  destruct (column hist_data "Volume" ≫= (λ s, iloc_neg (rolling_mean 20 s) 1))
    as [avg|] eqn:Ha; [|discriminate].
  rewrite bind_Ok in H. cbv beta in H.
  exists close, ma20, ma50, rsi, volume, avg.
  repeat (split; [reflexivity|]).
  match type of H with
  | context [decide_recommendation ?s] => destruct (decide_recommendation s)
  end.
  destruct (column hist_data "Close"); [|discriminate].
  rewrite bind_Ok in H. by injection H as <-.
Qed.

(** What a successful run of [calculate_basic_analysis] has read. *)
Lemma calculate_basic_analysis_inv hist_data metrics b :
  calculate_basic_analysis hist_data metrics = Ok b →
  ∃ close ma50 rsi,
    latest hist_data "Close" = Ok close ∧
    latest hist_data "MA50" = Ok ma50 ∧
    latest hist_data "RSI" = Ok rsi ∧
    risk_level b = "Medium" ∧
    recommendation b =
      if (rsi <? c30)%num && (close >? ma50)%num then "Buy"
      else if (rsi >? c70)%num && negb (close >? ma50)%num then "Sell"
      else "Hold".
Proof.
  unfold calculate_basic_analysis, latest. intros H.
  destruct (column hist_data "Close" ≫= (λ s, iloc_neg s 1)) as [close|] eqn:Hc;
    [|discriminate].
  rewrite bind_Ok in H.
  destruct (column hist_data "MA50" ≫= (λ s, iloc_neg s 1)) as [ma50|] eqn:H50;
    [|discriminate].
  rewrite bind_Ok in H.
  destruct (column hist_data "RSI" ≫= (λ s, iloc_neg s 1)) as [rsi|] eqn:Hr;
    [|discriminate].
  rewrite bind_Ok in H. cbv beta in H. injection H as <-.
  exists close, ma50, rsi. repeat (split; [reflexivity|]). simpl.
  by destruct (close >? ma50)%num.
Qed.

Lemma latest_inv (frame : DataFrame) col x :
  latest frame col = Ok x →
  ∃ s, frame !! col = Some s ∧ s ≠ [] ∧ s !! (length s - 1)%nat = Some x.
Proof.
  unfold latest, column. destruct (frame !! col) as [s|]; [|done].
  rewrite bind_Ok. intros H. apply iloc_neg_inv in H as [Hlen Hx].
  exists s. split; [done|]. split; [|done]. by intros ->.
Qed.

Lemma latest_Ok (frame : DataFrame) col (s : Series) :
  frame !! col = Some s → s ≠ [] → ∃ x, latest frame col = Ok x.
Proof.
  intros Hcol Hs. unfold latest. rewrite (column_present _ _ _ Hcol), bind_Ok.
  apply iloc_neg_Ok. destruct s; [done|]. simpl. lia.
Qed.

End BasicAnalysis.

(** X8. The basic analysis never contradicts the full one.  On a frame
    where both are computed, the basic risk is Medium; when the basic
    recommendation is Sell the full one is Sell as well, and when the basic
    recommendation is Buy the full one is Buy or Hold, never Sell. *)
Theorem basic_analysis_agrees_with_full
    (hist_data : DataFrame) (metrics info : dict) (b a : Analysis) :
  calculate_basic_analysis hist_data metrics = Ok b →
  calculate_analysis hist_data metrics info = Ok a →
  risk_level b = "Medium" ∧
  (recommendation b = "Sell" →
     recommendation a = "Sell" ∧ risk_level a = "High") ∧
  (recommendation b = "Buy" →
     recommendation a = "Buy" ∨ recommendation a = "Hold").
Proof.
  intros Hb Ha.
  destruct (calculate_basic_analysis_inv _ _ _ Hb)
    as (close & ma50 & rsi & Hc & H50 & Hr & Hrisk & Hrec).
  destruct (calculate_analysis_inv _ _ _ _ Ha)
    as (close' & ma20 & ma50' & rsi' & volume & avg & Hc' & _ & H50' & Hr' & _ & Hrow).
  rewrite Hc in Hc'. rewrite H50 in H50'. rewrite Hr in Hr'.
  injection Hc' as <-. injection H50' as <-. injection Hr' as <-.
  split; [done|]. rewrite Hrec. clear Hrec.
  unfold decide_recommendation in Hrow. simpl in Hrow.
  assert ((rsi <? c30)%num = true → (rsi >? c70)%num = false) as Hexcl.
  { destruct rsi as [q| | |]; unfold lt, gt, lt, c30, c70, of_Z; try done.
    rewrite !Qlt_b_true. intros Hlt.
    destruct (Qlt_b (inject_Z 70) q) eqn:E; [|done].
    apply Qlt_b_true in E. change (inject_Z 30) with 30%Q in Hlt.
    change (inject_Z 70) with 70%Q in E. lra. }
  destruct (rsi <? c30)%num eqn:Hlow, (rsi >? c70)%num eqn:Hhigh,
           (close >? ma50)%num eqn:H1, (close >? ma20)%num eqn:H2,
           (volume >? avg * c1_2)%num eqn:H3;
    simpl in *; (try (specialize (Hexcl eq_refl); discriminate));
    injection Hrow as -> ->; split; intros; (done || auto).
Qed.

Lemma basic_analysis_agrees_with_full_witness :
  "Medium" = "Medium" ∧
  ("Hold" = "Sell" → "Buy" = "Sell" ∧ "Medium" = "High") ∧
  ("Hold" = "Buy" → "Buy" = "Buy" ∨ "Buy" = "Hold").
Proof.
  exact (basic_analysis_agrees_with_full rising_frame ∅ ∅
           (match calculate_basic_analysis rising_frame ∅ with
            | Ok b => b | Raise _ => fallback_analysis out_of_bounds end)
           (get_stock_analysis rising_frame ∅ ∅) eq_refl eq_refl).
Defined.

(** X9. The basic analysis has no fallback.  It returns a dictionary
    exactly when the Close, MA50 and RSI columns are present and not empty
    (one row is enough, and neither MA20 nor Volume is needed); a missing
    Close column raises the KeyError of that column. *)
Theorem basic_analysis_succeeds_iff (hist_data : DataFrame) (metrics : dict) :
  ((∃ b, calculate_basic_analysis hist_data metrics = Ok b)
     ↔ ∃ close ma50 rsi : Series,
         hist_data !! "Close" = Some close ∧ close ≠ [] ∧
         hist_data !! "MA50" = Some ma50 ∧ ma50 ≠ [] ∧
         hist_data !! "RSI" = Some rsi ∧ rsi ≠ []) ∧
  (hist_data !! "Close" = None →
     calculate_basic_analysis hist_data metrics = Raise (KeyError "Close")) ∧
  (hist_data !! "Close" = Some [] →
     calculate_basic_analysis hist_data metrics = Raise out_of_bounds).
Proof.
  split; [split|split].
  - intros [b Hb].
    destruct (calculate_basic_analysis_inv _ _ _ Hb)
      as (c & m & r & Hc & Hm & Hr & _).
    destruct (latest_inv _ _ _ Hc) as (close & ? & ? & _).
    destruct (latest_inv _ _ _ Hm) as (ma50 & ? & ? & _).
    destruct (latest_inv _ _ _ Hr) as (rsi & ? & ? & _).
    by exists close, ma50, rsi.
  - intros (close & ma50 & rsi & Hc & Hcn & Hm & Hmn & Hr & Hrn).
    destruct (latest_Ok _ _ _ Hc Hcn) as [c Hlc].
    destruct (latest_Ok _ _ _ Hm Hmn) as [m Hlm].
    destruct (latest_Ok _ _ _ Hr Hrn) as [r Hlr].
    unfold latest in *. unfold calculate_basic_analysis.
    rewrite Hlc, Hlm, Hlr, !bind_Ok. by eexists.
  - intros Hc. unfold calculate_basic_analysis.
    by rewrite (column_missing _ _ Hc).
  - intros Hc. unfold calculate_basic_analysis.
    by rewrite (column_present _ _ _ Hc).
Qed.

(** X10. The prompt on the frame left by the indicator engine.  From two
    rows on the prompt is always built; the price change it quotes is the
    relative difference of the last two closes in percent, and the 50-day
    average and the RSI it quotes are the latest cells of the MA50 and RSI
    columns.  With fewer than two rows it raises the index error. *)
Theorem prompt_after_indicators
    (h : heap) (df : loc) (close : Series) (metrics info : dict) :
  h df !! "Close" = Some close →
  ∃ h',
    calculate_technical_indicators df h = (Ok df, h') ∧
    ((length close < 2)%nat →
       prepare_analysis_prompt (h' df) metrics info = Raise out_of_bounds) ∧
    ((2 ≤ length close)%nat →
       ∃ p last prev ma50 rsi,
         prepare_analysis_prompt (h' df) metrics info = Ok p ∧
         close !! (length close - 1)%nat = Some last ∧
         close !! (length close - 2)%nat = Some prev ∧
         latest (h' df) "MA50" = Ok ma50 ∧
         latest (h' df) "RSI" = Ok rsi ∧
         p !! 1%nat = Some (Fmt2f last) ∧
         p !! 3%nat = Some (Fmt2f (((last - prev) / prev) * hundred)%num) ∧
         p !! 5%nat = Some (Fmt2f ma50) ∧
         p !! 7%nat = Some (Fmt2f rsi)).
Proof.
  intros Hc.
  destruct (calculate_technical_indicators_run h df close Hc) as (h' & Hrun & Hdf & _).
  exists h'. split; [done|]. rewrite Hdf.
  assert (with_indicators close (h df) !! "Close" = Some close) as Hc'.
  { by rewrite with_indicators_close. }
  split.
  - intros Hshort. unfold prepare_analysis_prompt.
    rewrite !(column_present _ _ _ Hc'), !bind_Ok. cbv beta.
    destruct close as [|x [|y l]]; [reflexivity|reflexivity|simpl in Hshort; lia].
  - intros Hn.
    destruct (lookup_lt_is_Some_2 close (length close - 1)) as [last Hlast]; [lia|].
    destruct (lookup_lt_is_Some_2 close (length close - 2)) as [prev Hprev]; [lia|].
    destruct (lookup_lt_is_Some_2 (rsi14 close) (length close - 1)) as [rsi Hrsi];
      [rewrite rsi14_length; lia|].
    assert (iloc_neg close 2 = Ok prev) as Hi2.
    { unfold iloc_neg. destruct (Nat.ltb_spec (length close) 2); [lia|].
      by rewrite Hprev. }
    assert (with_indicators close (h df) !! "MA50" = Some (rolling_mean 50 close)) as H50.
    { unfold with_indicators. rewrite !lookup_insert_ne by done. apply lookup_insert_eq. }
    assert (with_indicators close (h df) !! "RSI" = Some (rsi14 close)) as Hr.
    { unfold with_indicators. apply lookup_insert_eq. }
    assert (rolling_mean 50 close !! (length (rolling_mean 50 close) - 1)%nat
            = Some (rolling_mean_at 50 close (length close - 1))) as Hm.
    { rewrite rolling_mean_length. apply rolling_mean_lookup. lia. }
    eexists _, last, prev, (rolling_mean_at 50 close (length close - 1)), rsi.
    split.
    { unfold prepare_analysis_prompt.
      rewrite !(column_present _ _ _ Hc'), !(column_present _ _ _ Hr), !bind_Ok.
      cbv beta.
      rewrite (iloc_neg_last close last Hlast), bind_Ok, Hi2, bind_Ok.
      rewrite (iloc_neg_last _ _ Hm), bind_Ok.
      rewrite (iloc_neg_last (rsi14 close) rsi), bind_Ok;
        [reflexivity|by rewrite rsi14_length]. }
    split; [done|]. split; [done|].
    split; [by apply (latest_of_column _ _ _ _ H50)|].
    split; [apply (latest_of_column _ _ _ _ Hr); by rewrite rsi14_length|].
    repeat split; reflexivity.
Qed.

Lemma prompt_after_indicators_witness :
  ∃ h',
    calculate_technical_indicators 0%nat (λ _, rising_frame) = (Ok 0%nat, h') ∧
    ((length [of_Z 10; of_Z 12] < 2)%nat →
       prepare_analysis_prompt (h' 0%nat) ∅ ∅ = Raise out_of_bounds) ∧
    ((2 ≤ length [of_Z 10; of_Z 12])%nat →
       ∃ p last prev ma50 rsi,
         prepare_analysis_prompt (h' 0%nat) ∅ ∅ = Ok p ∧
         [of_Z 10; of_Z 12] !! (length [of_Z 10; of_Z 12] - 1)%nat = Some last ∧
         [of_Z 10; of_Z 12] !! (length [of_Z 10; of_Z 12] - 2)%nat = Some prev ∧
         latest (h' 0%nat) "MA50" = Ok ma50 ∧
         latest (h' 0%nat) "RSI" = Ok rsi ∧
         p !! 1%nat = Some (Fmt2f last) ∧
         p !! 3%nat = Some (Fmt2f (((last - prev) / prev) * hundred)%num) ∧
         p !! 5%nat = Some (Fmt2f ma50) ∧
         p !! 7%nat = Some (Fmt2f rsi)).
Proof.
  exact (prompt_after_indicators (λ _, rising_frame) 0%nat [of_Z 10; of_Z 12] ∅ ∅ eq_refl).
Defined.

(* ================================================================== *)
(** * Further properties of the portfolio aggregator *)
(* ================================================================== *)

Module PortfolioMore.

Import Portfolio PortfolioFacts.

Section Enrichment.

Variable Ticker : string → yf.ticker.

Implicit Types (rows : list Row) (hs : list Stock.t).

Lemma holdings_Ok_iff rows :
  (∃ hs, holdings Ticker rows = Ok hs)
  ↔ Forall (λ r, ∃ q, lookup Ticker (Symbol r) = Ok q) rows.
Proof.
  induction rows as [|r rest IH]; simpl.
  - split; [constructor|by eexists].
  - destruct (lookup Ticker (Symbol r)) as [q|e] eqn:Hr.
    + rewrite bind_Ok. split.
      * intros [hs Hhs]. constructor; [by eexists|]. apply IH.
        destruct (holdings Ticker rest); [by eexists|done].
      * intros H. inversion H as [|? ? _ Hrest]; subst.
        apply IH in Hrest as [hs' ->]. by eexists.
    + split; [by intros [? ?]|].
      intros H. inversion H as [|? ? [q Hq] _]; subst. congruence.
Qed.

Lemma holdings_shares rows hs :
  holdings Ticker rows = Ok hs → Stock.shares <$> hs = Shares <$> rows.
Proof.
  revert hs. induction rows as [|r rest IH]; intros hs Hhs; simpl in Hhs.
  - by injection Hhs as <-.
  - destruct (lookup Ticker (Symbol r)) as [[[cur prev] sec]|e]; [|done].
    rewrite bind_Ok in Hhs.
    destruct (holdings Ticker rest) as [hs'|e]; [|done].
    injection Hhs as <-. simpl. f_equal. by apply IH.
Qed.

Lemma holdings_values rows hs :
  holdings Ticker rows = Ok hs →
  Forall (λ s, Stock.total_value s = (Stock.current_price s * Stock.shares s)%num) hs.
Proof.
  revert hs. induction rows as [|r rest IH]; intros hs Hhs; simpl in Hhs.
  - injection Hhs as <-. constructor.
  - destruct (lookup Ticker (Symbol r)) as [[[cur prev] sec]|e]; [|done].
    rewrite bind_Ok in Hhs.
    destruct (holdings Ticker rest) as [hs'|e]; [|done].
    injection Hhs as <-. constructor; [done|]. by apply IH.
Qed.

Lemma holdings_length rows hs :
  holdings Ticker rows = Ok hs → length hs = length rows.
Proof.
  intros H. apply holdings_symbols in H.
  apply (f_equal length) in H. by rewrite !length_fmap in H.
Qed.

End Enrichment.

(** X11. The aggregation returns a summary exactly when the lookup of
    every row succeeds.  The summary then lists one holding per row, in input
    order, with the symbol and the share count of its row; the value of a
    holding is its price times its shares, and the total value is the sum of
    the values. *)
Theorem aggregation_succeeds_iff (Ticker : string → yf.ticker) (rows : list Row) :
  ((∃ a, analyze_portfolio Ticker rows = Ok a)
     ↔ Forall (λ r, ∃ q, lookup Ticker (Symbol r) = Ok q) rows) ∧
  (∀ a, analyze_portfolio Ticker rows = Ok a →
     Stock.symbol <$> stocks a = Symbol <$> rows ∧
     Stock.shares <$> stocks a = Shares <$> rows ∧
     Forall (λ s, Stock.total_value s
                  = (Stock.current_price s * Stock.shares s)%num) (stocks a) ∧
     total_value a = Series.sum (Stock.total_value <$> stocks a)).
Proof.
  split.
  - rewrite <- holdings_Ok_iff. split.
    + intros [a Ha]. destruct (analyze_portfolio_ok _ _ _ Ha) as (hs & Hhs & _).
      by exists hs.
    + intros [hs Hhs]. eexists. by apply analyze_portfolio_holdings.
  - intros a Ha. destruct (analyze_portfolio_ok _ _ _ Ha) as (hs & Hhs & ->).
    destruct (result_fields hs) as (Hst & Htot & _).
    rewrite Hst. split; [by eapply holdings_symbols|].
    split; [by eapply holdings_shares|].
    split; [by eapply holdings_values|done].
Qed.

Section Sectors.

Lemma size_list_to_set_le (l : list string) :
  (size (list_to_set l : gset string) ≤ length l)%nat.
Proof.
  induction l as [|x l IH].
  - vm_compute. lia.
  - rewrite list_to_set_cons, size_union_alt, size_singleton. simpl length.
    assert (size (list_to_set l ∖ {[x]} : gset string)
            ≤ size (list_to_set l : gset string))%nat.
    { apply subseteq_size. set_solver. }
    lia.
Qed.

End Sectors.

(** X15. The risk level is bounded by the size of the portfolio.  A
    portfolio of fewer than three rows (the empty one included) is always
    rated High; Medium needs at least three rows and Low at least six. *)
Theorem risk_level_needs_rows
    (Ticker : string → yf.ticker) (rows : list Row) (a : Analysis) :
  analyze_portfolio Ticker rows = Ok a →
  risk_level a ∈ ["High"; "Medium"; "Low"] ∧
  ((length rows < 3)%nat → risk_level a = "High") ∧
  (risk_level a = "Medium" → (3 ≤ length rows)%nat) ∧
  (risk_level a = "Low" → (6 ≤ length rows)%nat).
Proof.
  intros Ha. destruct (analyze_portfolio_ok _ _ _ Ha) as (hs & Hhs & ->).
  destruct (result_fields hs) as (_ & _ & _ & _ & ->).
  pose proof (holdings_length _ _ _ Hhs) as Hlen.
  pose proof (size_list_to_set_le (Stock.sector <$> hs)) as Hle.
  rewrite length_fmap, Hlen in Hle.
  fold (distinct_sectors hs) in Hle.
  unfold risk_of_sector_count.
  destruct (Nat.ltb_spec (size (distinct_sectors hs)) 3);
    [|destruct (Nat.ltb_spec 5 (size (distinct_sectors hs)))];
    (split; [set_solver|]); repeat split; intros; (done || lia).
Qed.

Lemma risk_level_needs_rows_witness :
  "High" ∈ ["High"; "Medium"; "Low"] ∧
  ((length example_portfolio < 3)%nat → "High" = "High") ∧
  ("High" = "Medium" → (3 ≤ length example_portfolio)%nat) ∧
  ("High" = "Low" → (6 ≤ length example_portfolio)%nat).
Proof.
  exact (risk_level_needs_rows example_market example_portfolio example_summary eq_refl).
Defined.

Section DailyChange.

Implicit Types (hs : list Stock.t) (s : Stock.t) (t v p n : Q).

Lemma mul_NaN_r (x : num) : (x * NaN)%num = NaN.
Proof. by destruct x. Qed.

Lemma zero_over_nonzero p : ¬ (p == 0)%Q → (zero / Fin p)%num = zero.
Proof.
  intros Hp. unfold div, zero. rewrite (Qzero_b_false p Hp).
  change (Fin 0) with (fin 0). apply fin_ext. unfold Qdiv. ring.
Qed.

Lemma zero_times_finite v : (zero * Fin v)%num = zero.
Proof.
  unfold mul, zero. change (Fin 0) with (fin 0). apply fin_ext. ring.
Qed.

(** With equal latest closes in both histories the daily change of the
    holding is zero; with a positive price and share count its value is
    positive. *)
Lemma holding_steady (row : Row) p n sec :
  (0 < p)%Q → Shares row = Fin n → (0 < n)%Q →
  steady (holding row (Fin p, Fin p, sec)).
Proof.
  intros Hp Hn Hn0. unfold steady, holding. simpl. split.
  - rewrite sub_self, zero_over_nonzero by lra. reflexivity.
  - rewrite Hn. exists (Qred (p * n)). split; [reflexivity|].
    rewrite Qred_correct. nra.
Qed.

Lemma weighted_step_steady s t :
  (0 <= t)%Q → steady s →
  ∃ t', weighted_step (Fin t, zero) s = (Fin t', zero) ∧ (t <= t')%Q.
Proof.
  intros Ht [Hdc (v & Hv & Hv0)].
  unfold weighted_step. cbn [fst snd]. rewrite Hdc, Hv.
  assert (0 < Qred (t + v))%Q as Hr by (rewrite Qred_correct; lra).
  assert ((Fin t + Fin v)%num = Fin (Qred (t + v))) as -> by reflexivity.
  assert ((Fin v / Fin (Qred (t + v)))%num = Fin (Qred (v / Qred (t + v)))) as ->.
  { unfold div. rewrite Qzero_b_false; [done|lra]. }
  rewrite zero_times_finite. change (zero + zero)%num with zero.
  exists (Qred (t + v)). split; [done|]. rewrite Qred_correct. lra.
Qed.

Lemma steady_fold hs t :
  (0 <= t)%Q → Forall steady hs →
  ∃ t', foldl weighted_step (Fin t, zero) hs = (Fin t', zero) ∧ (t <= t')%Q.
Proof.
  intros Ht Hs. revert t Ht.
  induction Hs as [|s hs Hs _ IH]; intros t Ht.
  - exists t. split; [done|lra].
  - simpl. destruct (weighted_step_steady s t Ht Hs) as (t1 & -> & Hle1).
    destruct (IH t1) as (t' & -> & Hle); [lra|].
    exists t'. split; [done|lra].
Qed.

(** Once the accumulated change is NaN it stays NaN. *)
Lemma poisoned_fold hs (x : num) :
  (foldl weighted_step (x, NaN) hs).2 = NaN.
Proof.
  revert x. induction hs as [|s hs IH]; intros x; [done|].
  simpl. unfold weighted_step at 2. simpl.
  change (NaN + _)%num with NaN. apply IH.
Qed.

End DailyChange.

Section Consistent.

Variable Ticker : string → yf.ticker.

Lemma lookup_of_closes symbol cur prev q :
  last_close (Ticker symbol) "1d" = Ok cur →
  last_close (Ticker symbol) "2d" = Ok prev →
  lookup Ticker symbol = Ok q → ∃ sec, q = (cur, prev, sec).
Proof.
  intros H1 H2. unfold lookup. rewrite H1, H2, !bind_Ok.
  destruct (yf.info (Ticker symbol)); [|done]. rewrite bind_Ok.
  intros [= <-]. by eexists.
Qed.

Lemma holdings_steady (rows : list Row) (hs : list Stock.t) :
  Forall (λ r, ∃ p n,
            last_close (Ticker (Symbol r)) "1d" = Ok (Fin p) ∧
            last_close (Ticker (Symbol r)) "2d" = Ok (Fin p) ∧
            (0 < p)%Q ∧ Shares r = Fin n ∧ (0 < n)%Q) rows →
  holdings Ticker rows = Ok hs → Forall steady hs.
Proof.
  intros Hrows. revert hs.
  induction Hrows as [|r rest (p & n & H1 & H2 & Hp & Hn & Hn0) _ IH];
    intros hs Hhs; simpl in Hhs.
  - injection Hhs as <-. constructor.
  - destruct (lookup Ticker (Symbol r)) as [q|e] eqn:Hq; [|done].
    rewrite bind_Ok in Hhs.
    destruct (holdings Ticker rest) as [hs'|e]; [|done].
    injection Hhs as <-.
    destruct (lookup_of_closes _ _ _ _ H1 H2 Hq) as [sec ->].
    constructor; [by eapply holding_steady|by apply IH].
Qed.

End Consistent.

(** X12. The previous close is read from the last row of the two-day
    history.  When, for every row, the one-day and the two-day history end on
    the same positive close and the share count is positive, the daily change
    of every holding is zero and so is the daily change of the portfolio. *)
Theorem daily_change_zero_when_histories_agree
    (Ticker : string → yf.ticker) (rows : list Row) (a : Analysis) :
  Forall (λ r, ∃ p n,
            last_close (Ticker (Symbol r)) "1d" = Ok (Fin p) ∧
            last_close (Ticker (Symbol r)) "2d" = Ok (Fin p) ∧
            (0 < p)%Q ∧ Shares r = Fin n ∧ (0 < n)%Q) rows →
  analyze_portfolio Ticker rows = Ok a →
  daily_change a = zero ∧
  Forall (λ s, Stock.daily_change s = zero) (stocks a).
Proof.
  intros Hrows Ha.
  destruct (analyze_portfolio_ok _ _ _ Ha) as (hs & Hhs & ->).
  destruct (result_fields hs) as (Hst & _ & Hdc & _).
  pose proof (holdings_steady Ticker rows hs Hrows Hhs) as Hsteady.
  rewrite Hst, Hdc. split.
  - unfold running_weighted_change, zero.
    destruct (steady_fold hs 0) as (t' & Hfold & _); [lra|done|].
    unfold zero in Hfold. by rewrite Hfold.
  - eapply Forall_impl; [|exact Hsteady]. by intros s [? _].
Qed.

Lemma daily_change_zero_when_histories_agree_witness :
  zero = zero ∧ Forall (λ s, Stock.daily_change s = zero) example_holdings.
Proof.
  apply (daily_change_zero_when_histories_agree example_market example_portfolio
           example_summary).
  - repeat constructor.
    + exists 150%Q, 10%Q. repeat split; (reflexivity || lra).
    + exists 100%Q, 5%Q. repeat split; (reflexivity || lra).
  - reflexivity.
Defined.

(** X13. A first row of zero shares poisons the daily change.  Its value
    and the running total are both zero, the weight is 0/0, and the daily
    change of the portfolio is NaN whatever rows follow. *)
Theorem zero_shares_first_row_gives_nan
    (Ticker : string → yf.ticker) (row : Row) (rest : list Row) (a : Analysis)
    (p n : Q) (prev : num) (sec : string) :
  lookup Ticker (Symbol row) = Ok (Fin p, prev, sec) →
  Shares row = Fin n → (n == 0)%Q →
  analyze_portfolio Ticker (row :: rest) = Ok a →
  daily_change a = NaN.
Proof.
  intros Hq Hn Hn0 Ha.
  destruct (analyze_portfolio_ok _ _ _ Ha) as (hs & Hhs & ->).
  destruct (result_fields hs) as (_ & _ & -> & _).
  simpl in Hhs. rewrite Hq, bind_Ok in Hhs.
  destruct (holdings Ticker rest) as [hs'|e]; [|done].
  injection Hhs as <-.
  unfold running_weighted_change.
  match goal with
  | |- (foldl weighted_step _ (?s :: hs')).2 = NaN =>
      change (foldl weighted_step (zero, zero) (s :: hs'))
        with (foldl weighted_step (weighted_step (zero, zero) s) hs');
      assert (weighted_step (zero, zero) s = (zero, NaN)) as ->
  end.
  { unfold weighted_step. cbn [fst snd Stock.total_value Stock.daily_change].
    rewrite Hn.
    assert ((Fin p * Fin n)%num = zero) as ->.
    { unfold mul. change zero with (fin 0). apply fin_ext. rewrite Hn0. ring. }
    change (zero + zero)%num with zero. change (zero / zero)%num with NaN.
    by rewrite mul_NaN_r. }
  apply poisoned_fold.
Qed.

Lemma zero_shares_first_row_gives_nan_witness :
  daily_change
    (set_risk_level (to_percentages
       (foldl add_holding initial
          (holding {| Symbol := "AAPL"; Shares := of_Z 0 |} (of_Z 150, of_Z 150, "Tech")
           :: example_holdings)))) = NaN.
Proof.
  exact (zero_shares_first_row_gives_nan example_market
           {| Symbol := "AAPL"; Shares := of_Z 0 |} example_portfolio _
           150%Q 0%Q (of_Z 150) "Tech" eq_refl eq_refl (Qeq_refl 0) eq_refl).
Defined.

End PortfolioMore.

(* ================================================================== *)
(** * Quotes, news and key metrics *)
(* ================================================================== *)

Section Substrings.

Lemma prefix_append (s t : string) : String.prefix s (s ++ t) = true.
Proof.
  induction s as [|c s IH]; simpl; [by destruct t|].
  destruct (Ascii.ascii_dec c c); [exact IH|done].
Qed.

Lemma contains_prefix (s t : string) : contains s (s ++ t) = true.
Proof.
  destruct s as [|c s]; [by destruct t|].
  change (contains (String c s) (String c s ++ t))
    with (String.prefix (String c s) (String c s ++ t)
          || contains (String c s) (s ++ t)).
  by rewrite prefix_append.
Qed.

(** A string occurs in every string built around it. *)
Lemma contains_middle (pre s post : string) : contains s (pre ++ s ++ post) = true.
Proof.
  induction pre as [|c pre IH]; [exact (contains_prefix s post)|].
  change (contains s (String c pre ++ s ++ post))
    with (String.prefix s (String c (pre ++ s ++ post))
          || contains s (pre ++ s ++ post)).
  rewrite IH. apply orb_true_r.
Qed.

End Substrings.

Section FirstFailure.

Variable strftime : pyval → result string.

(** The loop over the news raises exactly the exception of the first item
    whose publication time cannot be formatted. *)
Lemma format_news_Raise (srcs : list (gmap string pyval)) (cause : exn) :
  News.format_news strftime srcs = Raise cause ↔
  ∃ pre src post,
    srcs = (pre ++ src :: post)%list ∧
    Forall (λ it, ∃ p, strftime (pyget it "providerPublishTime" (PNum 0)) = Ok p) pre ∧
    strftime (pyget src "providerPublishTime" (PNum 0)) = Raise cause.
Proof.
  induction srcs as [|it rest IH]; simpl.
  - split; [done|]. intros (pre & src & post & H & _). by destruct pre.
  - unfold News.format_item.
    destruct (strftime (pyget it "providerPublishTime" (PNum 0))) as [p|e] eqn:Hit.
    + rewrite !bind_Ok. split.
      * intros H.
        assert (News.format_news strftime rest = Raise cause) as Hrest.
        { destruct (News.format_news strftime rest); [done|]. exact H. }
        apply IH in Hrest as (pre & src & post & -> & Hpre & Hsrc).
        exists (it :: pre), src, post. split; [done|]. split; [|done].
        constructor; [by exists p|done].
      * intros (pre & src & post & Heq & Hpre & Hsrc).
        destruct pre as [|it' pre]; simpl in Heq; injection Heq as -> ->.
        { congruence. }
        inversion Hpre as [|? ? _ Hpre']; subst.
        assert (News.format_news strftime (pre ++ src :: post)%list = Raise cause)
          as ->; [|done].
        apply IH. by exists pre, src, post.
    + split.
      * intros [= ->]. exists [], it, rest. split; [done|]. split; [constructor|done].
      * intros (pre & src & post & Heq & Hpre & Hsrc).
        destruct pre as [|it' pre]; simpl in Heq; injection Heq as -> ->.
        { rewrite Hit in Hsrc. by injection Hsrc as ->. }
        inversion Hpre as [|? ? [p Hp] _]; subst. congruence.
Qed.

End FirstFailure.

(** X16. Both fetchers wrap the provider's own exception and name the
    symbol.  [get_stock_data] raises exactly when the provider's [history]
    raises, or returns and its [info] raises; [get_stock_news] raises exactly
    when the provider's [news] raises, or returns and the publication time of
    one of the items within the limit cannot be formatted (the first such
    item counts).  The exception raised is then a plain [Exception] whose
    message is the fetcher's prefix, the symbol, a colon and the message of
    that very exception of the provider; so the message contains the
    symbol. *)
Theorem fetch_errors_name_the_symbol :
  (∀ (Ticker : string → yf.ticker) (symbol period : string) (e : exn),
     get_stock_data Ticker symbol period = Raise e ↔
     ∃ cause,
       (yf.history (Ticker symbol) period = Raise cause
        ∨ (∃ hist, yf.history (Ticker symbol) period = Ok hist)
          ∧ yf.info (Ticker symbol) = Raise cause) ∧
       e = Exception ("Error fetching data for " ++ symbol ++ ": " ++ str cause)) ∧
  (∀ (news_of : string → result (list (gmap string pyval)))
     (strftime : pyval → result string) (symbol : string) (limit : Z) (e : exn),
     News.get_stock_news news_of strftime symbol limit = Raise e ↔
     ∃ cause,
       (news_of symbol = Raise cause
        ∨ ∃ news pre src post,
            news_of symbol = Ok news ∧
            News.slice_to limit news = (pre ++ src :: post)%list ∧
            Forall (λ it, ∃ p, strftime (pyget it "providerPublishTime" (PNum 0)) = Ok p)
                   pre ∧
            strftime (pyget src "providerPublishTime" (PNum 0)) = Raise cause) ∧
       e = Exception ("Error fetching news for " ++ symbol ++ ": " ++ str cause)) ∧
  (∀ (symbol : string) (cause : exn),
     contains symbol
       (str (Exception ("Error fetching data for " ++ symbol ++ ": " ++ str cause)))
       = true ∧
     contains symbol
       (str (Exception ("Error fetching news for " ++ symbol ++ ": " ++ str cause)))
       = true).
Proof.
  split; [|split].
  - intros Ticker symbol period e. unfold get_stock_data.
    destruct (yf.history (Ticker symbol) period) as [hist|c1] eqn:Hh.
    + rewrite bind_Ok.
      destruct (yf.info (Ticker symbol)) as [i|c2] eqn:Hi.
      * split; [done|]. intros (cause & [?|[_ ?]] & _); done.
      * split.
        -- intros [= <-]. exists c2. split; [|done]. right. split; [by exists hist|done].
        -- intros (cause & [?|[_ [= ->]]] & ->); done.
    + split.
      * intros [= <-]. exists c1. split; [by left|done].
      * intros (cause & [[= ->]|[[hist ?] _]] & ->); done.
  - intros news_of strftime symbol limit e. unfold News.get_stock_news.
    destruct (news_of symbol) as [news|c1] eqn:Hn.
    + rewrite bind_Ok.
      destruct (News.format_news strftime (News.slice_to limit news)) as [its|c2] eqn:Hf.
      * split; [done|]. intros (cause & [?|(news' & pre & src & post & Hn' & Hs & Hpre & Hsrc)] & _);
          [done|]. injection Hn' as <-.
        assert (News.format_news strftime (News.slice_to limit news) = Raise cause) as Hr.
        { apply format_news_Raise. by exists pre, src, post. }
        congruence.
      * split.
        -- intros [= <-]. exists c2. split; [|done]. right.
           apply format_news_Raise in Hf as (pre & src & post & Hs & Hpre & Hsrc).
           by exists news, pre, src, post.
        -- intros (cause & [?|(news' & pre & src & post & Hn' & Hs & Hpre & Hsrc)] & ->);
             [done|]. injection Hn' as <-.
           assert (News.format_news strftime (News.slice_to limit news) = Raise cause) as Hr.
           { apply format_news_Raise. by exists pre, src, post. }
           congruence.
    + split.
      * intros [= <-]. exists c1. split; [by left|done].
      * intros (cause & [[= ->]|(news' & ? & ? & ? & ? & _)] & ->); done.
  - intros symbol cause. split; unfold str at 1; apply contains_middle.
Qed.

Lemma fetch_errors_name_the_symbol_witness :
  ∃ cause,
    ((Raise (Exception "no network") : result DataFrame) = Raise cause
     ∨ (∃ hist, (Raise (Exception "no network") : result DataFrame) = Ok hist)
       ∧ (Ok ∅ : result dict) = Raise cause) ∧
    Exception "Error fetching data for ZZZ: no network"
      = Exception ("Error fetching data for " ++ "ZZZ" ++ ": " ++ str cause).
Proof.
  exact (proj1 (proj1 fetch_errors_name_the_symbol
                  (λ _, {| yf.history := λ _, Raise (Exception "no network");
                           yf.info := Ok ∅ |})
                  "ZZZ" "1y" (Exception "Error fetching data for ZZZ: no network"))
           eq_refl).
Defined.

Section NewsFacts.

Variable news_of : string → result (list (gmap string pyval)).
Variable strftime : pyval → result string.

Lemma format_news_items (srcs : list (gmap string pyval)) (items : list News.item) :
  News.format_news strftime srcs = Ok items →
  Forall2 (λ src it, News.format_item strftime src = Ok it) srcs items.
Proof.
  revert items. induction srcs as [|src srcs IH]; intros items H; simpl in H.
  - injection H as <-. constructor.
  - destruct (News.format_item strftime src) as [it|e] eqn:Hit; [|done].
    rewrite bind_Ok in H.
    destruct (News.format_news strftime srcs) as [its|e]; [|done].
    injection H as <-. constructor; [done|]. by apply IH.
Qed.

Lemma format_item_title src it :
  News.format_item strftime src = Ok it →
  News.title it = pyget src "title" (PStr "") ∧
  strftime (pyget src "providerPublishTime" (PNum 0)) = Ok (News.published it).
Proof.
  unfold News.format_item. destruct (strftime _) as [p|e]; [|done].
  rewrite bind_Ok. by intros [= <-].
Qed.

End NewsFacts.

(** X17. The news list respects the limit and the order.  When
    [get_stock_news] returns, its items are the formatted first items of the
    provider's list, in order: as many as the limit allows (all but the last
    [-limit] for a negative limit); a field the provider left out is the empty
    string, and a missing publication time is formatted as timestamp 0. *)
Theorem news_respects_limit
    (news_of : string → result (list (gmap string pyval)))
    (strftime : pyval → result string)
    (symbol : string) (limit : Z) (items : list News.item) :
  News.get_stock_news news_of strftime symbol limit = Ok items →
  ∃ news,
    news_of symbol = Ok news ∧
    ((0 ≤ limit)%Z → length items = (Z.to_nat limit `min` length news)%nat) ∧
    ((limit < 0)%Z → length items = (length news - Z.to_nat (- limit))%nat) ∧
    ∀ i it, items !! i = Some it →
      ∃ src, news !! i = Some src ∧
             News.title it = pyget src "title" (PStr "") ∧
             News.publisher it = pyget src "publisher" (PStr "") ∧
             News.link it = pyget src "link" (PStr "") ∧
             News.summary it = pyget src "summary" (PStr "") ∧
             strftime (pyget src "providerPublishTime" (PNum 0))
               = Ok (News.published it).
Proof.
  unfold News.get_stock_news. intros H.
  destruct (news_of symbol) as [news|e]; [|done].
  rewrite bind_Ok in H.
  destruct (News.format_news strftime (News.slice_to limit news)) as [its|e] eqn:Hf;
    [|done].
  injection H as <-.
  apply format_news_items in Hf.
  assert (length (News.slice_to limit news) = length its) as Hlen.
  { clear -Hf. induction Hf; simpl; congruence. }
  exists news. split; [done|]. split; [|split].
  - intros Hl. rewrite <- Hlen. unfold News.slice_to.
    destruct (Z.leb_spec 0 limit); [|lia]. by rewrite length_take.
  - intros Hl. rewrite <- Hlen. unfold News.slice_to.
    destruct (Z.leb_spec 0 limit); [lia|]. rewrite length_take. lia.
  - intros i it Hit.
    destruct (Forall2_lookup_r _ _ _ _ _ Hf Hit) as (src & Hsrc & Hfmt).
    exists src. split.
    + unfold News.slice_to in Hsrc.
      destruct (0 <=? limit)%Z; apply lookup_take_Some in Hsrc as [? _]; done.
    + revert Hfmt. unfold News.format_item.
      destruct (strftime _) as [p|e]; [|done].
      rewrite bind_Ok. by intros [= <-].
Qed.

Lemma news_respects_limit_witness :
  ∃ news,
    Ok [ ({[ "title" := PStr "a" ]} : gmap string pyval); ∅; ∅ ] = Ok news ∧
    ((0 ≤ 2)%Z →
       length [ {| News.title := PStr "a"; News.publisher := PStr "";
                   News.link := PStr ""; News.published := "1970-01-01 00:00";
                   News.summary := PStr "" |};
                {| News.title := PStr ""; News.publisher := PStr "";
                   News.link := PStr ""; News.published := "1970-01-01 00:00";
                   News.summary := PStr "" |} ]
       = (Z.to_nat 2 `min` length news)%nat) ∧
    ((2 < 0)%Z →
       length [ {| News.title := PStr "a"; News.publisher := PStr "";
                   News.link := PStr ""; News.published := "1970-01-01 00:00";
                   News.summary := PStr "" |};
                {| News.title := PStr ""; News.publisher := PStr "";
                   News.link := PStr ""; News.published := "1970-01-01 00:00";
                   News.summary := PStr "" |} ]
       = (length news - Z.to_nat (- 2))%nat) ∧
    ∀ i it,
      [ {| News.title := PStr "a"; News.publisher := PStr "";
           News.link := PStr ""; News.published := "1970-01-01 00:00";
           News.summary := PStr "" |};
        {| News.title := PStr ""; News.publisher := PStr "";
           News.link := PStr ""; News.published := "1970-01-01 00:00";
           News.summary := PStr "" |} ] !! i = Some it →
      ∃ src, news !! i = Some src ∧
             News.title it = pyget src "title" (PStr "") ∧
             News.publisher it = pyget src "publisher" (PStr "") ∧
             News.link it = pyget src "link" (PStr "") ∧
             News.summary it = pyget src "summary" (PStr "") ∧
             (λ _ : pyval, Ok "1970-01-01 00:00")
               (pyget src "providerPublishTime" (PNum 0))
               = Ok (News.published it).
Proof.
  exact (news_respects_limit
           (λ _, Ok [ ({[ "title" := PStr "a" ]} : gmap string pyval); ∅; ∅ ])
           (λ _, Ok "1970-01-01 00:00") "AAPL" 2%Z _ eq_refl).
Defined.

Module MetricsFacts.

Import Metrics.

Section Strings.

(** No presentation of a number reads ['N/A']. *)
Lemma fixed2_not_na (q : Q) : Format.fixed2 q ≠ "N/A".
Proof.
  unfold Format.fixed2.
  generalize (Format.digits (Format.round_half_even (q * 100) / 100)).
  intros [|c1 [|c2 [|c3 [|c4 pre]]]]; simpl; discriminate.
Qed.

Lemma minus_fixed2_not_na (s : bool) (q : Q) :
  Format.minus s ++ Format.fixed2 q ≠ "N/A".
Proof.
  destruct s; [discriminate|]. apply fixed2_not_na.
Qed.

Lemma f2_not_na (x : float) : Format.f2 x ≠ "N/A".
Proof.
  unfold Format.f2, Format.fixed_point.
  destruct (Prim2SF x) as [s|s| |s m e].
  - apply minus_fixed2_not_na.
  - by destruct s.
  - discriminate.
  - apply minus_fixed2_not_na.
Qed.

(** The percentage is rounded twice: the product with 100 to binary64, then
    the digits.  The yield nearest to 0.00625 prints as 0.62%, although its
    exact hundredfold is above 0.625. *)
Example percent_of_0_00625 :
  Format.pct2 0x1.999999999999ap-8 = "0.62%" ∧
  Format.fixed2 (Format.magnitude 7205759403792794 (-60) * 100) = "0.63" ∧
  Format.pct2 0.28125 = "28.12%" ∧
  Format.pct2 (-0.5) = "-50.00%".
Proof. repeat split; vm_compute; reflexivity. Qed.

Example thousands_separators :
  Format.comma_0f 1200000000 = "1,200,000,000" ∧
  Format.comma_0f 9007199254740992 = "9,007,199,254,740,992" ∧
  Format.comma_0f 1234567.5 = "1,234,568" ∧
  Format.comma_0f 2.5 = "2" ∧
  Format.comma_0f 999 = "999".
Proof. repeat split; vm_compute; reflexivity. Qed.

Example two_decimals :
  Format.f2 1.25 = "1.25" ∧
  Format.f2 0.125 = "0.12" ∧
  Format.f2 0.375 = "0.38" ∧
  Format.f2 (-0.0009765625) = "-0.00" ∧
  Format.f2 (1 / 0) = "inf" ∧
  Format.f2 (0 / 0) = "nan".
Proof. repeat split; vm_compute; reflexivity. Qed.

Lemma percent_not_na (s : string) : s ++ "%" ≠ "N/A".
Proof.
  destruct s as [|c1 [|c2 [|c3 [|c4 s]]]]; simpl; discriminate.
Qed.

Lemma shown_not_na (label : string) (x : float) : shown label x ≠ "N/A".
Proof.
  unfold shown.
  destruct (String.eqb label "Market Cap"); [discriminate|].
  destruct (String.eqb label "Dividend Yield").
  - apply percent_not_na.
  - apply f2_not_na.
Qed.

End Strings.

Section Items.

Implicit Types (items : list (string * pyval)) (out : list (string * string)).

Lemma is_na_true (v : pyval) : is_na v = true ↔ v = PStr "N/A".
Proof.
  destruct v as [x|s|]; simpl; [done| |done].
  rewrite String.eqb_eq. split; [by intros ->|by intros [= ->]].
Qed.

(** The string a number ends up as. *)
Lemma format_metric_number key x : format_metric key (PNum x) = Ok (shown key x).
Proof.
  unfold format_metric, shown. simpl.
  destruct (String.eqb key "Market Cap"); [done|].
  by destruct (String.eqb key "Dividend Yield").
Qed.

Lemma format_metric_na key : format_metric key (PStr "N/A") = Ok "N/A".
Proof. reflexivity. Qed.

(** An item is formatted exactly when it is a number or ['N/A']. *)
Lemma format_metric_Ok_iff key v :
  (∃ s, format_metric key v = Ok s) ↔ (∃ x, v = PNum x) ∨ v = PStr "N/A".
Proof.
  split.
  - intros [s Hs]. destruct v as [x|t|]; [left; by eexists| |].
    + right. apply is_na_true. unfold format_metric in Hs.
      destruct (is_na (PStr t)); [done|]. simpl in Hs.
      destruct (String.eqb key "Market Cap"); [done|].
      by destruct (String.eqb key "Dividend Yield").
    + unfold format_metric in Hs. simpl in Hs.
      destruct (String.eqb key "Market Cap"); [done|].
      by destruct (String.eqb key "Dividend Yield").
  - intros [[x ->]| ->]; [rewrite format_metric_number|]; by eexists.
Qed.

Lemma format_items_Forall2 items out :
  format_items items = Ok out →
  Forall2 (λ kv ks, ks.1 = kv.1 ∧ format_metric kv.1 kv.2 = Ok ks.2) items out.
Proof.
  revert out. induction items as [|[k v] items IH]; intros out H; simpl in H.
  - injection H as <-. constructor.
  - destruct (format_metric k v) as [s|e] eqn:Hs; [|done].
    rewrite bind_Ok in H.
    destruct (format_items items) as [out'|e]; [|done].
    injection H as <-. constructor; [done|]. by apply IH.
Qed.

Lemma format_items_Ok_iff items :
  (∃ out, format_items items = Ok out)
  ↔ Forall (λ kv, ∃ s, format_metric kv.1 kv.2 = Ok s) items.
Proof.
  induction items as [|[k v] items IH]; simpl.
  - split; [constructor|by eexists].
  - destruct (format_metric k v) as [s|e] eqn:Hs.
    + rewrite bind_Ok. split.
      * intros [out Hout]. constructor; [by eexists|]. apply IH.
        destruct (format_items items); [by eexists|done].
      * intros H. inversion H as [|? ? _ Hrest]; subst.
        apply IH in Hrest as [out' ->]. by eexists.
    + split; [by intros [? ?]|].
      intros H. inversion H as [|? ? [s Hs'] _]; subst. simpl in Hs'. congruence.
Qed.

Lemma format_items_keys items out :
  format_items items = Ok out → out.*1 = items.*1.
Proof.
  intros H. apply format_items_Forall2 in H.
  induction H as [|[k v] [k' s] items out [Hk _] _ IH]; [done|].
  simpl in Hk. rewrite !fmap_cons. simpl. by rewrite Hk, IH.
Qed.

Lemma labels_NoDup : NoDup labels.*1.
Proof.
  apply (bool_decide_unpack _). by vm_compute.
Qed.

End Items.

Section Result.

Variable info : gmap string pyval.

(** The entry of a label in the result is the formatted entry of [info]. *)
Lemma get_key_metrics_lookup (m : dict) label key :
  get_key_metrics info = Ok m → (label, key) ∈ labels →
  ∃ s, m !! label = Some s ∧
       format_metric label (pyget info key (PStr "N/A")) = Ok s.
Proof.
  unfold get_key_metrics. intros H Hin.
  destruct (format_items _) as [out|e] eqn:Hout; [|done].
  rewrite bind_Ok in H. injection H as <-.
  pose proof (format_items_keys _ _ Hout) as Hkeys.
  pose proof (format_items_Forall2 _ _ Hout) as Hall.
  apply list_elem_of_lookup in Hin as [i Hi].
  assert (((λ '(label, key), (label, pyget info key (PStr "N/A"))) <$> labels) !! i
          = Some (label, pyget info key (PStr "N/A"))) as Hitem.
  { by rewrite list_lookup_fmap, Hi. }
  destruct (Forall2_lookup_l _ _ _ _ _ Hall Hitem) as ([k s] & Hs & Hk & Hfmt).
  simpl in Hk, Hfmt. subst k.
  exists s. split; [|done].
  assert (NoDup out.*1) as Hnd.
  { rewrite Hkeys, <- list_fmap_compose.
    assert ((fst ∘ (λ '(label, key), (label, pyget info key (PStr "N/A")))) <$> labels
            = labels.*1) as ->; [|apply labels_NoDup].
    reflexivity. }
  apply (elem_of_list_to_map_1 out label s Hnd).
  by eapply list_elem_of_lookup_2.
Qed.

End Result.

(** X18. What the key metrics show.  When [get_key_metrics] returns, the
    result has exactly the seven labels.  A label reads ['N/A'] exactly when
    its entry of [info] is absent or is the string ['N/A'] itself; a number
    is shown with a dollar sign and thousands separators under Market Cap, as
    a percentage under Dividend Yield (the binary64 product with 100, with
    two decimals and a percent sign), and with two decimals elsewhere; the
    digits are those of the exact value of the binary64 number, rounded to
    the nearest, ties to even. *)
Theorem key_metrics_entries (info : gmap string pyval) (m : dict) :
  get_key_metrics info = Ok m →
  dom m = list_to_set labels.*1 ∧
  ∀ label key, (label, key) ∈ labels →
    (m !! label = Some "N/A"
       ↔ info !! key = None ∨ info !! key = Some (PStr "N/A")) ∧
    (∀ x, info !! key = Some (PNum x) → m !! label = Some (shown label x)).
Proof.
  intros Hm. split.
  - revert Hm. unfold get_key_metrics.
    destruct (format_items _) as [out|e] eqn:Hout; [|done].
    rewrite bind_Ok. intros [= <-].
    rewrite dom_list_to_map_L, (format_items_keys _ _ Hout).
    by rewrite <- list_fmap_compose.
  - intros label key Hin.
    destruct (get_key_metrics_lookup info m label key Hm Hin) as (s & Hs & Hfmt).
    rewrite Hs. unfold pyget in Hfmt. split.
    + destruct (info !! key) as [[x|t|]|] eqn:Hk.
      * rewrite format_metric_number in Hfmt. injection Hfmt as <-.
        split; [|by intros [?|?]].
        intros [= Hna]. by apply shown_not_na in Hna.
      * destruct (is_na (PStr t)) eqn:Hna.
        -- apply is_na_true in Hna. injection Hna as ->.
           rewrite format_metric_na in Hfmt. injection Hfmt as <-.
           split; [by right|done].
        -- exfalso.
           destruct (format_metric_Ok_iff label (PStr t)) as [Hok _].
           destruct Hok as [[x ?]|Heq]; [by eexists|done|].
           apply is_na_true in Heq. congruence.
      * exfalso.
        destruct (format_metric_Ok_iff label PNone) as [Hok _].
        destruct Hok as [[x ?]|?]; [by eexists|done|done].
      * rewrite format_metric_na in Hfmt. injection Hfmt as <-.
        split; [by left|done].
    + intros x Hx. rewrite Hx, format_metric_number in Hfmt. by injection Hfmt as <-.
Qed.

Lemma key_metrics_entries_witness :
  dom ({[ "Market Cap" := "$1,200,000,000"; "P/E Ratio" := "N/A";
          "Forward P/E" := "N/A"; "Dividend Yield" := "0.62%";
          "Beta" := "1.25"; "52 Week High" := "N/A";
          "52 Week Low" := "N/A" ]} : dict)
    = list_to_set labels.*1 ∧
  ∀ label key, (label, key) ∈ labels →
    (({[ "Market Cap" := "$1,200,000,000"; "P/E Ratio" := "N/A";
         "Forward P/E" := "N/A"; "Dividend Yield" := "0.62%";
         "Beta" := "1.25"; "52 Week High" := "N/A";
         "52 Week Low" := "N/A" ]} : dict) !! label = Some "N/A"
       ↔ ({[ "marketCap" := PNum 1200000000;
             "beta" := PNum 1.25;
             "dividendYield" := PNum 0x1.999999999999ap-8 ]} : gmap string pyval) !! key = None
         ∨ ({[ "marketCap" := PNum 1200000000;
               "beta" := PNum 1.25;
               "dividendYield" := PNum 0x1.999999999999ap-8 ]} : gmap string pyval) !! key
           = Some (PStr "N/A")) ∧
    (∀ x, ({[ "marketCap" := PNum 1200000000;
              "beta" := PNum 1.25;
              "dividendYield" := PNum 0x1.999999999999ap-8 ]} : gmap string pyval) !! key
          = Some (PNum x) →
          ({[ "Market Cap" := "$1,200,000,000"; "P/E Ratio" := "N/A";
              "Forward P/E" := "N/A"; "Dividend Yield" := "0.62%";
              "Beta" := "1.25"; "52 Week High" := "N/A";
              "52 Week Low" := "N/A" ]} : dict) !! label = Some (shown label x)).
Proof.
  exact (key_metrics_entries
           {[ "marketCap" := PNum 1200000000;
              "beta" := PNum 1.25;
              "dividendYield" := PNum 0x1.999999999999ap-8 ]}
           {[ "Market Cap" := "$1,200,000,000"; "P/E Ratio" := "N/A";
              "Forward P/E" := "N/A"; "Dividend Yield" := "0.62%";
              "Beta" := "1.25"; "52 Week High" := "N/A";
              "52 Week Low" := "N/A" ]}
           eq_refl).
Defined.

(** X19. When the key metrics can be computed.  [get_key_metrics] returns
    exactly when each of the seven entries of [info] it reads is absent, a
    number, or the string ['N/A']; any other string (such as ['Infinity']) or
    [None] makes it raise, and nothing is returned. *)
Theorem key_metrics_succeed_iff (info : gmap string pyval) :
  (∃ m, get_key_metrics info = Ok m)
  ↔ Forall (λ lk, presentable info lk.2) labels.
Proof.
  unfold get_key_metrics.
  assert ((∃ m : dict,
             (format_items ((λ '(label, key), (label, pyget info key (PStr "N/A")))
                              <$> labels)
              ≫= λ formatted, mret (list_to_map formatted)) = Ok m)
          ↔ ∃ out, format_items ((λ '(label, key), (label, pyget info key (PStr "N/A")))
                                   <$> labels) = Ok out) as ->.
  { destruct (format_items _) as [out|e]; split; intros [? ?]; (done || by eexists). }
  rewrite format_items_Ok_iff, Forall_fmap.
  apply Forall_iff. intros [label key]. simpl.
  rewrite format_metric_Ok_iff. unfold presentable, pyget.
  destruct (info !! key) as [[x|t|]|].
  - split; [done|]. intros _. left. by eexists.
  - split.
    + intros [[x ?]|[= ->]]; done.
    + intros ->. by right.
  - split; [|done]. by intros [[x ?]|?].
  - split; [done|]. intros _. by right.
Qed.

End MetricsFacts.

(* ================================================================== *)
(** * The RSI of a monotone series *)
(* ================================================================== *)

Section Monotone.

Implicit Types (close s cells : Series) (d : num) (i k : nat).

Lemma gains_cellwise s : where_ s (gt_scalar s zero) zero = gain_of <$> s.
Proof.
  unfold where_, gt_scalar. induction s as [|d s IH]; [done|].
  simpl. f_equal. exact IH.
Qed.

Lemma losses_cellwise s :
  neg_series (where_ s (lt_scalar s zero) zero) = loss_of <$> s.
Proof.
  unfold neg_series, where_, lt_scalar. induction s as [|d s IH]; [done|].
  simpl. f_equal. exact IH.
Qed.

Lemma diff_lookup_0 close x : close !! 0%nat = Some x → diff close !! 0%nat = Some NaN.
Proof. destruct close as [|c l]; [done|]. intros _. unfold diff. simpl. by destruct c. Qed.

Lemma diff_lookup_S close k x y :
  close !! k = Some x → close !! S k = Some y →
  diff close !! S k = Some (y - x)%num.
Proof.
  intros Hx Hy. unfold diff. rewrite lookup_zip_with, Hy. simpl.
  by rewrite Hx.
Qed.

(** The sum of cells that are not negative is at least the start value, and
    above it when one cell is positive. *)
Lemma sum_from_lower cells (a : Q) :
  Forall nonneg cells →
  ∃ t, foldl add (Fin a) cells = Fin t ∧ (a <= t)%Q ∧
       ∀ k q, cells !! k = Some (Fin q) → (0 < q)%Q → (a < t)%Q.
Proof.
  intros Hs. revert a. induction Hs as [|x cells (b & -> & Hb) _ IH]; intros a.
  - exists a. split; [done|]. split; [lra|]. intros k q Hk. done.
  - simpl. destruct (IH (Qred (a + b))) as (t & Ht & Hle & Hpos).
    change (Fin a + Fin b)%num with (Fin (Qred (a + b))).
    exists t. split; [done|]. rewrite Qred_correct in Hle. split; [lra|].
    intros [|k] q Hk Hq.
    + injection Hk as ->. lra.
    + specialize (Hpos k q Hk Hq). rewrite Qred_correct in Hpos. lra.
Qed.

(** The mean of a full window of such cells, the last of which is positive,
    is positive. *)
Lemma rolling_mean_at_positive cells i q :
  Forall nonneg cells → (13 ≤ i)%nat →
  cells !! i = Some (Fin q) → (0 < q)%Q →
  ∃ g, rolling_mean_at 14 cells i = Fin g ∧ (0 < g)%Q.
Proof.
  intros Hnn Hi Hq Hq0.
  assert (Forall nonneg (window 14 i cells)) as Hw.
  { unfold window. by apply Forall_take, Forall_drop. }
  assert (Forall (λ x, is_finite x = true) (window 14 i cells)) as Hfin.
  { eapply Forall_impl; [|exact Hw]. by intros x (b & -> & _). }
  destruct (sum_from_lower (window 14 i cells) 0 Hw) as (t & Ht & _ & Hpos).
  assert (0 < t)%Q as Ht0.
  { apply (Hpos 13%nat q); [|done].
    rewrite window_lookup by lia. rewrite <- Hq. f_equal. lia. }
  unfold rolling_mean_at. destruct (Nat.ltb_spec (S i) 14); [lia|].
  rewrite (proj2 (forallb_finite_Forall _) Hfin).
  unfold Series.sum, zero. rewrite Ht.
  unfold div, of_Z. simpl (Qzero_b _).
  eexists. split; [reflexivity|]. rewrite Qred_correct.
  apply Qlt_shift_div_l; [reflexivity|]. lra.
Qed.

Lemma rolling_mean_zeros_lookup n i :
  (13 ≤ i)%nat → (i < n)%nat →
  rolling_mean 14 (replicate n zero) !! i = Some zero.
Proof.
  intros Hi Hn. rewrite rolling_mean_lookup by (by rewrite length_replicate).
  rewrite rolling_mean_at_zeros.
  destruct (Nat.ltb_spec (S i) 14); [lia|done].
Qed.

(** A column all of whose cells are mapped to zero. *)
Lemma fmap_all_zero (f : num → num) s :
  (∀ k d, s !! k = Some d → f d = zero) → f <$> s = replicate (length s) zero.
Proof.
  intros H. apply list_eq. intros k. rewrite list_lookup_fmap.
  destruct (s !! k) as [d|] eqn:Hk; simpl.
  - rewrite (H k d Hk). symmetry. apply lookup_replicate_2.
    by eapply lookup_lt_Some.
  - symmetry. apply lookup_ge_None_2. rewrite length_replicate.
    by apply lookup_ge_None_1.
Qed.

(** The differences of a rising column: no value at the first row, then
    positive numbers. *)
Lemma rising_diff close k d :
  rising close → diff close !! k = Some d →
  (k = 0%nat ∧ d = NaN) ∨ ∃ q, d = Fin q ∧ (0 < q)%Q.
Proof.
  intros Hr Hd. destruct k as [|k].
  - left. split; [done|].
    destruct (close !! 0%nat) as [x|] eqn:Hx.
    + rewrite (diff_lookup_0 close x Hx) in Hd. by injection Hd.
    + apply lookup_lt_Some in Hd. rewrite diff_length in Hd.
      apply lookup_ge_None_1 in Hx. lia.
  - right.
    assert (S k < length close)%nat as Hlt.
    { apply lookup_lt_Some in Hd. by rewrite diff_length in Hd. }
    destruct (lookup_lt_is_Some_2 close k) as [x Hx]; [lia|].
    destruct (lookup_lt_is_Some_2 close (S k)) as [y Hy]; [lia|].
    rewrite (diff_lookup_S close k x y Hx Hy) in Hd. injection Hd as <-.
    destruct (Hr k x y Hx Hy) as (a & b & -> & -> & Hab).
    exists (Qred (b - a)). split; [reflexivity|]. rewrite Qred_correct. lra.
Qed.

Lemma falling_diff close k d :
  falling close → diff close !! k = Some d →
  (k = 0%nat ∧ d = NaN) ∨ ∃ q, d = Fin q ∧ (q < 0)%Q.
Proof.
  intros Hr Hd. destruct k as [|k].
  - left. split; [done|].
    destruct (close !! 0%nat) as [x|] eqn:Hx.
    + rewrite (diff_lookup_0 close x Hx) in Hd. by injection Hd.
    + apply lookup_lt_Some in Hd. rewrite diff_length in Hd.
      apply lookup_ge_None_1 in Hx. lia.
  - right.
    assert (S k < length close)%nat as Hlt.
    { apply lookup_lt_Some in Hd. by rewrite diff_length in Hd. }
    destruct (lookup_lt_is_Some_2 close k) as [x Hx]; [lia|].
    destruct (lookup_lt_is_Some_2 close (S k)) as [y Hy]; [lia|].
    rewrite (diff_lookup_S close k x y Hx Hy) in Hd. injection Hd as <-.
    destruct (Hr k x y Hx Hy) as (a & b & -> & -> & Hab).
    exists (Qred (b - a)). split; [reflexivity|]. rewrite Qred_correct. lra.
Qed.

Lemma gain_of_positive q : (0 < q)%Q → gain_of (Fin q) = Fin q ∧ loss_of (Fin q) = zero.
Proof.
  intros Hq. unfold gain_of, loss_of, gt, lt, zero.
  rewrite (proj2 (Qlt_b_true 0 q) Hq).
  destruct (Qlt_b q 0) eqn:E; [apply Qlt_b_true in E; lra|]. done.
Qed.

Lemma loss_of_negative q :
  (q < 0)%Q → gain_of (Fin q) = zero ∧ loss_of (Fin q) = Fin (Qred (- q)).
Proof.
  intros Hq. unfold gain_of, loss_of, gt, lt, zero.
  rewrite (proj2 (Qlt_b_true q 0) Hq).
  destruct (Qlt_b 0 q) eqn:E; [apply Qlt_b_true in E; lra|]. done.
Qed.

End Monotone.

Section MonotoneRsi.

Implicit Types (close : Series) (i : nat).

Lemma avg_gain_cellwise close : avg_gain close = rolling_mean 14 (gain_of <$> diff close).
Proof. unfold avg_gain. by rewrite gains_cellwise. Qed.

Lemma avg_loss_cellwise close : avg_loss close = rolling_mean 14 (loss_of <$> diff close).
Proof. unfold avg_loss. by rewrite losses_cellwise. Qed.

Lemma rising_averages close i :
  rising close → (13 ≤ i)%nat → (i < length close)%nat →
  avg_loss close !! i = Some zero ∧
  ∃ g, avg_gain close !! i = Some (Fin g) ∧ (0 < g)%Q.
Proof.
  intros Hr Hi Hn. split.
  - rewrite avg_loss_cellwise.
    rewrite (fmap_all_zero loss_of (diff close)).
    + apply rolling_mean_zeros_lookup; [done|by rewrite diff_length].
    + intros k d Hd.
      destruct (rising_diff close k d Hr Hd) as [[_ ->]|(q & -> & Hq)]; [done|].
      by apply gain_of_positive.
  - rewrite avg_gain_cellwise.
    assert (Forall nonneg (gain_of <$> diff close)) as Hnn.
    { apply Forall_fmap, Forall_lookup_2. intros k d Hd. simpl.
      destruct (rising_diff close k d Hr Hd) as [[_ ->]|(q & -> & Hq)].
      - apply nonneg_zero.
      - rewrite (proj1 (gain_of_positive q Hq)). exists q. split; [done|]. lra. }
    destruct (lookup_lt_is_Some_2 (diff close) i) as [d Hd];
      [by rewrite diff_length|].
    destruct (rising_diff close i d Hr Hd) as [[-> _]|(q & -> & Hq)]; [lia|].
    destruct (rolling_mean_at_positive (gain_of <$> diff close) i q) as (g & Hg & Hg0);
      [done|done| |done|].
    { rewrite list_lookup_fmap, Hd. simpl.
      by rewrite (proj1 (gain_of_positive q Hq)). }
    exists g. split; [|done].
    rewrite rolling_mean_lookup by (by rewrite length_fmap, diff_length).
    by rewrite Hg.
Qed.

Lemma falling_averages close i :
  falling close → (13 ≤ i)%nat → (i < length close)%nat →
  avg_gain close !! i = Some zero ∧
  ∃ l, avg_loss close !! i = Some (Fin l) ∧ (0 < l)%Q.
Proof.
  intros Hr Hi Hn. split.
  - rewrite avg_gain_cellwise.
    rewrite (fmap_all_zero gain_of (diff close)).
    + apply rolling_mean_zeros_lookup; [done|by rewrite diff_length].
    + intros k d Hd.
      destruct (falling_diff close k d Hr Hd) as [[_ ->]|(q & -> & Hq)]; [done|].
      by apply loss_of_negative.
  - rewrite avg_loss_cellwise.
    assert (Forall nonneg (loss_of <$> diff close)) as Hnn.
    { apply Forall_fmap, Forall_lookup_2. intros k d Hd. simpl.
      destruct (falling_diff close k d Hr Hd) as [[_ ->]|(q & -> & Hq)].
      - apply nonneg_zero.
      - rewrite (proj2 (loss_of_negative q Hq)). eexists. split; [done|].
        rewrite Qred_correct. lra. }
    destruct (lookup_lt_is_Some_2 (diff close) i) as [d Hd];
      [by rewrite diff_length|].
    destruct (falling_diff close i d Hr Hd) as [[-> _]|(q & -> & Hq)]; [lia|].
    destruct (rolling_mean_at_positive (loss_of <$> diff close) i (Qred (- q)))
      as (g & Hg & Hg0); [done|done| | |].
    { rewrite list_lookup_fmap, Hd. simpl.
      by rewrite (proj2 (loss_of_negative q Hq)). }
    { rewrite Qred_correct. lra. }
    exists g. split; [|done].
    rewrite rolling_mean_lookup by (by rewrite length_fmap, diff_length).
    by rewrite Hg.
Qed.

End MonotoneRsi.

(** X4. The RSI of a monotone series.  Where the 14-row window is full
    (from index 13 on), the RSI is 100 on a series whose close rises from
    every row to the next, and 0 on a series whose close falls from every row
    to the next. *)
Theorem rsi_of_monotone_series (h : heap) (df : loc) (close : Series) :
  h df !! "Close" = Some close →
  ∃ h' rsi,
    calculate_technical_indicators df h = (Ok df, h') ∧
    h' df !! "RSI" = Some rsi ∧
    (rising close →
       ∀ i, (13 ≤ i)%nat → (i < length close)%nat → rsi !! i = Some hundred) ∧
    (falling close →
       ∀ i, (13 ≤ i)%nat → (i < length close)%nat → rsi !! i = Some zero).
Proof.
  intros Hc.
  destruct (calculate_technical_indicators_run h df close Hc) as (h' & Hrun & Hdf & _).
  exists h', (rsi14 close). split; [done|]. split.
  { rewrite Hdf. unfold with_indicators. by rewrite lookup_insert_eq. }
  split.
  - intros Hr i Hi Hn.
    destruct (rising_averages close i Hr Hi Hn) as (Hl & g & Hg & Hg0).
    rewrite (rsi14_lookup close i (Fin g) zero Hg Hl). f_equal.
    apply rsi_of_positive_over_zero. unfold gt, lt, zero. by apply Qlt_b_true.
  - intros Hf i Hi Hn.
    destruct (falling_averages close i Hf Hi Hn) as (Hg & l & Hl & Hl0).
    rewrite (rsi14_lookup close i zero (Fin l) Hg Hl). f_equal.
    rewrite PortfolioMore.zero_over_nonzero by lra. reflexivity.
Qed.

Lemma rsi_of_monotone_series_witness :
  ∃ h' rsi,
    calculate_technical_indicators 0%nat (λ _, rising60) = (Ok 0%nat, h') ∧
    h' 0%nat !! "RSI" = Some rsi ∧
    (rising ((λ n, of_Z (Z.of_nat n)) <$> seq 1 60) →
       ∀ i, (13 ≤ i)%nat → (i < length ((λ n, of_Z (Z.of_nat n)) <$> seq 1 60))%nat →
            rsi !! i = Some hundred) ∧
    (falling ((λ n, of_Z (Z.of_nat n)) <$> seq 1 60) →
       ∀ i, (13 ≤ i)%nat → (i < length ((λ n, of_Z (Z.of_nat n)) <$> seq 1 60))%nat →
            rsi !! i = Some zero).
Proof.
  exact (rsi_of_monotone_series (λ _, rising60) 0%nat
           ((λ n, of_Z (Z.of_nat n)) <$> seq 1 60) eq_refl).
Defined.

Example rsi_of_rising60 :
  (calculate_technical_indicators 0%nat (λ _, rising60)).2 0%nat !! "RSI"
    ≫= (λ rsi : Series, rsi !! 59%nat) = Some hundred.
Proof. vm_compute. reflexivity. Qed.

(** X14. Consequences of the decision table.  In a computed analysis, an
    RSI above 70 always gives Sell, whatever the prices and the volume; and
    the verdict is Hold exactly when the close is above exactly one of the two
    moving averages, the RSI is not above 70, and the oversold rule (RSI below
    30 on high volume) does not fire. *)
Theorem verdict_consequences
    (hist_data : DataFrame) (metrics info : dict) (a : Analysis) :
  calculate_analysis hist_data metrics info = Ok a →
  ∃ close ma20 ma50 rsi volume avg,
    latest hist_data "Close" = Ok close ∧
    latest hist_data "MA20" = Ok ma20 ∧
    latest hist_data "MA50" = Ok ma50 ∧
    latest hist_data "RSI" = Ok rsi ∧
    latest hist_data "Volume" = Ok volume ∧
    (column hist_data "Volume" ≫= (λ s, iloc_neg (rolling_mean 20 s) 1)) = Ok avg ∧
    ((rsi >? c70)%num = true → recommendation a = "Sell") ∧
    (recommendation a = "Hold"
       ↔ xorb (close >? ma50)%num (close >? ma20)%num = true ∧
         (rsi >? c70)%num = false ∧
         ((rsi <? c30)%num && (volume >? avg * c1_2)%num) = false).
Proof.
  unfold calculate_analysis, latest. intros H.
  destruct (column hist_data "Close" ≫= (λ s, iloc_neg s 1)) as [close|] eqn:Hc;
    [|discriminate].
  rewrite bind_Ok in H.
  destruct (column hist_data "Close" ≫= (λ s, iloc_neg s 2)) as [prev|] eqn:Hp;
    [|discriminate].
  rewrite bind_Ok in H.
  destruct (column hist_data "MA20" ≫= (λ s, iloc_neg s 1)) as [ma20|] eqn:H20;
    [|discriminate].
  rewrite bind_Ok in H.
  destruct (column hist_data "MA50" ≫= (λ s, iloc_neg s 1)) as [ma50|] eqn:H50;
    [|discriminate].
  rewrite bind_Ok in H.
  destruct (column hist_data "RSI" ≫= (λ s, iloc_neg s 1)) as [rsi|] eqn:Hr;
    [|discriminate].
  rewrite bind_Ok in H.
  destruct (column hist_data "Volume" ≫= (λ s, iloc_neg s 1)) as [volume|] eqn:Hv;
    [|discriminate].
  rewrite bind_Ok in H.
  destruct (column hist_data "Volume" ≫= (λ s, iloc_neg (rolling_mean 20 s) 1))
    as [avg|] eqn:Ha; [|discriminate].
  rewrite bind_Ok in H. cbv beta in H.
  exists close, ma20, ma50, rsi, volume, avg.
  repeat (split; [reflexivity|]).
  assert ((rsi >? c70)%num = true → (rsi <? c30)%num = false) as Hexcl.
  { destruct rsi as [q| | |]; unfold lt, gt, lt, c30, c70, of_Z; try done.
    rewrite Qlt_b_true. intros Hgt.
    destruct (Qlt_b q (inject_Z 30)) eqn:E; [|done].
    apply Qlt_b_true in E. change (inject_Z 30) with 30%Q in E.
    change (inject_Z 70) with 70%Q in Hgt. lra. }
  unfold decide_recommendation in H. cbn [price_above_ma50 price_above_ma20
    rsi_oversold rsi_overbought volume_high] in H.
  destruct (column hist_data "Close") as [cl|]; [|discriminate].
  destruct (rsi >? c70)%num eqn:Hhigh, (rsi <? c30)%num eqn:Hlow,
           (close >? ma50)%num eqn:H1, (close >? ma20)%num eqn:H2,
           (volume >? avg * c1_2)%num eqn:H3;
    (try (specialize (Hexcl eq_refl); discriminate));
    cbn in H; injection H as <-; cbn;
    (split; [try done; intros; discriminate|]);
    (split; [try done; intros; discriminate|intros (? & ? & ?); try done; discriminate]).
Qed.

Lemma verdict_consequences_witness :
  ∃ close ma20 ma50 rsi volume avg,
    latest rising_frame "Close" = Ok close ∧
    latest rising_frame "MA20" = Ok ma20 ∧
    latest rising_frame "MA50" = Ok ma50 ∧
    latest rising_frame "RSI" = Ok rsi ∧
    latest rising_frame "Volume" = Ok volume ∧
    (column rising_frame "Volume" ≫= (λ s, iloc_neg (rolling_mean 20 s) 1)) = Ok avg ∧
    ((rsi >? c70)%num = true
       → recommendation (get_stock_analysis rising_frame ∅ ∅) = "Sell") ∧
    (recommendation (get_stock_analysis rising_frame ∅ ∅) = "Hold"
       ↔ xorb (close >? ma50)%num (close >? ma20)%num = true ∧
         (rsi >? c70)%num = false ∧
         ((rsi <? c30)%num && (volume >? avg * c1_2)%num) = false).
Proof.
  exact (verdict_consequences rising_frame ∅ ∅ (get_stock_analysis rising_frame ∅ ∅) eq_refl).
Defined.
